(** * GearGuard: maintenance-request lifecycle, preventive scheduler, role gate

    A shallow embedding of the Django application under [src/maintenance]:
    [models.py] (Equipment, MaintenanceRequest), [views.py] (task and stage
    views, the preventive calendar), [forms.py] (the technician update form)
    and [mixins.py] / [decorators.py] (the role gate).

    Conventions of the embedding.
    - The database is a record of tables; a table is a finite map from the
      primary key to the row.  A view loads a row, mutates the in-memory
      instance and hands it to [save], which writes the row back.
    - A [DateField] value is the day ordinal of the date ([date.toordinal()]);
      a [DateTimeField] value is a number of microseconds.  Adding
      [timedelta(days=n)] to a date is [date_add], which raises
      [OverflowError] outside Python's dates (0001-01-01 to 9999-12-31).
    - The date code that can raise returns a [Result]: the value, the
      exception, or the end of the fuel of a loop.
    - A [DecimalField] with two decimal places is its number of hundredths.
    - One operation runs at one instant: every [timezone.now()] of an
      operation reads the same [Clock].
    - Nullable columns are [option]s; the [auto_now] bookkeeping columns
      ([created_at], [updated_at]) and free-text columns no operation here
      reads are left out. *)

From Stdlib Require Import ZArith Lia Ascii String.
From stdpp Require Import base option list strings gmap fin_maps.

Local Open Scope string_scope.
Local Open Scope Z_scope.

(** ** Dates and time *)

Definition date := Z.
Definition datetime := Z.
Definition decimal2 := Z.

(** [timezone.now()] and [timezone.now().date()]. *)
Record Clock := { now : datetime; today : date }.

(** Python's [calendar.isleap], [calendar.monthrange] day count and
    [date(y, m, d).toordinal()] (proleptic Gregorian, 0001-01-01 is day 1). *)
Definition isleap (y : Z) : bool :=
  ((y mod 4 =? 0) && negb (y mod 100 =? 0)) || (y mod 400 =? 0).

Definition days_in_month (y m : Z) : Z :=
  if m =? 2 then (if isleap y then 29 else 28)
  else if (m =? 4) || (m =? 6) || (m =? 9) || (m =? 11) then 30
  else 31.

Definition days_before_year (y : Z) : Z :=
  let y1 := y - 1 in y1 * 365 + y1 / 4 - y1 / 100 + y1 / 400.

Fixpoint days_before_month_aux (y : Z) (k : nat) : Z :=
  match k with
  | O => 0
  | S k' => days_before_month_aux y k' + days_in_month y (Z.of_nat k)
  end.

Definition days_before_month (y m : Z) : Z :=
  days_before_month_aux y (Z.to_nat (m - 1)).

Definition toordinal (y m d : Z) : date :=
  days_before_year y + days_before_month y m + d.

(** [date.weekday()]: Monday is 0. *)
Definition weekday (d : date) : Z := (d + 6) mod 7.

(** [datetime(year, month, day)] raises [ValueError] outside these bounds. *)
Definition valid_ymd (y m d : Z) : bool :=
  (1 <=? y) && (y <=? 9999) && (1 <=? m) && (m <=? 12)
  && (1 <=? d) && (d <=? days_in_month y m).

(** The exceptions of the date arithmetic, and the result of code that can
    raise: the value returned, the exception raised, or, for a loop run on
    fuel, the end of the fuel. *)
Inductive Exception := ValueError | OverflowError | TypeError.

Inductive Result (A : Type) : Type :=
  | Ok (a : A)
  | Raise (e : Exception)
  | OutOfFuel.

Arguments Ok {A} a.
Arguments Raise {A} e.
Arguments OutOfFuel {A}.

Definition and_then {A B : Type} (r : Result A) (f : A → Result B)
    : Result B :=
  match r with
  | Ok a => f a
  | Raise e => Raise e
  | OutOfFuel => OutOfFuel
  end.

(** [date.max.toordinal()]: 9999-12-31. *)
Definition date_max : date := 3652059.

(** [d + timedelta(days=days)]: [timedelta] raises [OverflowError] for more
    than 999999999 days either way, the addition when the sum is not a date
    from 0001-01-01 (day 1) to 9999-12-31. *)
Definition date_add (d : date) (days : Z) : Result date :=
  if (Z.abs days <=? 999999999) && (1 <=? d + days) && (d + days <=? date_max)
  then Ok (d + days)
  else Raise OverflowError.

(** The arguments of [datetime(year, month, day)] are C integers: a value
    that does not fit raises [OverflowError]; one out of the bounds of
    [valid_ymd] raises [ValueError]. *)
Definition fits_int (n : Z) : bool :=
  (-2147483648 <=? n) && (n <=? 2147483647).

Definition datetime_date (y m d : Z) : Result date :=
  if negb (fits_int y && fits_int m && fits_int d) then Raise OverflowError
  else if negb (valid_ymd y m d) then Raise ValueError
  else Ok (toordinal y m d).

(** ** Rows *)

(** [models.Equipment]. *)
Record Equipment := {
  equipment_name : string;
  serial_number : string;
  eq_maintenance_team : nat;
  default_technician : option nat;
  purchase_date : option date;
  maintenance_interval_days : option Z;
  is_scrapped : bool;
  scrap_date : option date;
  scrap_reason : option string
}.

(** [models.MaintenanceRequest]; [equipment] is the foreign key. *)
Record MaintenanceRequest := {
  subject : string;
  request_type : string;
  stage : string;
  priority : string;
  equipment : nat;
  maintenance_team : option nat;
  assigned_technician : option nat;
  created_by : nat;
  scheduled_date : option date;
  completed_date : option date;
  duration_hours : option decimal2;
  actual_start_time : option datetime;
  actual_end_time : option datetime;
  is_overdue : bool;
  technician_notes : option string;
  resolution_summary : option string
}.

(** The tables: requests and equipment by primary key, team membership as
    (team, user) pairs, and [UserProfile.role] by user id. *)
Record DB := {
  requests : gmap nat MaintenanceRequest;
  equipment_table : gmap nat Equipment;
  team_members : gset (nat * nat);
  profiles : gmap nat string
}.

(** Attribute assignment on an instance. *)
Definition set_stage (v : string) (r : MaintenanceRequest) : MaintenanceRequest :=
  {| subject := subject r; request_type := request_type r; stage := v;
     priority := priority r; equipment := equipment r;
     maintenance_team := maintenance_team r;
     assigned_technician := assigned_technician r; created_by := created_by r;
     scheduled_date := scheduled_date r; completed_date := completed_date r;
     duration_hours := duration_hours r;
     actual_start_time := actual_start_time r;
     actual_end_time := actual_end_time r; is_overdue := is_overdue r;
     technician_notes := technician_notes r;
     resolution_summary := resolution_summary r |}.

Definition set_assigned_technician (v : option nat) (r : MaintenanceRequest) : MaintenanceRequest :=
  {| subject := subject r; request_type := request_type r; stage := stage r;
     priority := priority r; equipment := equipment r;
     maintenance_team := maintenance_team r;
     assigned_technician := v; created_by := created_by r;
     scheduled_date := scheduled_date r; completed_date := completed_date r;
     duration_hours := duration_hours r;
     actual_start_time := actual_start_time r;
     actual_end_time := actual_end_time r; is_overdue := is_overdue r;
     technician_notes := technician_notes r;
     resolution_summary := resolution_summary r |}.

Definition set_completed_date (v : option date) (r : MaintenanceRequest) : MaintenanceRequest :=
  {| subject := subject r; request_type := request_type r; stage := stage r;
     priority := priority r; equipment := equipment r;
     maintenance_team := maintenance_team r;
     assigned_technician := assigned_technician r; created_by := created_by r;
     scheduled_date := scheduled_date r; completed_date := v;
     duration_hours := duration_hours r;
     actual_start_time := actual_start_time r;
     actual_end_time := actual_end_time r; is_overdue := is_overdue r;
     technician_notes := technician_notes r;
     resolution_summary := resolution_summary r |}.

Definition set_duration_hours (v : option decimal2) (r : MaintenanceRequest) : MaintenanceRequest :=
  {| subject := subject r; request_type := request_type r; stage := stage r;
     priority := priority r; equipment := equipment r;
     maintenance_team := maintenance_team r;
     assigned_technician := assigned_technician r; created_by := created_by r;
     scheduled_date := scheduled_date r; completed_date := completed_date r;
     duration_hours := v;
     actual_start_time := actual_start_time r;
     actual_end_time := actual_end_time r; is_overdue := is_overdue r;
     technician_notes := technician_notes r;
     resolution_summary := resolution_summary r |}.

Definition set_actual_start_time (v : option datetime) (r : MaintenanceRequest) : MaintenanceRequest :=
  {| subject := subject r; request_type := request_type r; stage := stage r;
     priority := priority r; equipment := equipment r;
     maintenance_team := maintenance_team r;
     assigned_technician := assigned_technician r; created_by := created_by r;
     scheduled_date := scheduled_date r; completed_date := completed_date r;
     duration_hours := duration_hours r;
     actual_start_time := v;
     actual_end_time := actual_end_time r; is_overdue := is_overdue r;
     technician_notes := technician_notes r;
     resolution_summary := resolution_summary r |}.

Definition set_actual_end_time (v : option datetime) (r : MaintenanceRequest) : MaintenanceRequest :=
  {| subject := subject r; request_type := request_type r; stage := stage r;
     priority := priority r; equipment := equipment r;
     maintenance_team := maintenance_team r;
     assigned_technician := assigned_technician r; created_by := created_by r;
     scheduled_date := scheduled_date r; completed_date := completed_date r;
     duration_hours := duration_hours r;
     actual_start_time := actual_start_time r;
     actual_end_time := v; is_overdue := is_overdue r;
     technician_notes := technician_notes r;
     resolution_summary := resolution_summary r |}.

Definition set_is_overdue (v : bool) (r : MaintenanceRequest) : MaintenanceRequest :=
  {| subject := subject r; request_type := request_type r; stage := stage r;
     priority := priority r; equipment := equipment r;
     maintenance_team := maintenance_team r;
     assigned_technician := assigned_technician r; created_by := created_by r;
     scheduled_date := scheduled_date r; completed_date := completed_date r;
     duration_hours := duration_hours r;
     actual_start_time := actual_start_time r;
     actual_end_time := actual_end_time r; is_overdue := v;
     technician_notes := technician_notes r;
     resolution_summary := resolution_summary r |}.

Definition set_technician_notes (v : option string) (r : MaintenanceRequest) : MaintenanceRequest :=
  {| subject := subject r; request_type := request_type r; stage := stage r;
     priority := priority r; equipment := equipment r;
     maintenance_team := maintenance_team r;
     assigned_technician := assigned_technician r; created_by := created_by r;
     scheduled_date := scheduled_date r; completed_date := completed_date r;
     duration_hours := duration_hours r;
     actual_start_time := actual_start_time r;
     actual_end_time := actual_end_time r; is_overdue := is_overdue r;
     technician_notes := v;
     resolution_summary := resolution_summary r |}.

Definition set_resolution_summary (v : option string) (r : MaintenanceRequest) : MaintenanceRequest :=
  {| subject := subject r; request_type := request_type r; stage := stage r;
     priority := priority r; equipment := equipment r;
     maintenance_team := maintenance_team r;
     assigned_technician := assigned_technician r; created_by := created_by r;
     scheduled_date := scheduled_date r; completed_date := completed_date r;
     duration_hours := duration_hours r;
     actual_start_time := actual_start_time r;
     actual_end_time := actual_end_time r; is_overdue := is_overdue r;
     technician_notes := technician_notes r;
     resolution_summary := v |}.

Definition set_scrap (d : date) (reason : option string) (e : Equipment) : Equipment :=
  {| equipment_name := equipment_name e; serial_number := serial_number e;
     eq_maintenance_team := eq_maintenance_team e;
     default_technician := default_technician e;
     purchase_date := purchase_date e;
     maintenance_interval_days := maintenance_interval_days e;
     is_scrapped := true; scrap_date := Some d; scrap_reason := reason |}.

Definition set_requests (v : gmap nat MaintenanceRequest) (db : DB) : DB :=
  {| requests := v; equipment_table := equipment_table db;
     team_members := team_members db; profiles := profiles db |}.

Definition set_equipment_table (v : gmap nat Equipment) (db : DB) : DB :=
  {| requests := requests db; equipment_table := v;
     team_members := team_members db; profiles := profiles db |}.

(** ** Python truth values *)

(** A date, a datetime, a model instance: falsy only when [None]. *)
Definition truthy {A} (o : option A) : bool :=
  match o with Some _ => true | None => false end.

(** A number ([int], [Decimal], [float]): [None] and zero are falsy. *)
Definition truthy_num (o : option Z) : bool :=
  match o with Some n => negb (n =? 0) | None => false end.

(** A string: [None] and the empty string are falsy. *)
Definition truthy_str (o : option string) : bool :=
  match o with Some s => negb (String.eqb s "") | None => false end.

(** ** models.py *)

(** The [is_overdue] rule of [MaintenanceRequest.save]. *)
Definition overdue_status (c : Clock) (self : MaintenanceRequest) : bool :=
  if truthy (scheduled_date self)
     && negb (bool_decide (stage self ∈ ["Repaired"; "Scrap"]))
  then match scheduled_date self with
       | Some d => d <? today c
       | None => false
       end
  else false.

(** [MaintenanceRequest.save]: recompute [is_overdue], cascade a Scrap stage
    to the equipment, write the row.  [None] is the exception Django raises
    when [self.equipment] names no row. *)
Definition MaintenanceRequest_save (c : Clock) (db : DB) (pk : nat)
    (self : MaintenanceRequest) : option DB :=
  let self := set_is_overdue (overdue_status c self) self in
  if bool_decide (stage self = "Scrap") then
    match equipment_table db !! equipment self with
    | None => None
    | Some e =>
        if negb (is_scrapped e) then
          let reason := if truthy_str (resolution_summary self)
                        then resolution_summary self else scrap_reason e in
          let e' := set_scrap (today c) reason e in
          Some (set_requests (<[pk := self]> (requests db))
                  (set_equipment_table
                     (<[equipment self := e']> (equipment_table db)) db))
        else Some (set_requests (<[pk := self]> (requests db)) db)
    end
  else Some (set_requests (<[pk := self]> (requests db)) db).

(** [Equipment.get_next_maintenance_date]'s query: the Preventive requests of
    the equipment in stage Repaired, [order_by('-completed_date',
    '-actual_end_time').first()].  The project's database is PostgreSQL,
    where a descending sort places NULL before every value. *)
Definition desc_le (a b : option Z) : bool :=
  match a, b with
  | None, _ => true
  | Some _, None => false
  | Some x, Some y => y <=? x
  end.

Definition desc_lt (a b : option Z) : bool := negb (desc_le b a).

Definition comes_before (r1 r2 : MaintenanceRequest) : bool :=
  desc_lt (completed_date r1) (completed_date r2)
  || (desc_le (completed_date r1) (completed_date r2)
      && desc_le (actual_end_time r1) (actual_end_time r2)).

Definition first_ordered (rows : list (nat * MaintenanceRequest))
    : option (nat * MaintenanceRequest) :=
  foldr (fun x best =>
           match best with
           | None => Some x
           | Some b => if comes_before (snd x) (snd b) then Some x else Some b
           end) None rows.

Definition completed_preventive (db : DB) (eq_pk : nat)
    : list (nat * MaintenanceRequest) :=
  filter (fun x => equipment (snd x) = eq_pk
                   ∧ request_type (snd x) = "Preventive"
                   ∧ stage (snd x) = "Repaired")
         (map_to_list (requests db)).

Definition last_preventive (db : DB) (eq_pk : nat)
    : option (nat * MaintenanceRequest) :=
  first_ordered (completed_preventive db eq_pk).

(** [last_preventive and last_preventive.completed_date]. *)
Definition last_preventive_completed_date (db : DB) (eq_pk : nat) : option date :=
  match last_preventive db eq_pk with
  | Some (_, r) => completed_date r
  | None => None
  end.

(** The date [get_next_maintenance_date] counts from: the completion date of
    the first row of its query, else the purchase date, else today. *)
Definition counted_from (c : Clock) (db : DB) (eq_pk : nat) (self : Equipment)
    : date :=
  match last_preventive_completed_date db eq_pk with
  | Some d => d
  | None => match purchase_date self with
            | Some p => p
            | None => today c
            end
  end.

(** [Equipment.get_next_maintenance_date]: [Ok None] is the [None] it
    returns without an interval, [Raise] the exception of the date
    addition. *)
Definition Equipment_get_next_maintenance_date (c : Clock) (db : DB)
    (eq_pk : nat) (self : Equipment) : Result (option date) :=
  if negb (truthy_num (maintenance_interval_days self)) then Ok None
  else
    match maintenance_interval_days self with
    | None => Ok None
    | Some interval =>
        match last_preventive_completed_date db eq_pk with
        | Some d =>
            and_then (date_add d interval) (λ next, Ok (Some next))
        | None =>
            let base_date := match purchase_date self with
                             | Some p => p
                             | None => today c
                             end in
            and_then (date_add base_date interval) (λ next, Ok (Some next))
        end
    end.

(** ** views.py: task and stage views *)

(** [request.user]. *)
Inductive Identity := AnonymousUser | User (uid : nat).

Inductive Outcome :=
  | JsonResponse (status : Z) (text : string)
  | Http404
  | PermissionDenied (msg : string)
  | RedirectToLogin
  | RedirectToSuccessUrl
  | FormErrors (errors : list (string * string))
  | Uncaught (exn : string).

(** [request_obj.maintenance_team in technician_teams], the teams having a
    membership row for the user. *)
Definition in_technician_teams (db : DB) (uid : nat) (team : option nat) : bool :=
  match team with
  | Some t => bool_decide ((t, uid) ∈ team_members db)
  | None => false
  end.

(** [request_obj.save()] followed by the view's response. *)
Definition save_then (c : Clock) (db : DB) (pk : nat)
    (request_obj : MaintenanceRequest) (ok : Outcome) : DB * Outcome :=
  match MaintenanceRequest_save c db pk request_obj with
  | Some db' => (db', ok)
  | None => (db, Uncaught "RelatedObjectDoesNotExist")
  end.

Definition STAGE_CHOICES : list (string * string) :=
  [("New", "New"); ("In Progress", "In Progress");
   ("Repaired", "Repaired"); ("Scrap", "Scrap")].

Section Views.

(** [round(time_diff.total_seconds() / 3600, 2)] as a function of the
    difference in microseconds, giving hundredths of an hour.  Python
    evaluates it in binary floating point; the views are stated for any such
    function. *)
Variable round_hours : Z → decimal2.

(** [start_task]. *)
Definition start_task (c : Clock) (db : DB) (user : Identity) (pk : nat)
    : DB * Outcome :=
  match user with
  | AnonymousUser => (db, JsonResponse 401 "Authentication required")
  | User uid =>
      match requests db !! pk with
      | None => (db, Http404)
      | Some request_obj =>
          if negb (bool_decide (assigned_technician request_obj = Some uid))
             && negb (in_technician_teams db uid (maintenance_team request_obj))
          then (db, JsonResponse 403 "Permission denied")
          else
            let request_obj := set_stage "In Progress" request_obj in
            let request_obj := set_actual_start_time (Some (now c)) request_obj in
            let request_obj :=
              if negb (truthy (assigned_technician request_obj))
              then set_assigned_technician (Some uid) request_obj
              else request_obj in
            save_then c db pk request_obj
              (JsonResponse 200 "Task started successfully")
      end
  end.

(** [end_task]. *)
Definition end_task (c : Clock) (db : DB) (user : Identity) (pk : nat)
    : DB * Outcome :=
  match user with
  | AnonymousUser => (db, JsonResponse 401 "Authentication required")
  | User uid =>
      match requests db !! pk with
      | None => (db, Http404)
      | Some request_obj =>
          if negb (bool_decide (assigned_technician request_obj = Some uid))
          then (db, JsonResponse 403 "Only assigned technician can end this task")
          else
            match actual_start_time request_obj with
            | None =>
                (db, JsonResponse 400 "Task must be started before it can be ended")
            | Some start =>
                let request_obj := set_actual_end_time (Some (now c)) request_obj in
                let time_diff := now c - start in
                let request_obj :=
                  set_duration_hours (Some (round_hours time_diff)) request_obj in
                let request_obj := set_stage "Repaired" request_obj in
                let request_obj := set_completed_date (Some (today c)) request_obj in
                save_then c db pk request_obj
                  (JsonResponse 200 "Task completed successfully")
            end
      end
  end.

(** The duration step shared by the stage views: computed from the stored
    start and end times. *)
Definition computed_duration (request_obj : MaintenanceRequest) : option decimal2 :=
  match actual_end_time request_obj, actual_start_time request_obj with
  | Some e, Some s => Some (round_hours (e - s))
  | _, _ => duration_hours request_obj
  end.

(** [update_request_stage], from the assignment of the new stage to the
    timestamps (the instance handed to [save]). *)
Definition update_request_stage_fields (c : Clock) (new_stage : string)
    (request_obj : MaintenanceRequest) : MaintenanceRequest :=
  let request_obj := set_stage new_stage request_obj in
  if bool_decide (new_stage = "In Progress")
     && negb (truthy (actual_start_time request_obj))
  then set_actual_start_time (Some (now c)) request_obj
  else if bool_decide (new_stage ∈ ["Repaired"; "Scrap"]) then
    let request_obj :=
      if negb (truthy (actual_end_time request_obj))
      then set_actual_end_time (Some (now c)) request_obj
      else request_obj in
    let request_obj :=
      if truthy (actual_start_time request_obj)
         && negb (truthy_num (duration_hours request_obj))
      then set_duration_hours (computed_duration request_obj) request_obj
      else request_obj in
    if negb (truthy (completed_date request_obj))
    then set_completed_date (Some (today c)) request_obj
    else request_obj
  else request_obj.

(** [update_request_stage]: [new_stage] is [request.POST.get('stage')]. *)
Definition update_request_stage (c : Clock) (db : DB) (user : Identity)
    (pk : nat) (new_stage : option string) : DB * Outcome :=
  match user with
  | AnonymousUser => (db, JsonResponse 401 "Authentication required")
  | User _ =>
      match requests db !! pk with
      | None => (db, Http404)
      | Some request_obj =>
          match new_stage with
          | None => (db, JsonResponse 400 "Invalid stage")
          | Some new_stage =>
              if negb (bool_decide (new_stage ∈ STAGE_CHOICES.*1))
              then (db, JsonResponse 400 "Invalid stage")
              else
                save_then c db pk
                  (update_request_stage_fields c new_stage request_obj)
                  (JsonResponse 200 (String.append "Request moved to " new_stage))
          end
      end
  end.

(** [MaintenanceRequestUpdateView.form_valid] on [form.instance], up to the
    call of [super().form_valid]. *)
Definition MaintenanceRequestUpdateView_fields (c : Clock)
    (request_obj : MaintenanceRequest) : MaintenanceRequest :=
  if bool_decide (stage request_obj ∈ ["Repaired"; "Scrap"]) then
    let request_obj :=
      if negb (truthy (completed_date request_obj))
      then set_completed_date (Some (today c)) request_obj
      else request_obj in
    let request_obj :=
      if negb (truthy (actual_end_time request_obj))
      then set_actual_end_time (Some (now c)) request_obj
      else request_obj in
    if truthy (actual_start_time request_obj)
       && negb (truthy_num (duration_hours request_obj))
    then set_duration_hours (computed_duration request_obj) request_obj
    else request_obj
  else if bool_decide (stage request_obj = "In Progress")
          && negb (truthy (actual_start_time request_obj))
  then set_actual_start_time (Some (now c)) request_obj
  else request_obj.

(** [MaintenanceRequestUpdateView.form_valid]; [super().form_valid] saves
    the instance and redirects. *)
Definition MaintenanceRequestUpdateView_form_valid (c : Clock) (db : DB)
    (pk : nat) (request_obj : MaintenanceRequest) : DB * Outcome :=
  save_then c db pk (MaintenanceRequestUpdateView_fields c request_obj)
    RedirectToSuccessUrl.

(** [TechnicianRequestDetailView.form_valid] on [form.instance]. *)
Definition TechnicianRequestDetailView_fields (c : Clock) (uid : nat)
    (request_obj : MaintenanceRequest) : MaintenanceRequest :=
  let request_obj :=
    if bool_decide (stage request_obj = "Repaired")
       && negb (truthy (completed_date request_obj))
    then set_completed_date (Some (today c)) request_obj
    else request_obj in
  let request_obj :=
    if bool_decide (stage request_obj = "In Progress")
       && negb (truthy (actual_start_time request_obj))
    then set_actual_start_time (Some (now c)) request_obj
    else request_obj in
  let request_obj :=
    if bool_decide (stage request_obj ∈ ["Repaired"; "Scrap"])
       && negb (truthy (actual_end_time request_obj))
    then
      let request_obj := set_actual_end_time (Some (now c)) request_obj in
      if truthy (actual_start_time request_obj)
      then set_duration_hours (computed_duration request_obj) request_obj
      else request_obj
    else request_obj in
  if negb (truthy (assigned_technician request_obj))
  then set_assigned_technician (Some uid) request_obj
  else request_obj.

Definition TechnicianRequestDetailView_form_valid (c : Clock) (db : DB)
    (uid : nat) (pk : nat) (request_obj : MaintenanceRequest) : DB * Outcome :=
  save_then c db pk (TechnicianRequestDetailView_fields c uid request_obj)
    RedirectToSuccessUrl.

End Views.

(** ** forms.py: the technician update form *)

(** [self.instance.pk] as a condition: an unsaved instance has no key. *)
Definition truthy_pk (pk : option nat) : bool :=
  match pk with Some n => negb (n =? 0)%nat | None => false end.

(** [TechnicianRequestUpdateForm.__init__]: the choices of the stage field. *)
Definition TechnicianRequestUpdateForm_stage_choices (pk : option nat)
    (instance : MaintenanceRequest) : list (string * string) :=
  let current_stage := if truthy_pk pk then stage instance else "New" in
  if bool_decide (current_stage = "New") then
    [("New", "New"); ("In Progress", "In Progress")]
  else if bool_decide (current_stage = "In Progress") then
    [("In Progress", "In Progress"); ("Repaired", "Repaired"); ("Scrap", "Scrap")]
  else if bool_decide (current_stage = "Repaired") then
    [("Repaired", "Repaired")]
  else if bool_decide (current_stage = "Scrap") then
    [("Scrap", "Scrap")]
  else STAGE_CHOICES.

(** The submitted fields of the form: [post_stage] is the value of the
    select (empty when none is sent), [post_duration_hours] the number
    entered, written with two decimal places ([None] for an empty input),
    and the two texts are held in UTF-8. *)
Record TechnicianPost := {
  post_stage : string;
  post_duration_hours : option decimal2;
  post_technician_notes : string;
  post_resolution_summary : string
}.

(** Python's white space, which [str.strip] removes: the characters of one
    byte (tab to carriage return, the four separators, the space), of two
    bytes (U+0085, U+00A0) and of three bytes (U+1680, U+2000 to U+200A,
    U+2028, U+2029, U+202F, U+205F, U+3000) of UTF-8. *)
Definition is_space (a : ascii) : bool :=
  let n := nat_of_ascii a in
  ((9 <=? n) && (n <=? 13) || (28 <=? n) && (n <=? 32))%nat.

Definition is_space2 (a b : ascii) : bool :=
  let x := nat_of_ascii a in
  let y := nat_of_ascii b in
  ((x =? 194) && ((y =? 133) || (y =? 160)))%nat.

Definition is_space3 (a b c : ascii) : bool :=
  let x := nat_of_ascii a in
  let y := nat_of_ascii b in
  let z := nat_of_ascii c in
  ((x =? 225) && (y =? 154) && (z =? 128)
   || (x =? 226) && (y =? 128)
      && ((128 <=? z) && (z <=? 138) || (z =? 168) || (z =? 169) || (z =? 175))
   || (x =? 226) && (y =? 129) && (z =? 159)
   || (x =? 227) && (y =? 128) && (z =? 128))%nat.

(** White space removed from the front of a string; with [backwards] the
    string is read from its end, the bytes of a character last to first. *)
Fixpoint strip_front (backwards : bool) (s : string) : string :=
  match s with
  | String a s1 =>
      if is_space a then strip_front backwards s1
      else
        match s1 with
        | String b s2 =>
            if (if backwards then is_space2 b a else is_space2 a b)
            then strip_front backwards s2
            else
              match s2 with
              | String c s3 =>
                  if (if backwards then is_space3 c b a else is_space3 a b c)
                  then strip_front backwards s3
                  else s
              | EmptyString => s
              end
        | EmptyString => s
        end
  | EmptyString => s
  end.

Definition reversed (s : string) : string :=
  string_of_list_ascii (rev (list_ascii_of_string s)).

Definition lstrip (s : string) : string := strip_front false s.

Definition rstrip (s : string) : string :=
  reversed (strip_front true (reversed s)).

(** The cleaning of a text by the form field ([forms.CharField] with
    [strip=True], not required): [value.strip()]; a blank text stays the
    empty string. *)
Definition clean_text (s : string) : string := rstrip (lstrip s).

(** The validators of the form fields.  The stage is a required choice;
    the duration has at most 10 digits, two of them decimal places; a text
    holds no null character. *)
Definition stage_field_errors (choices : list (string * string))
    (value : string) : list string :=
  if String.eqb value "" then ["This field is required."]
  else if bool_decide (value ∈ choices.*1) then []
  else [String.append "Select a valid choice. "
          (String.append value " is not one of the available choices.")].

Definition duration_field_errors (value : option decimal2) : list string :=
  match value with
  | Some d =>
      if 10000000000 <=? Z.abs d
      then ["Ensure that there are no more than 10 digits in total."]
      else []
  | None => []
  end.

Definition text_field_errors (cleaned : string) : list string :=
  if existsb (λ a, (nat_of_ascii a =? 0)%nat) (list_ascii_of_string cleaned)
  then ["Null characters are not allowed."]
  else [].

(** [MinValueValidator(0)] of the model field, run when the instance is
    validated, for a field the form has accepted. *)
Definition duration_model_errors (value : option decimal2) : list string :=
  match value with
  | Some d =>
      if d <? 0 then ["Ensure this value is greater than or equal to 0."]
      else []
  | None => []
  end.

(** [TechnicianRequestUpdateForm.clean] on the cleaned data: [Some] is the
    [ValidationError] raised. *)
Definition TechnicianRequestUpdateForm_clean (cleaned_stage : option string)
    (cleaned_resolution_summary : option string) : option (string * string) :=
  if bool_decide (cleaned_stage = Some "Repaired")
     && negb (truthy_str cleaned_resolution_summary)
  then Some ("resolution_summary",
             "Resolution summary is required when marking request as Repaired.")
  else None.

(** [form.is_valid()] and the construction of [form.instance].  The fields
    are cleaned in their order; a field with an error is missing from the
    cleaned data [clean] reads; the instance is then validated on the
    fields without error.  [inl] carries [form.errors], field by field in
    the order the errors are recorded, [inr] the instance with the cleaned
    fields assigned. *)
Definition TechnicianRequestUpdateForm_is_valid (pk : option nat)
    (instance : MaintenanceRequest) (post : TechnicianPost)
    : list (string * string) + MaintenanceRequest :=
  let choices := TechnicianRequestUpdateForm_stage_choices pk instance in
  let stage_errors := stage_field_errors choices (post_stage post) in
  let duration_errors := duration_field_errors (post_duration_hours post) in
  let notes := clean_text (post_technician_notes post) in
  let notes_errors := text_field_errors notes in
  let summary := clean_text (post_resolution_summary post) in
  let summary_errors := text_field_errors summary in
  let cleaned_stage :=
    match stage_errors with [] => Some (post_stage post) | _ => None end in
  let cleaned_resolution_summary :=
    match summary_errors with [] => Some summary | _ => None end in
  let clean_errors :=
    match TechnicianRequestUpdateForm_clean cleaned_stage
            cleaned_resolution_summary with
    | Some err => [err]
    | None => []
    end in
  let model_errors :=
    match duration_errors with
    | [] => duration_model_errors (post_duration_hours post)
    | _ => []
    end in
  let errors :=
    (((λ msg, ("stage", msg)) <$> stage_errors)
     ++ ((λ msg, ("duration_hours", msg)) <$> duration_errors)
     ++ ((λ msg, ("technician_notes", msg)) <$> notes_errors)
     ++ ((λ msg, ("resolution_summary", msg)) <$> summary_errors)
     ++ clean_errors
     ++ ((λ msg, ("duration_hours", msg)) <$> model_errors))%list in
  match errors with
  | [] =>
      inr (set_resolution_summary (Some summary)
             (set_technician_notes (Some notes)
                (set_duration_hours (post_duration_hours post)
                   (set_stage (post_stage post) instance))))
  | _ => inl errors
  end.

(** ** mixins.py and decorators.py: the role gate *)

Definition profile_missing_message : string :=
  "User profile not found. Please contact administrator.".

(** [request.user.profile.role]; [None] is the [AttributeError] of a user
    without profile. *)
Definition profile_role (db : DB) (uid : nat) : option string :=
  profiles db !! uid.

(** The [dispatch] methods of the mixins; [None] is the call of
    [super().dispatch], [Some] the response or the exception raised. *)
Definition ManagerRequiredMixin_dispatch (db : DB) (user : Identity)
    : option Outcome :=
  match user with
  | AnonymousUser => Some RedirectToLogin
  | User uid =>
      match profile_role db uid with
      | Some role =>
          if negb (bool_decide (role = "Manager"))
          then Some (PermissionDenied "Only managers or admin can access this page.")
          else None
      | None => Some (PermissionDenied profile_missing_message)
      end
  end.

Definition AdminRequiredMixin_dispatch (db : DB) (user : Identity)
    : option Outcome :=
  match user with
  | AnonymousUser => Some RedirectToLogin
  | User uid =>
      match profile_role db uid with
      | Some role =>
          if negb (bool_decide (role = "Admin"))
          then Some (PermissionDenied "Only administrators can access this page.")
          else None
      | None => Some (PermissionDenied profile_missing_message)
      end
  end.

Definition TechnicianRequiredMixin_dispatch (db : DB) (user : Identity)
    : option Outcome :=
  match user with
  | AnonymousUser => Some RedirectToLogin
  | User uid =>
      match profile_role db uid with
      | Some role =>
          if negb (bool_decide (role = "Technician"))
          then Some (PermissionDenied "Only technicians can access this page.")
          else None
      | None => Some (PermissionDenied profile_missing_message)
      end
  end.

Definition UserRequiredMixin_dispatch (db : DB) (user : Identity)
    : option Outcome :=
  match user with
  | AnonymousUser => Some RedirectToLogin
  | User uid =>
      match profile_role db uid with
      | Some role =>
          if negb (bool_decide (role = "User"))
          then Some (PermissionDenied "Only regular users can access this page.")
          else None
      | None => Some (PermissionDenied profile_missing_message)
      end
  end.

Definition AdminOrManagerRequiredMixin_dispatch (db : DB) (user : Identity)
    : option Outcome :=
  match user with
  | AnonymousUser => Some RedirectToLogin
  | User uid =>
      match profile_role db uid with
      | Some role =>
          if negb (bool_decide (role ∈ ["Admin"; "Manager"]))
          then Some (PermissionDenied
                       "Only administrators and managers can access this page.")
          else None
      | None => Some (PermissionDenied profile_missing_message)
      end
  end.

(** [decorators.role_required] applied to the allowed roles: [None] is the call of the
    wrapped view. *)
Definition role_required (allowed_roles : list string) (db : DB)
    (user : Identity) : option Outcome :=
  match user with
  | AnonymousUser => Some RedirectToLogin
  | User uid =>
      match profile_role db uid with
      | None => Some (PermissionDenied profile_missing_message)
      | Some user_role =>
          if negb (bool_decide (user_role ∈ allowed_roles))
          then Some (PermissionDenied
                       (String.append "Access denied. Required roles: "
                          (String.concat ", " allowed_roles)))
          else None
      end
  end.

(** The gates of the application and the roles each lets through. *)
Inductive Gate :=
  | ManagerRequired
  | AdminRequired
  | TechnicianRequired
  | UserRequired
  | AdminOrManagerRequired
  | RoleRequired (allowed_roles : list string).

Definition gate_dispatch (g : Gate) : DB → Identity → option Outcome :=
  match g with
  | ManagerRequired => ManagerRequiredMixin_dispatch
  | AdminRequired => AdminRequiredMixin_dispatch
  | TechnicianRequired => TechnicianRequiredMixin_dispatch
  | UserRequired => UserRequiredMixin_dispatch
  | AdminOrManagerRequired => AdminOrManagerRequiredMixin_dispatch
  | RoleRequired allowed_roles => role_required allowed_roles
  end.

Definition permitted_roles (g : Gate) : list string :=
  match g with
  | ManagerRequired => ["Manager"]
  | AdminRequired => ["Admin"]
  | TechnicianRequired => ["Technician"]
  | UserRequired => ["User"]
  | AdminOrManagerRequired => ["Admin"; "Manager"]
  | RoleRequired allowed_roles => allowed_roles
  end.

(** The inline check of [approve_registration] and [reject_registration]:
    one response for every refusal. *)
Definition registration_gate (db : DB) (user : Identity) : option Outcome :=
  match user with
  | AnonymousUser => Some (JsonResponse 403 "Permission denied")
  | User uid =>
      match profile_role db uid with
      | None => Some (JsonResponse 403 "Permission denied")
      | Some role =>
          if negb (bool_decide (role = "Admin"))
          then Some (JsonResponse 403 "Permission denied")
          else None
      end
  end.

Section TechnicianView.

Variable round_hours : Z → decimal2.

(** [TechnicianRequestDetailView] answering a POST of an authenticated user:
    the object is looked up among the requests assigned to the user or to
    one of the user's teams, the role gate runs, the form is validated and
    [form_valid] saves. *)
Definition TechnicianRequestDetailView_post (c : Clock) (db : DB) (uid : nat)
    (pk : nat) (post : TechnicianPost) : DB * Outcome :=
  match requests db !! pk with
  | None => (db, Http404)
  | Some obj =>
      if negb (bool_decide (assigned_technician obj = Some uid))
         && negb (in_technician_teams db uid (maintenance_team obj))
      then (db, Http404)
      else
        match TechnicianRequiredMixin_dispatch db (User uid) with
        | Some refusal => (db, refusal)
        | None =>
            match TechnicianRequestUpdateForm_is_valid (Some pk) obj post with
            | inl errors => (db, FormErrors errors)
            | inr instance =>
                TechnicianRequestDetailView_form_valid round_hours c db uid pk
                  instance
            end
        end
  end.

End TechnicianView.

(** ** views.py: the preventive maintenance calendar *)

(** An entry of [requests_by_date]. *)
Record CalendarItem := {
  item_type : string;
  item_subject : string;
  item_equipment_name : string;
  item_assigned_technician : option nat;
  item_pk : option nat;
  item_date : date
}.

(** [requests_by_date] is keyed by [strftime('%Y-%m-%d')] of a date, which
    is one-to-one on dates: the key is taken to be the date itself. *)
Definition append_item (date_key : date) (it : CalendarItem)
    (m : gmap Z (list CalendarItem)) : gmap Z (list CalendarItem) :=
  <[date_key := ((m !!! date_key) ++ [it])%list]> m.

(** The explicitly scheduled requests of the month.  [select_related] joins
    the equipment row.  The rows are visited in the order of the table: the
    [order_by('scheduled_date')] of the view only orders requests of
    different days, which go to different keys. *)
Definition is_month_preventive (db : DB) (start_date end_date : date)
    (x : nat * MaintenanceRequest) : bool :=
  bool_decide (request_type (snd x) = "Preventive")
  && match scheduled_date (snd x) with
     | Some d => (start_date <=? d) && (d <=? end_date)
     | None => false
     end
  && negb (bool_decide (stage (snd x) ∈ ["Repaired"; "Scrap"]))
  && truthy (equipment_table db !! equipment (snd x)).

Definition preventive_requests (db : DB) (start_date end_date : date)
    : list (nat * MaintenanceRequest) :=
  filter (λ x, is_month_preventive db start_date end_date x = true)
         (map_to_list (requests db)).

Definition scheduled_item (db : DB) (x : nat * MaintenanceRequest)
    (d : date) : CalendarItem :=
  {| item_type := "scheduled";
     item_subject := subject (snd x);
     item_equipment_name :=
       match equipment_table db !! equipment (snd x) with
       | Some e => equipment_name e
       | None => ""
       end;
     item_assigned_technician := assigned_technician (snd x);
     item_pk := Some (fst x);
     item_date := d |}.

Definition add_scheduled (db : DB) (m : gmap Z (list CalendarItem))
    (x : nat * MaintenanceRequest) : gmap Z (list CalendarItem) :=
  match scheduled_date (snd x) with
  | Some d => append_item d (scheduled_item db x d) m
  | None => m
  end.

(** The equipment the projection runs over:
    [maintenance_interval_days__gt=0, is_scrapped=False]. *)
Definition has_interval (x : nat * Equipment) : bool :=
  match maintenance_interval_days (snd x) with
  | Some i => 0 <? i
  | None => false
  end
  && negb (is_scrapped (snd x)).

(** The query of the loop body: a Preventive request of the equipment
    scheduled on the date and not in stage Scrap; only whether a row comes
    back is used. *)
Definition existing_request (db : DB) (eq_pk : nat) (current_date : date)
    : option (nat * MaintenanceRequest) :=
  head (filter (λ x, equipment (snd x) = eq_pk
                     ∧ request_type (snd x) = "Preventive"
                     ∧ scheduled_date (snd x) = Some current_date
                     ∧ stage (snd x) ∉ ["Scrap"])
               (map_to_list (requests db))).

Definition interval_item (e : Equipment) (current_date : date) : CalendarItem :=
  {| item_type := "interval";
     item_subject := String.append "Preventive Maintenance - " (equipment_name e);
     item_equipment_name := equipment_name e;
     item_assigned_technician := default_technician e;
     item_pk := None;
     item_date := current_date |}.

(** The [while current_date <= end_date] loop.  Each round ends with
    [current_date += timedelta(days=interval_days)], which raises
    [OverflowError] when the sum is not a date; the result is [OutOfFuel]
    when the fuel ends before the loop does. *)
Fixpoint recurring_dates (fuel : nat) (db : DB) (eq_pk : nat) (e : Equipment)
    (end_date interval_days current_date : Z)
    (m : gmap Z (list CalendarItem)) : Result (gmap Z (list CalendarItem)) :=
  if current_date <=? end_date then
    match fuel with
    | O => OutOfFuel
    | S fuel' =>
        let m :=
          if negb (truthy (existing_request db eq_pk current_date))
          then append_item current_date (interval_item e current_date) m
          else m in
        and_then (date_add current_date interval_days)
          (λ current_date,
             recurring_dates fuel' db eq_pk e end_date interval_days
               current_date m)
    end
  else Ok m.

(** The body of [for equipment in equipment_with_intervals].  An exception
    of [get_next_maintenance_date] or of the loop leaves the view; an
    equipment without interval has no next date and never reaches the
    [timedelta] of the loop. *)
Definition add_recurring (c : Clock) (db : DB) (end_date : date)
    (m : gmap Z (list CalendarItem)) (x : nat * Equipment)
    : Result (gmap Z (list CalendarItem)) :=
  and_then (Equipment_get_next_maintenance_date c db (fst x) (snd x))
    (λ next_maintenance_date,
       match next_maintenance_date with
       | Some next_maintenance_date =>
           if next_maintenance_date <=? end_date then
             match maintenance_interval_days (snd x) with
             | Some interval_days =>
                 recurring_dates
                   (Z.to_nat (end_date - next_maintenance_date + 1))
                   db (fst x) (snd x) end_date interval_days
                   next_maintenance_date m
             | None => Raise TypeError
             end
           else Ok m
       | None => Ok m
       end).

Definition add_all_recurring (c : Clock) (db : DB) (end_date : date)
    (rows : list (nat * Equipment)) (m : gmap Z (list CalendarItem))
    : Result (gmap Z (list CalendarItem)) :=
  foldl (λ acc x, and_then acc (λ m, add_recurring c db end_date m x))
    (Ok m) rows.

Record DayCell := {
  cell_date : date;
  cell_day : Z;
  cell_requests : list CalendarItem
}.

Record CalendarContext := {
  ctx_year : Z;
  ctx_month : Z;
  calendar_days : list (option DayCell);
  prev_year : Z;
  prev_month : Z;
  next_year : Z;
  next_month : Z;
  ctx_today : date
}.

Section Calendar.

(** The order of the database's collation on equipment names: [name_le a b]
    when [a] sorts before [b] or with it. *)
Variable name_le : string → string → bool.

(** [Meta.ordering = ['equipment_name']] of [Equipment]: the rows of a query
    without [order_by] come sorted by name.  The database leaves the order
    of rows of the same name open; they are taken as the table lists
    them. *)
Fixpoint insert_by_name (x : nat * Equipment) (rows : list (nat * Equipment))
    : list (nat * Equipment) :=
  match rows with
  | [] => [x]
  | y :: rest =>
      if name_le (equipment_name (snd x)) (equipment_name (snd y))
      then x :: rows
      else y :: insert_by_name x rest
  end.

Definition order_by_name (rows : list (nat * Equipment))
    : list (nat * Equipment) :=
  foldr insert_by_name [] rows.

Definition equipment_with_intervals (db : DB) : list (nat * Equipment) :=
  order_by_name
    (filter (λ x, has_interval x = true) (map_to_list (equipment_table db))).

(** The dictionary the view fills before it builds the grid. *)
Definition requests_by_date (c : Clock) (db : DB) (start_date end_date : date)
    : Result (gmap Z (list CalendarItem)) :=
  add_all_recurring c db end_date (equipment_with_intervals db)
    (foldl (add_scheduled db) ∅ (preventive_requests db start_date end_date)).

(** [PreventiveMaintenanceCalendarView.get_context_data] for the year and
    month of the query string.  [datetime(year, month, 1)] raises outside
    its bounds; once it has returned, the last day of the month and the
    days of the grid are dates. *)
Definition PreventiveMaintenanceCalendarView_get_context_data (c : Clock)
    (db : DB) (year month : Z) : Result CalendarContext :=
  and_then (datetime_date year month 1)
    (λ start_date,
       let last_day := days_in_month year month in
       let end_date := toordinal year month last_day in
       and_then (requests_by_date c db start_date end_date)
         (λ by_date,
            let first_weekday := weekday start_date in
            let calendar_days :=
              app (replicate (Z.to_nat first_weekday) None)
                (fmap (λ day, Some {| cell_date := toordinal year month day;
                                     cell_day := day;
                                     cell_requests :=
                                       by_date !!! toordinal year month day |})
                   (seqZ 1 last_day)) in
            Ok {| ctx_year := year; ctx_month := month;
                  calendar_days := calendar_days;
                  prev_year := if month =? 1 then year - 1 else year;
                  prev_month := if month =? 1 then 12 else month - 1;
                  next_year := if month =? 12 then year + 1 else year;
                  next_month := if month =? 12 then 1 else month + 1;
                  ctx_today := today c |})).

End Calendar.

(** ** Rounding a duration

    [round(time_diff.total_seconds() / 3600, 2)] as Python evaluates it:
    [total_seconds()] is the double nearest to the microseconds divided by
    a million, the division by 3600 gives the double nearest to that
    quotient, and [round] gives the hundredths nearest to the exact value of
    that double, halves to even.  A double is held as mantissa and exponent,
    [m * 2 ^ e]; durations are far from the ends of the exponent range. *)

(** The integer nearest to [a / b] for [0 < b], halves to even. *)
Definition nearest_even (a b : Z) : Z :=
  let q := a / b in
  let r := a mod b in
  if r * 2 <? b then q
  else if b <? r * 2 then q + 1
  else if Z.even q then q else q + 1.

(** The double nearest to [a / b] for [0 < b]: the quotient is scaled to
    53 bits and rounded. *)
Definition float_div (a b : Z) : Z * Z :=
  if a =? 0 then (0, 0)
  else
    let n := Z.abs a in
    let scaled (e : Z) :=
      if 0 <=? e then (n, b * 2 ^ e) else (n * 2 ^ (- e), b) in
    let e := Z.log2 n - Z.log2 b - 52 in
    let e := if fst (scaled e) / snd (scaled e) <? 2 ^ 52 then e - 1 else e in
    (Z.sgn a * nearest_even (fst (scaled e)) (snd (scaled e)), e).

(** The value of a double as a fraction. *)
Definition as_fraction (x : Z * Z) : Z * Z :=
  if 0 <=? snd x then (fst x * 2 ^ snd x, 1) else (fst x, 2 ^ (- snd x)).

(** The rounding used where a concrete duration is evaluated: hundredths of
    an hour of a number of microseconds. *)
Definition round_half_even (microseconds : Z) : decimal2 :=
  let total_seconds := as_fraction (float_div microseconds 1000000) in
  let duration_hours :=
    as_fraction (float_div (fst total_seconds) (snd total_seconds * 3600)) in
  nearest_even (fst duration_hours * 100) (snd duration_hours).

(** The dates the loop of an equipment visits: the next maintenance date
    and every whole number of intervals after it, up to the end date. *)
Definition occurrence (first interval_days end_date d : Z) : Prop :=
  ∃ j, 0 ≤ j ∧ d = first + j * interval_days ∧ d ≤ end_date.

(** A date of the loop of an equipment row on which no request of the
    equipment stands in the way. *)
Definition projected (c : Clock) (db : DB) (end_date : date)
    (x : nat * Equipment) (d : date) : Prop :=
  ∃ first interval_days,
    Equipment_get_next_maintenance_date c db (fst x) (snd x)
    = Ok (Some first)
    ∧ maintenance_interval_days (snd x) = Some interval_days
    ∧ occurrence first interval_days end_date d
    ∧ existing_request db (fst x) d = None.

(** The first date of the loop after [end_date], for a loop that starts on
    [first], not after [end_date], with a positive interval: the last date
    the loop computes. *)
Definition first_after (first interval_days end_date : Z) : Z :=
  first + ((end_date - first) / interval_days + 1) * interval_days.

(** The projection of an equipment row stays within Python's dates:
    [get_next_maintenance_date] returns and, when the loop runs, the first
    date after [end_date] is a date. *)
Definition projects_in_range (c : Clock) (db : DB) (end_date : date)
    (x : nat * Equipment) : bool :=
  match Equipment_get_next_maintenance_date c db (fst x) (snd x),
        maintenance_interval_days (snd x) with
  | Ok (Some first), Some interval_days =>
      (end_date <? first)
      || (first_after first interval_days end_date <=? date_max)
  | Ok None, _ => true
  | _, _ => false
  end.

Definition calendar_in_range (name_le : string → string → bool) (c : Clock)
    (db : DB) (end_date : date) : bool :=
  forallb (projects_in_range c db end_date)
    (equipment_with_intervals name_le db).

(** ** The stage-changing views, side by side

    The three views that can move a request to Repaired or Scrap with the
    timestamps derived: the board ([update_request_stage], which loads the
    row itself), the manager's update view and the technician's detail view
    (whose [form.instance] is the row with the submitted stage). *)
Inductive StageView :=
  | KanbanBoard (uid : nat)
  | ManagerUpdate
  | TechnicianDetail (uid : nat).

(** Saving a stored request again: [save] alone, or one of the views with
    the stage the request already has. *)
Inductive Resave :=
  | PlainSave
  | Through (v : StageView).

Section StageViews.

Variable round_hours : Z → decimal2.

(** The instance a view hands to [save]. *)
Definition view_fields (v : StageView) (c : Clock) (target : string)
    (r : MaintenanceRequest) : MaintenanceRequest :=
  match v with
  | KanbanBoard _ => update_request_stage_fields round_hours c target r
  | ManagerUpdate =>
      MaintenanceRequestUpdateView_fields round_hours c (set_stage target r)
  | TechnicianDetail uid =>
      TechnicianRequestDetailView_fields round_hours c uid (set_stage target r)
  end.

Definition complete_through (v : StageView) (c : Clock) (db : DB) (pk : nat)
    (target : string) (r : MaintenanceRequest) : DB * Outcome :=
  match v with
  | KanbanBoard uid =>
      update_request_stage round_hours c db (User uid) pk (Some target)
  | ManagerUpdate =>
      MaintenanceRequestUpdateView_form_valid round_hours c db pk
        (set_stage target r)
  | TechnicianDetail uid =>
      TechnicianRequestDetailView_form_valid round_hours c db uid pk
        (set_stage target r)
  end.

Definition resave_instance (how : Resave) (c : Clock)
    (r : MaintenanceRequest) : MaintenanceRequest :=
  match how with
  | PlainSave => r
  | Through (KanbanBoard _) =>
      update_request_stage_fields round_hours c (stage r) r
  | Through ManagerUpdate => MaintenanceRequestUpdateView_fields round_hours c r
  | Through (TechnicianDetail uid) =>
      TechnicianRequestDetailView_fields round_hours c uid r
  end.

End StageViews.

(** Where a view dates the completion of a request that has no completion
    date yet: the board and the manager's view for both final stages, the
    technician's view for Repaired. *)
Definition dates_completion (v : StageView) (target : string) : Prop :=
  match v with
  | TechnicianDetail _ => target = "Repaired"
  | _ => True
  end.

(** ** Sample data

    One press with a quarterly interval, one open request against it, one
    technician (user 7) in the equipment's team, a manager (user 2), a plain
    user (user 3) and a user without profile (user 9).  The clock reads
    2024-05-10 12:00 as microseconds since 1970. *)

Definition sample_equipment : Equipment :=
  {| equipment_name := "Hydraulic Press"; serial_number := "HP-001";
     eq_maintenance_team := 1%nat; default_technician := Some 7%nat;
     purchase_date := Some (toordinal 2023 1 15);
     maintenance_interval_days := Some 90;
     is_scrapped := false; scrap_date := None; scrap_reason := None |}.

Definition sample_request : MaintenanceRequest :=
  {| subject := "Oil leak"; request_type := "Corrective"; stage := "New";
     priority := "Medium"; equipment := 1%nat; maintenance_team := Some 1%nat;
     assigned_technician := None; created_by := 3%nat;
     scheduled_date := Some (toordinal 2024 5 9); completed_date := None;
     duration_hours := None; actual_start_time := None;
     actual_end_time := None; is_overdue := false;
     technician_notes := None; resolution_summary := None |}.

Definition sample_db : DB :=
  {| requests := {[ 1%nat := sample_request ]};
     equipment_table := {[ 1%nat := sample_equipment ]};
     team_members := {[ (1%nat, 7%nat) ]};
     profiles := <[ 7%nat := "Technician" ]>
                   (<[ 3%nat := "User" ]> {[ 2%nat := "Manager" ]}) |}.

Definition sample_clock : Clock :=
  {| now := 1715342400000000; today := toordinal 2024 5 10 |}.

(** The same request one hour into the work, started by technician 7. *)
Definition sample_started : MaintenanceRequest :=
  set_actual_start_time (Some (1715342400000000 - 3600000000))
    (set_assigned_technician (Some 7%nat)
       (set_stage "In Progress" sample_request)).

Definition sample_db_started : DB :=
  set_requests {[ 1%nat := sample_started ]} sample_db.

(** A request in progress whose duration an operator has entered (2.50
    hours), and an equipment row with a negative interval. *)
Definition sample_timed : MaintenanceRequest :=
  set_duration_hours (Some 250) sample_started.

Definition sample_db_timed : DB :=
  set_requests {[ 1%nat := sample_timed ]} sample_db.

Definition sample_equipment_negative : Equipment :=
  {| equipment_name := "Hydraulic Press"; serial_number := "HP-001";
     eq_maintenance_team := 1%nat; default_technician := Some 7%nat;
     purchase_date := Some (toordinal 2023 1 15);
     maintenance_interval_days := Some (-30);
     is_scrapped := false; scrap_date := None; scrap_reason := None |}.

(** A request in progress that already carries a completion date. *)
Definition sample_dated : MaintenanceRequest :=
  set_completed_date (Some (toordinal 2024 5 8)) sample_started.

Definition sample_db_dated : DB :=
  set_requests {[ 1%nat := sample_dated ]} sample_db.

(** The row a view leaves under a key. *)
Definition stored (result : DB * Outcome) (pk : nat)
    : option MaintenanceRequest :=
  requests (fst result) !! pk.

(** A press serviced every 30 days, last on 2024-04-20 (request 5), and a
    second one for which the next service is already on the calendar
    (request 6, scheduled on 2024-05-20). *)
Definition sample_equipment_monthly : Equipment :=
  {| equipment_name := "Drill Press"; serial_number := "DP-002";
     eq_maintenance_team := 1%nat; default_technician := Some 7%nat;
     purchase_date := Some (toordinal 2023 1 15);
     maintenance_interval_days := Some 30;
     is_scrapped := false; scrap_date := None; scrap_reason := None |}.

Definition sample_service : MaintenanceRequest :=
  {| subject := "Monthly service"; request_type := "Preventive";
     stage := "Repaired"; priority := "Medium"; equipment := 2%nat;
     maintenance_team := Some 1%nat; assigned_technician := Some 7%nat;
     created_by := 2%nat;
     scheduled_date := Some (toordinal 2024 4 20);
     completed_date := Some (toordinal 2024 4 20);
     duration_hours := Some 150;
     actual_start_time := Some 1713600000000000;
     actual_end_time := Some 1713605400000000; is_overdue := false;
     technician_notes := None; resolution_summary := Some "Serviced" |}.

Definition sample_planned : MaintenanceRequest :=
  {| subject := "Monthly service"; request_type := "Preventive";
     stage := "New"; priority := "Medium"; equipment := 2%nat;
     maintenance_team := Some 1%nat; assigned_technician := Some 7%nat;
     created_by := 2%nat;
     scheduled_date := Some (toordinal 2024 5 20);
     completed_date := None; duration_hours := None;
     actual_start_time := None; actual_end_time := None;
     is_overdue := false;
     technician_notes := None; resolution_summary := None |}.

Definition sample_db_serviced : DB :=
  set_requests (<[ 5%nat := sample_service ]> (requests sample_db))
    (set_equipment_table
       (<[ 2%nat := sample_equipment_monthly ]> (equipment_table sample_db))
       sample_db).

Definition sample_db_planned : DB :=
  set_requests (<[ 6%nat := sample_planned ]> (requests sample_db_serviced))
    sample_db_serviced.

(** The service of the drill press planned for 2024-05-20 and done ahead
    of time, on 2024-04-18 (request 7, Repaired), beside the service of
    2024-04-20. *)
Definition sample_ahead : MaintenanceRequest :=
  {| subject := "Monthly service"; request_type := "Preventive";
     stage := "Repaired"; priority := "Medium"; equipment := 2%nat;
     maintenance_team := Some 1%nat; assigned_technician := Some 7%nat;
     created_by := 2%nat;
     scheduled_date := Some (toordinal 2024 5 20);
     completed_date := Some (toordinal 2024 4 18);
     duration_hours := Some 100;
     actual_start_time := Some 1713430800000000;
     actual_end_time := Some 1713434400000000; is_overdue := false;
     technician_notes := None; resolution_summary := Some "Serviced" |}.

Definition sample_db_ahead : DB :=
  set_requests (<[ 7%nat := sample_ahead ]> (requests sample_db_serviced))
    sample_db_serviced.

(** The store of the sample with a second press whose interval, 3000000
    days, reaches past Python's last date. *)
Definition sample_equipment_far : Equipment :=
  {| equipment_name := "Stamping Press"; serial_number := "SP-003";
     eq_maintenance_team := 1%nat; default_technician := None;
     purchase_date := Some (toordinal 2023 1 15);
     maintenance_interval_days := Some 3000000;
     is_scrapped := false; scrap_date := None; scrap_reason := None |}.

Definition sample_db_far : DB :=
  set_equipment_table
    (<[ 3%nat := sample_equipment_far ]> (equipment_table sample_db))
    sample_db.

(** ** The operations that write a request

    The entry points through which a maintenance request reaches the
    store: [save] itself (as the create views and the admin call it), the
    three task views, the manager's update view and the technician's form
    post. *)
Inductive Operation :=
  | OpSave (pk : nat) (self : MaintenanceRequest)
  | OpStartTask (user : Identity) (pk : nat)
  | OpEndTask (user : Identity) (pk : nat)
  | OpUpdateStage (user : Identity) (pk : nat) (new_stage : option string)
  | OpManagerUpdate (pk : nat) (request_obj : MaintenanceRequest)
  | OpTechnicianPost (uid : nat) (pk : nat) (post : TechnicianPost).

(** The key of the request an operation addresses. *)
Definition target (op : Operation) : nat :=
  match op with
  | OpSave pk _ | OpStartTask _ pk | OpEndTask _ pk | OpUpdateStage _ pk _
  | OpManagerUpdate pk _ | OpTechnicianPost _ pk _ => pk
  end.

Definition run (round_hours : Z → decimal2) (op : Operation) (c : Clock)
    (db : DB) : DB * Outcome :=
  match op with
  | OpSave pk self => save_then c db pk self RedirectToSuccessUrl
  | OpStartTask user pk => start_task c db user pk
  | OpEndTask user pk => end_task round_hours c db user pk
  | OpUpdateStage user pk new_stage =>
      update_request_stage round_hours c db user pk new_stage
  | OpManagerUpdate pk request_obj =>
      MaintenanceRequestUpdateView_form_valid round_hours c db pk request_obj
  | OpTechnicianPost uid pk post =>
      TechnicianRequestDetailView_post round_hours c db uid pk post
  end.

(** The responses of a completed operation: status 200 of the task views,
    the redirect of the form views. *)
Definition is_success (out : Outcome) : bool :=
  match out with
  | JsonResponse status _ => status =? 200
  | RedirectToSuccessUrl => true
  | _ => false
  end.

(** A history: operations with the clock each one runs at. *)
Fixpoint run_all (round_hours : Z → decimal2)
    (history : list (Clock * Operation)) (db : DB) : DB :=
  match history with
  | [] => db
  | (c, op) :: rest => run_all round_hours rest (fst (run round_hours op c db))
  end.

(** The dates of a history never go back, starting from a given day. *)
Fixpoint chronological (t : date) (history : list (Clock * Operation)) : Prop :=
  match history with
  | [] => True
  | (c, _) :: rest => t ≤ today c ∧ chronological (today c) rest
  end.

(** The stored overdue flags are sound on day [t]: a flagged request is
    open and scheduled before [t]. *)
Definition overdue_sound (t : date) (db : DB) : Prop :=
  ∀ pk r, requests db !! pk = Some r → is_overdue r = true →
    (stage r ∉ ["Repaired"; "Scrap"])
    ∧ ∃ d, scheduled_date r = Some d ∧ d < t.

(** The day a history ends on. *)
Fixpoint final_day (t : date) (history : list (Clock * Operation)) : date :=
  match history with
  | [] => t
  | (c, _) :: rest => final_day (today c) rest
  end.

(** Two equipment rows that differ at most in the scrap fields. *)
Definition same_but_scrap (e e' : Equipment) : Prop :=
  equipment_name e' = equipment_name e
  ∧ serial_number e' = serial_number e
  ∧ eq_maintenance_team e' = eq_maintenance_team e
  ∧ default_technician e' = default_technician e
  ∧ purchase_date e' = purchase_date e
  ∧ maintenance_interval_days e' = maintenance_interval_days e.

(** ** views.py: the manager's dashboard *)

Record ManagerDashboard := {
  total_equipment : nat;
  open_requests : nat;
  overdue_requests : nat;
  upcoming_preventive : nat
}.

(** [.exclude(stage__in=['Repaired', 'Scrap'])]. *)
Definition is_open (r : MaintenanceRequest) : bool :=
  negb (bool_decide (stage r ∈ ["Repaired"; "Scrap"])).

(** [MaintenanceRequest.objects.filter(...).count()]. *)
Definition count_requests (f : MaintenanceRequest → bool) (db : DB) : nat :=
  length (filter (λ x, f (snd x) = true) (map_to_list (requests db))).

(** The condition of the upcoming preventive maintenance: scheduled from
    today to [upcoming_date]. *)
Definition is_upcoming_preventive (c : Clock) (upcoming_date : date)
    (r : MaintenanceRequest) : bool :=
  bool_decide (request_type r = "Preventive")
  && match scheduled_date r with
     | Some d => (d <=? upcoming_date) && (today c <=? d)
     | None => false
     end
  && is_open r.

(** [ManagerDashboardView.get_context_data]; [upcoming_date] is today plus
    [timedelta(days=30)]. *)
Definition ManagerDashboardView_get_context_data (c : Clock) (db : DB)
    : Result ManagerDashboard :=
  and_then (date_add (today c) 30)
    (λ upcoming_date,
       Ok {| total_equipment :=
               length (filter (λ x, is_scrapped (snd x) = false)
                         (map_to_list (equipment_table db)));
             open_requests := count_requests is_open db;
             overdue_requests :=
               count_requests (λ r, is_overdue r && is_open r) db;
             upcoming_preventive :=
               count_requests (is_upcoming_preventive c upcoming_date) db |}).

(** The store a dashboard is read from: the sample request, flagged
    overdue, and the service of the drill press planned for 2024-05-20. *)
Definition sample_db_dashboard : DB :=
  set_requests
    (<[ 6%nat := sample_planned ]>
       {[ 1%nat := set_is_overdue true sample_request ]})
    sample_db_serviced.

(** An equipment scrapped on 2024-05-01, and the sample store with it. *)
Definition sample_equipment_scrapped : Equipment :=
  {| equipment_name := "Hydraulic Press"; serial_number := "HP-001";
     eq_maintenance_team := 1%nat; default_technician := Some 7%nat;
     purchase_date := Some (toordinal 2023 1 15);
     maintenance_interval_days := Some 90;
     is_scrapped := true; scrap_date := Some (toordinal 2024 5 1);
     scrap_reason := Some "Worn out" |}.

Definition sample_db_scrapped : DB :=
  set_equipment_table {[ 1%nat := sample_equipment_scrapped ]} sample_db.

(** The sample request assigned to another technician (user 8), and the
    sample request completed, with its times and a duration of zero. *)
Definition sample_db_assigned_other : DB :=
  set_requests
    {[ 1%nat := set_assigned_technician (Some 8%nat) sample_request ]}
    sample_db.

Definition sample_repaired_zero : MaintenanceRequest :=
  set_duration_hours (Some 0)
    (set_actual_end_time (Some 1715342400000000)
       (set_stage "Repaired" sample_started)).

Definition sample_db_repaired : DB :=
  set_requests {[ 1%nat := sample_repaired_zero ]} sample_db.

(** ** decorators.py, utils.py, urls.py: roles and where they lead *)

(** The shortcuts of [decorators.py]. *)
Definition admin_required : DB → Identity → option Outcome :=
  role_required ["Admin"].
Definition manager_required : DB → Identity → option Outcome :=
  role_required ["Manager"].
Definition technician_required : DB → Identity → option Outcome :=
  role_required ["Technician"].
Definition user_required : DB → Identity → option Outcome :=
  role_required ["User"].
Definition admin_or_manager_required : DB → Identity → option Outcome :=
  role_required ["Admin"; "Manager"].

(** [utils.get_user_role]: the anonymous user has no profile either. *)
Definition get_user_role (db : DB) (user : Identity) : option string :=
  match user with
  | AnonymousUser => None
  | User uid => profile_role db uid
  end.

(** [utils.has_role]. *)
Definition has_role (db : DB) (user : Identity) (roles : list string) : bool :=
  match get_user_role db user with
  | Some user_role => bool_decide (user_role ∈ roles)
  | None => false
  end.

(** The named URLs a login can lead to, their paths in [urls.py] and the
    gate of the view class each one is routed to. *)
Inductive UrlName :=
  | url_login
  | url_admin_dashboard
  | url_manager_dashboard
  | url_technician_dashboard
  | url_user_dashboard.

Definition url_path (name : UrlName) : string :=
  match name with
  | url_login => "/accounts/login/"
  | url_admin_dashboard => "/admin/dashboard/"
  | url_manager_dashboard => "/manager/dashboard/"
  | url_technician_dashboard => "/technician/dashboard/"
  | url_user_dashboard => "/user/dashboard/"
  end.

Definition url_gate (name : UrlName) : option Gate :=
  match name with
  | url_login => None
  | url_admin_dashboard => Some AdminRequired
  | url_manager_dashboard => Some ManagerRequired
  | url_technician_dashboard => Some TechnicianRequired
  | url_user_dashboard => Some UserRequired
  end.

(** [CustomLoginView.get_success_url]: the dictionary [role_redirects] and
    its [get] with the manager's dashboard as default. *)
Definition login_role_redirects : gmap string UrlName :=
  list_to_map [("Admin", url_admin_dashboard);
               ("Manager", url_manager_dashboard);
               ("Technician", url_technician_dashboard);
               ("User", url_user_dashboard)].

Definition CustomLoginView_get_success_url (db : DB) (uid : nat) : UrlName :=
  match profile_role db uid with
  | None => url_login
  | Some role => default url_manager_dashboard (login_role_redirects !! role)
  end.

(** [utils.get_role_redirect_url]. *)
Definition utils_role_redirects : gmap string string :=
  list_to_map [("Admin", "/admin/dashboard/");
               ("Manager", "/manager/dashboard/");
               ("Technician", "/technician/dashboard/");
               ("User", "/user/dashboard/")].

Definition get_role_redirect_url (role : string) : string :=
  default "/manager/dashboard/" (utils_role_redirects !! role).

(** ** Completed requests and their dates *)

(** A row that is not Repaired, or carries its completion date. *)
Definition dated_if_repaired (r : MaintenanceRequest) : bool :=
  negb (bool_decide (stage r = "Repaired")) || truthy (completed_date r).

Definition repaired_dated (db : DB) : Prop :=
  ∀ pk r, requests db !! pk = Some r → dated_if_repaired r = true.

(** The operations that reach [save] through a view's own field logic; a
    direct [save] counts when its instance is not Repaired or is dated (the
    create forms offer neither the stage nor the completion date). *)
Definition keeps_dates (op : Operation) : bool :=
  match op with
  | OpSave _ self => dated_if_repaired self
  | _ => true
  end.

(** A Repaired preventive request of the monthly press without completion
    date, stored beside the dated one. *)
Definition sample_undated : MaintenanceRequest :=
  set_completed_date None sample_service.

Definition sample_db_undated : DB :=
  set_requests (<[ 8%nat := sample_undated ]> (requests sample_db_serviced))
    sample_db_serviced.

(** ** views.py: registration requests

    [approve_registration] and [reject_registration] over the tables they
    read and write: the user table (keyed by the username, which the table
    keeps unique, with the sequence of its keys), the profiles of the
    store, and the registration requests. *)

Record UserRow := { user_id : nat; email : string }.

Record UserRegistration := {
  reg_username : string;
  reg_email : string;
  requested_role : string;
  status : string;
  approved_by : option nat;
  approved_at : option datetime;
  rejection_reason : option string
}.

Record Site := {
  site_db : DB;
  users : gmap string UserRow;
  last_user_id : nat;
  registrations : gmap nat UserRegistration
}.

Definition set_profiles (v : gmap nat string) (db : DB) : DB :=
  {| requests := requests db; equipment_table := equipment_table db;
     team_members := team_members db; profiles := v |}.

(** [request.user] as the value of a foreign key. *)
Definition request_user_pk (user : Identity) : option nat :=
  match user with
  | User uid => Some uid
  | AnonymousUser => None
  end.

(** The three assignments both views make before [registration.save()]. *)
Definition decided (new_status : string) (c : Clock) (user : Identity)
    (registration : UserRegistration) : UserRegistration :=
  {| reg_username := reg_username registration;
     reg_email := reg_email registration;
     requested_role := requested_role registration;
     status := new_status;
     approved_by := request_user_pk user;
     approved_at := Some (now c);
     rejection_reason := rejection_reason registration |}.

Definition set_rejection_reason (v : option string)
    (registration : UserRegistration) : UserRegistration :=
  {| reg_username := reg_username registration;
     reg_email := reg_email registration;
     requested_role := requested_role registration;
     status := status registration;
     approved_by := approved_by registration;
     approved_at := approved_at registration;
     rejection_reason := v |}.

(** [get_object_or_404(UserRegistration, pk=pk, status='Pending')]. *)
Definition get_pending (s : Site) (pk : nat) : option UserRegistration :=
  match registrations s !! pk with
  | Some registration =>
      if bool_decide (status registration = "Pending") then Some registration
      else None
  | None => None
  end.

(** [User.objects.filter(email=registration.email).exists()]. *)
Definition email_taken (s : Site) (e : string) : bool :=
  bool_decide (Exists (λ x, email x.2 = e) (map_to_list (users s))).

Definition email_taken_message (e : string) : string :=
  String.append "Email "
    (String "034"%char
       (String.append e
          (String "034"%char " is already registered to another user."))).

(** The profile of a user after [get_or_create] with the requested role as
    default and the update of an existing profile: in both cases the role
    is the requested one. *)
Definition with_role (uid : nat) (role : string) (db : DB) : DB :=
  set_profiles (<[uid := role]> (profiles db)) db.

Definition approve_registration (c : Clock) (s : Site) (user : Identity)
    (pk : nat) : Site * Outcome :=
  match registration_gate (site_db s) user with
  | Some refusal => (s, refusal)
  | None =>
      match get_pending s pk with
      | None => (s, Http404)
      | Some registration =>
          let approved := decided "Approved" c user registration in
          match users s !! reg_username registration with
          | Some user_row =>
              ({| site_db := with_role (user_id user_row)
                               (requested_role registration) (site_db s);
                  users := users s;
                  last_user_id := last_user_id s;
                  registrations := <[pk := approved]> (registrations s) |},
               JsonResponse 200 "User already exists. Profile role updated.")
          | None =>
              if email_taken s (reg_email registration)
              then (s, JsonResponse 400
                         (email_taken_message (reg_email registration)))
              else
                let new_id := S (last_user_id s) in
                ({| site_db := with_role new_id (requested_role registration)
                                 (site_db s);
                    users := <[reg_username registration :=
                                 {| user_id := new_id;
                                    email := reg_email registration |}]>
                               (users s);
                    last_user_id := new_id;
                    registrations := <[pk := approved]> (registrations s) |},
                 JsonResponse 200 "User approved and created successfully")
          end
      end
  end.

(** [reject_registration]; [post_reason] is the posted rejection reason,
    if any. *)
Definition reject_registration (c : Clock) (s : Site) (user : Identity)
    (pk : nat) (post_reason : option string) : Site * Outcome :=
  match registration_gate (site_db s) user with
  | Some refusal => (s, refusal)
  | None =>
      match get_pending s pk with
      | None => (s, Http404)
      | Some registration =>
          let rejection_reason := default "" post_reason in
          let registration :=
            decided "Rejected" c user
              (set_rejection_reason (Some rejection_reason) registration) in
          ({| site_db := site_db s;
              users := users s;
              last_user_id := last_user_id s;
              registrations := <[pk := registration]> (registrations s) |},
           JsonResponse 200 "Registration rejected")
      end
  end.

(** The two decisions as requests, and histories of them. *)
Inductive RegistrationRequest :=
  | Approve (user : Identity) (pk : nat)
  | Reject (user : Identity) (pk : nat) (post_reason : option string).

Definition decision_user (d : RegistrationRequest) : Identity :=
  match d with Approve user _ | Reject user _ _ => user end.

Definition decision_pk (d : RegistrationRequest) : nat :=
  match d with Approve _ pk | Reject _ pk _ => pk end.

Definition decide_registration (c : Clock) (d : RegistrationRequest)
    (s : Site) : Site * Outcome :=
  match d with
  | Approve user pk => approve_registration c s user pk
  | Reject user pk post_reason => reject_registration c s user pk post_reason
  end.

Fixpoint decide_all (history : list (Clock * RegistrationRequest))
    (s : Site) : Site :=
  match history with
  | [] => s
  | (c, d) :: rest => decide_all rest (fst (decide_registration c d s))
  end.

(** An administrator (user 1, named root), beside the users of the sample
    store, and two registration requests: a pending one that carries the
    administrator's user name and asks for the role User, and one that was
    rejected. *)
Definition sample_registration : UserRegistration :=
  {| reg_username := "root"; reg_email := "new@example.com";
     requested_role := "User"; status := "Pending";
     approved_by := None; approved_at := None; rejection_reason := None |}.

Definition sample_registration_rejected : UserRegistration :=
  {| reg_username := "mallory"; reg_email := "mallory@example.com";
     requested_role := "Manager"; status := "Rejected";
     approved_by := Some 1%nat; approved_at := Some 1715000000000000;
     rejection_reason := Some "Unknown person" |}.

Definition sample_site : Site :=
  {| site_db := with_role 1%nat "Admin" sample_db;
     users := {[ "root" := {| user_id := 1%nat;
                              email := "root@example.com" |} ]};
     last_user_id := 9%nat;
     registrations := <[ 2%nat := sample_registration_rejected ]>
                        {[ 1%nat := sample_registration ]} |}.

(** * Properties *)

(** ** Saving a request *)

Lemma elem_of_two (x a b : string) : x ∈ [a; b] ↔ x = a ∨ x = b.
Proof. rewrite !elem_of_cons, elem_of_nil. tauto. Qed.

Lemma truthy_str_true (o : option string) :
  truthy_str o = true ↔ ∃ s, o = Some s ∧ s ≠ "".
Proof.
  destruct o as [s|]; simpl.
  - rewrite negb_true_iff, String.eqb_neq. split.
    + intros Hs. by exists s.
    + by intros (s' & [= <-] & Hs).
  - split; [done|]. by intros (s & ? & _).
Qed.

Section SaveFacts.

Context (c : Clock) (db : DB) (pk : nat) (self : MaintenanceRequest).

Lemma overdue_status_true :
  overdue_status c self = true
  ↔ ∃ d, scheduled_date self = Some d
         ∧ stage self ≠ "Repaired" ∧ stage self ≠ "Scrap" ∧ d < today c.
Proof.
  unfold overdue_status.
  destruct (scheduled_date self) as [d|]; simpl.
  - case_bool_decide as Hin; simpl.
    + split; [done|]. intros (d' & _ & Hr & Hs & _).
      by apply elem_of_two in Hin as [?|?].
    + rewrite Z.ltb_lt, elem_of_two in *. split.
      * intros Hlt. exists d. tauto.
      * intros (d' & Heq & _ & _ & Hlt). by simplify_eq.
  - split; [done|]. by intros (d & ? & _).
Qed.

Lemma save_total :
  (stage self = "Scrap" → is_Some (equipment_table db !! equipment self)) →
  is_Some (MaintenanceRequest_save c db pk self).
Proof.
  intros Hfk. unfold MaintenanceRequest_save. simpl.
  case_bool_decide as Hs; [|done].
  destruct (Hfk Hs) as [e ->]. by destruct (is_scrapped e).
Qed.

Lemma save_stores db' :
  MaintenanceRequest_save c db pk self = Some db' →
  requests db' !! pk = Some (set_is_overdue (overdue_status c self) self).
Proof.
  unfold MaintenanceRequest_save. simpl. intros H.
  case_bool_decide.
  - destruct (equipment_table db !! equipment self) as [e|]; [|done].
    destruct (is_scrapped e); simpl in H; simplify_eq; unfold set_requests;
      simpl; apply lookup_insert_eq.
  - simplify_eq. unfold set_requests; simpl. apply lookup_insert_eq.
Qed.

Lemma save_other_rows db' pk' :
  MaintenanceRequest_save c db pk self = Some db' → pk' ≠ pk →
  requests db' !! pk' = requests db !! pk'.
Proof.
  unfold MaintenanceRequest_save. simpl. intros H Hne.
  case_bool_decide.
  - destruct (equipment_table db !! equipment self) as [e|]; [|done].
    destruct (is_scrapped e); simpl in H; simplify_eq; unfold set_requests;
      simpl; by apply lookup_insert_ne.
  - simplify_eq. unfold set_requests; simpl. by apply lookup_insert_ne.
Qed.

Lemma save_keeps_equipment db' :
  MaintenanceRequest_save c db pk self = Some db' →
  (stage self ≠ "Scrap"
   ∨ ∃ e, equipment_table db !! equipment self = Some e ∧ is_scrapped e = true) →
  equipment_table db' = equipment_table db.
Proof.
  unfold MaintenanceRequest_save. simpl. intros H Hcase.
  case_bool_decide as Hs.
  - destruct Hcase as [?|(e & He & Hscr)]; [done|].
    rewrite He, Hscr in H. simpl in H. by simplify_eq.
  - by simplify_eq.
Qed.

Lemma save_scraps_equipment db' e :
  MaintenanceRequest_save c db pk self = Some db' →
  stage self = "Scrap" →
  equipment_table db !! equipment self = Some e →
  is_scrapped e = false →
  equipment_table db' !! equipment self
  = Some (set_scrap (today c)
            (if truthy_str (resolution_summary self)
             then resolution_summary self else scrap_reason e) e).
Proof.
  unfold MaintenanceRequest_save. simpl. intros H Hs He Hscr.
  rewrite bool_decide_eq_true_2 in H by done.
  rewrite He, Hscr in H. simpl in H. simplify_eq. simpl.
  by rewrite lookup_insert_eq.
Qed.

End SaveFacts.

(** C1. After any save of a maintenance request the stored [is_overdue] is
    true exactly when [scheduled_date] is set, the stage is neither Repaired
    nor Scrap and [scheduled_date] is strictly before today; a save in stage
    Scrap therefore stores [is_overdue = false], whatever the scheduled
    date.  The save succeeds whenever the equipment row of a request in
    stage Scrap exists. *)
Theorem save_recomputes_is_overdue (c : Clock) (db : DB) (pk : nat)
    (self : MaintenanceRequest) :
  (stage self = "Scrap" → is_Some (equipment_table db !! equipment self)) →
  ∃ db' r',
    MaintenanceRequest_save c db pk self = Some db'
    ∧ requests db' !! pk = Some r'
    ∧ (is_overdue r' = true
       ↔ ∃ d, scheduled_date self = Some d
              ∧ stage self ≠ "Repaired" ∧ stage self ≠ "Scrap"
              ∧ d < today c)
    ∧ (stage self = "Scrap" → is_overdue r' = false).
Proof.
  intros Hfk.
  destruct (save_total c db pk self Hfk) as [db' Hsave].
  exists db', (set_is_overdue (overdue_status c self) self).
  split; [done|]. split; [by apply (save_stores c db)|]. simpl.
  split; [apply overdue_status_true|].
  intros Hs. apply not_true_is_false. rewrite overdue_status_true.
  by intros (d & _ & _ & Hne & _).
Qed.

(** The witness of C1: the sample request, overdue since yesterday, saved in
    stage Scrap. *)
Lemma save_recomputes_is_overdue_witness :
  ∃ db' r',
    MaintenanceRequest_save sample_clock sample_db 1%nat
      (set_stage "Scrap" sample_request) = Some db'
    ∧ requests db' !! 1%nat = Some r'
    ∧ (is_overdue r' = true
       ↔ ∃ d, scheduled_date (set_stage "Scrap" sample_request) = Some d
              ∧ stage (set_stage "Scrap" sample_request) ≠ "Repaired"
              ∧ stage (set_stage "Scrap" sample_request) ≠ "Scrap"
              ∧ d < today sample_clock)
    ∧ (stage (set_stage "Scrap" sample_request) = "Scrap"
       → is_overdue r' = false).
Proof.
  apply save_recomputes_is_overdue.
  intros _. exists sample_equipment. vm_compute. reflexivity.
Defined.

(** ** The scrap cascade *)

(** C5. Saving a request in stage Scrap whose equipment is not yet scrapped
    marks the equipment scrapped, dates the scrapping today and copies a
    present (non-empty) resolution summary into the scrap reason, which is
    otherwise kept; when the equipment is already scrapped the save leaves
    the equipment table as it was, and so does every later save of a request
    of that equipment. *)
Theorem scrap_cascade_idempotent (c : Clock) (db : DB) (pk : nat)
    (self : MaintenanceRequest) (e : Equipment) :
  stage self = "Scrap" →
  equipment_table db !! equipment self = Some e →
  ∃ db',
    MaintenanceRequest_save c db pk self = Some db'
    ∧ (is_scrapped e = false →
       ∃ e', equipment_table db' !! equipment self = Some e'
             ∧ is_scrapped e' = true
             ∧ scrap_date e' = Some (today c)
             ∧ (∀ s, resolution_summary self = Some s → s ≠ "" →
                     scrap_reason e' = Some s)
             ∧ (resolution_summary self = None
                ∨ resolution_summary self = Some "" →
                scrap_reason e' = scrap_reason e))
    ∧ (is_scrapped e = true → equipment_table db' = equipment_table db)
    ∧ (∀ c2 pk2 self2, equipment self2 = equipment self →
         ∃ db'', MaintenanceRequest_save c2 db' pk2 self2 = Some db''
                 ∧ equipment_table db'' = equipment_table db').
Proof.
  intros Hs He.
  destruct (save_total c db pk self) as [db' Hsave]; [by rewrite He|].
  exists db'. split; [done|].
  assert (∃ e1, equipment_table db' !! equipment self = Some e1
                ∧ is_scrapped e1 = true) as (e1 & He1 & Hscr1).
  { destruct (is_scrapped e) eqn:Hscr.
    - exists e. split; [|done].
      by rewrite (save_keeps_equipment c db pk self db' Hsave); eauto.
    - eexists. split; [by eapply save_scraps_equipment|done]. }
  split; [|split].
  - intros Hscr. eexists. split; [by eapply save_scraps_equipment|].
    simpl. repeat split.
    + intros s Hsum Hne.
      assert (truthy_str (resolution_summary self) = true) as ->;
        [apply truthy_str_true; eauto|done].
    + intros Hsum.
      assert (truthy_str (resolution_summary self) = false) as ->; [|done].
      by destruct Hsum as [-> | ->].
  - intros Hscr. eapply save_keeps_equipment; eauto.
  - intros c2 pk2 self2 Heq.
    destruct (save_total c2 db' pk2 self2) as [db'' Hsave2].
    { intros _. rewrite Heq. eauto. }
    exists db''. split; [done|].
    eapply save_keeps_equipment; [done|].
    right. exists e1. by rewrite Heq.
Qed.

(** The witness of C5: the sample request saved in stage Scrap with a
    resolution summary. *)
Lemma scrap_cascade_idempotent_witness :
  ∃ db',
    MaintenanceRequest_save sample_clock sample_db 1%nat
      (set_resolution_summary (Some "Frame cracked")
         (set_stage "Scrap" sample_request)) = Some db'
    ∧ (∃ e', equipment_table db' !! 1%nat = Some e'
             ∧ is_scrapped e' = true
             ∧ scrap_date e' = Some (today sample_clock)
             ∧ scrap_reason e' = Some "Frame cracked").
Proof.
  destruct (scrap_cascade_idempotent sample_clock sample_db 1%nat
              (set_resolution_summary (Some "Frame cracked")
                 (set_stage "Scrap" sample_request)) sample_equipment)
    as (db' & Hsave & Hfresh & _); [reflexivity | reflexivity |].
  exists db'. split; [exact Hsave|].
  destruct (Hfresh eq_refl) as (e' & He' & Hscr & Hdate & Hreason & _).
  exists e'. repeat split; try assumption.
  apply Hreason; [reflexivity | discriminate].
Defined.

(** ** The technician update form *)

(** A form that validates: the stage is one of the offered ones, no
    validator objects, and the instance carries the cleaned values. *)
Lemma form_is_valid_inv (pk : option nat) (instance : MaintenanceRequest)
    (post : TechnicianPost) (r' : MaintenanceRequest) :
  TechnicianRequestUpdateForm_is_valid pk instance post = inr r' →
  post_stage post ∈ (TechnicianRequestUpdateForm_stage_choices pk instance).*1
  ∧ duration_field_errors (post_duration_hours post) = []
  ∧ duration_model_errors (post_duration_hours post) = []
  ∧ TechnicianRequestUpdateForm_clean (Some (post_stage post))
      (Some (clean_text (post_resolution_summary post))) = None
  ∧ r' = set_resolution_summary
           (Some (clean_text (post_resolution_summary post)))
           (set_technician_notes
              (Some (clean_text (post_technician_notes post)))
              (set_duration_hours (post_duration_hours post)
                 (set_stage (post_stage post) instance))).
Proof.
  unfold TechnicianRequestUpdateForm_is_valid. intros H.
  destruct (stage_field_errors _ _) as [|? ?] eqn:Hs; [|done].
  destruct (duration_field_errors _) as [|? ?] eqn:Hd; [|done].
  destruct (text_field_errors (clean_text (post_technician_notes post)))
    as [|? ?] eqn:Hn; [|done].
  destruct (text_field_errors (clean_text (post_resolution_summary post)))
    as [|? ?] eqn:Hsum; [|done].
  simpl in H.
  destruct (TechnicianRequestUpdateForm_clean _ _) eqn:Hc; [done|].
  simpl in H.
  destruct (duration_model_errors _) as [|? ?] eqn:Hm; [|done].
  injection H as <-. repeat split; try done.
  unfold stage_field_errors in Hs.
  destruct (String.eqb _ _); [done|]. by case_bool_decide.
Qed.

(** C10. For a saved request edited through the technician update form the
    offered target stages depend on the current stage: from New only New
    and In Progress, from In Progress only In Progress, Repaired and Scrap,
    from Repaired only Repaired, from Scrap only Scrap.  So Scrap is never
    offered from New, a terminal stage offers only itself, and a form that
    validates carries one of the offered stages. *)
Theorem technician_form_stage_choices (pk : option nat)
    (instance : MaintenanceRequest) :
  truthy_pk pk = true →
  let offered := (TechnicianRequestUpdateForm_stage_choices pk instance).*1 in
  (stage instance = "New" → offered = ["New"; "In Progress"])
  ∧ (stage instance = "In Progress" →
     offered = ["In Progress"; "Repaired"; "Scrap"])
  ∧ (stage instance = "Repaired" → offered = ["Repaired"])
  ∧ (stage instance = "Scrap" → offered = ["Scrap"])
  ∧ (stage instance = "New" → "Scrap" ∉ offered)
  ∧ (stage instance ∈ ["Repaired"; "Scrap"] →
     ∀ s, s ∈ offered → s = stage instance)
  ∧ (∀ post r', TechnicianRequestUpdateForm_is_valid pk instance post = inr r' →
       stage r' ∈ offered).
Proof.
  intros Hpk offered. subst offered.
  unfold TechnicianRequestUpdateForm_stage_choices. rewrite Hpk.
  repeat split.
  - by intros ->.
  - by intros ->.
  - by intros ->.
  - by intros ->.
  - intros ->. simpl. rewrite elem_of_two. by intros [?|?].
  - intros Hin s. apply elem_of_two in Hin as [-> | ->]; simpl;
      rewrite list_elem_of_singleton; done.
  - intros post r' Hvalid.
    apply form_is_valid_inv in Hvalid as (Hin & _ & _ & _ & ->).
    unfold TechnicianRequestUpdateForm_stage_choices in Hin.
    rewrite Hpk in Hin. exact Hin.
Qed.

(** The witness of C10: the sample request, stored under key 1. *)
Lemma technician_form_stage_choices_witness :
  (TechnicianRequestUpdateForm_stage_choices (Some 1%nat) sample_request).*1
  = ["New"; "In Progress"].
Proof.
  apply (technician_form_stage_choices (Some 1%nat) sample_request);
    reflexivity.
Defined.

(** ** The role gate *)

(** C9. Under every gate (the five mixins and [role_required] for any list
    of roles) an authenticated user without profile is refused with the
    "profile not found" message, whereas an authenticated user whose role is
    not among the permitted ones is refused with another message; a user
    whose role is permitted passes. *)
Theorem gate_profile_missing_distinct (g : Gate) (db : DB) (uid : nat) :
  profile_role db uid = None →
  gate_dispatch g db (User uid)
  = Some (PermissionDenied profile_missing_message)
  ∧ (∀ uid' role, profile_role db uid' = Some role →
       role ∉ permitted_roles g →
       ∃ msg, gate_dispatch g db (User uid') = Some (PermissionDenied msg)
              ∧ msg ≠ profile_missing_message)
  ∧ (∀ uid' role, profile_role db uid' = Some role →
       role ∈ permitted_roles g → gate_dispatch g db (User uid') = None).
Proof.
  intros Hnone. split; [|split].
  - destruct g; simpl;
      unfold ManagerRequiredMixin_dispatch, AdminRequiredMixin_dispatch,
        TechnicianRequiredMixin_dispatch, UserRequiredMixin_dispatch,
        AdminOrManagerRequiredMixin_dispatch, role_required;
      by rewrite Hnone.
  - intros uid' role Hrole Hnot.
    destruct g; simpl in *;
      unfold ManagerRequiredMixin_dispatch, AdminRequiredMixin_dispatch,
        TechnicianRequiredMixin_dispatch, UserRequiredMixin_dispatch,
        AdminOrManagerRequiredMixin_dispatch, role_required;
      rewrite Hrole; try rewrite list_elem_of_singleton in Hnot;
      rewrite bool_decide_eq_false_2 by done; simpl;
      eexists; (split; [reflexivity|discriminate]).
  - intros uid' role Hrole Hin.
    destruct g; simpl in *;
      unfold ManagerRequiredMixin_dispatch, AdminRequiredMixin_dispatch,
        TechnicianRequiredMixin_dispatch, UserRequiredMixin_dispatch,
        AdminOrManagerRequiredMixin_dispatch, role_required;
      rewrite Hrole; try rewrite list_elem_of_singleton in Hin;
      by rewrite bool_decide_eq_true_2.
Qed.

(** The witness of C9: user 9 has no profile; the gate of the manager pages
    names the missing profile, and refuses the technician (user 7) with the
    message of an ordinary denial. *)
Lemma gate_profile_missing_distinct_witness :
  gate_dispatch AdminOrManagerRequired sample_db (User 9%nat)
  = Some (PermissionDenied profile_missing_message)
  ∧ ∃ msg, gate_dispatch AdminOrManagerRequired sample_db (User 7%nat)
           = Some (PermissionDenied msg)
           ∧ msg ≠ profile_missing_message.
Proof.
  destruct (gate_profile_missing_distinct AdminOrManagerRequired sample_db
              9%nat) as (Hmissing & Hdenied & _); [reflexivity|].
  split; [exact Hmissing|].
  apply (Hdenied 7%nat "Technician"); [reflexivity|].
  simpl. rewrite elem_of_two. intros [H|H]; discriminate H.
Defined.

(** The inline check of the registration views does not tell the missing
    profile from the ordinary denial. *)
Lemma registration_gate_conflates (db : DB) (uid uid' : nat) (role : string) :
  profile_role db uid = None →
  profile_role db uid' = Some role → role ≠ "Admin" →
  registration_gate db (User uid) = registration_gate db (User uid').
Proof.
  intros Hnone Hrole Hne. unfold registration_gate.
  rewrite Hnone, Hrole. by rewrite bool_decide_eq_false_2.
Qed.

(** ** The task views *)

Section TaskFacts.

Variable round_hours : Z → decimal2.
Context (c : Clock) (db : DB) (uid pk : nat) (r : MaintenanceRequest).
Hypothesis Hrow : requests db !! pk = Some r.

Lemma save_then_stored (self : MaintenanceRequest) (ok : Outcome) :
  (stage self = "Scrap" → is_Some (equipment_table db !! equipment self)) →
  ∃ db', save_then c db pk self ok = (db', ok)
         ∧ MaintenanceRequest_save c db pk self = Some db'
         ∧ requests db' !! pk
           = Some (set_is_overdue (overdue_status c self) self).
Proof.
  intros Hfk. unfold save_then.
  destruct (save_total c db pk self Hfk) as [db' Hsave]. rewrite Hsave.
  exists db'. split; [done|]. split; [done|]. by apply (save_stores c db).
Qed.

(** [end_task] checks the technician and the start time, nothing else: it
    stores stage Repaired with the resolution summary as it was, and the
    computed duration in place of whatever was there. *)
Lemma end_task_stores (s : datetime) :
  assigned_technician r = Some uid →
  actual_start_time r = Some s →
  ∃ r', stored (end_task round_hours c db (User uid) pk) pk = Some r'
        ∧ stage r' = "Repaired"
        ∧ resolution_summary r' = resolution_summary r
        ∧ duration_hours r' = Some (round_hours (now c - s))
        ∧ actual_end_time r' = Some (now c)
        ∧ completed_date r' = Some (today c).
Proof.
  intros Htech Hstart. unfold end_task, stored.
  rewrite Hrow, Htech, Hstart, bool_decide_eq_true_2 by done.
  cbv zeta. cbn [negb].
  edestruct save_then_stored as (db' & -> & _ & Hst); [by intros [=]|].
  simpl. rewrite Hst. by eexists.
Qed.

(** [start_task] records the start time whether or not one is stored. *)
Lemma start_task_stores :
  assigned_technician r = Some uid
  ∨ in_technician_teams db uid (maintenance_team r) = true →
  ∃ r', stored (start_task c db (User uid) pk) pk = Some r'
        ∧ stage r' = "In Progress"
        ∧ actual_start_time r' = Some (now c)
        ∧ assigned_technician r'
          = match assigned_technician r with
            | Some t => Some t
            | None => Some uid
            end.
Proof.
  intros Hperm. unfold start_task, stored. rewrite Hrow.
  assert (negb (bool_decide (assigned_technician r = Some uid))
          && negb (in_technician_teams db uid (maintenance_team r)) = false)
    as ->.
  { destruct Hperm as [Ht | ->]; [|apply andb_false_r].
    by rewrite bool_decide_eq_true_2. }
  cbv zeta.
  edestruct save_then_stored as (db' & -> & _ & Hst).
  { simpl. destruct (assigned_technician r); simpl; by intros [=]. }
  simpl. rewrite Hst. eexists. split; [reflexivity|].
  simpl. destruct (assigned_technician r) eqn:Ht; simpl; by rewrite ?Ht.
Qed.

End TaskFacts.

(** The stage views guard the duration: one that is set and not zero is
    kept by [update_request_stage] and by the manager's update view. *)
Lemma guarded_views_keep_duration (round_hours : Z → decimal2) (c : Clock)
    (new_stage : string) (r : MaintenanceRequest) :
  truthy_num (duration_hours r) = true →
  duration_hours (update_request_stage_fields round_hours c new_stage r)
  = duration_hours r
  ∧ duration_hours (MaintenanceRequestUpdateView_fields round_hours c r)
    = duration_hours r.
Proof.
  intros Hd. split.
  - unfold update_request_stage_fields.
    repeat (case_bool_decide || case_match); simpl in *; try done;
      rewrite ?Hd, ?andb_false_r in *; simpl in *; congruence.
  - unfold MaintenanceRequestUpdateView_fields.
    repeat (case_bool_decide || case_match); simpl in *; try done;
      rewrite ?Hd, ?andb_false_r in *; simpl in *; congruence.
Qed.

(** The technician form refuses the stage Repaired without a resolution
    summary, and nothing is written. *)
Lemma lstrip_spaces (s : string) :
  (∀ a, a ∈ list_ascii_of_string s → is_space a = true) → lstrip s = "".
Proof.
  unfold lstrip. induction s as [|a s IH]; simpl; [done|].
  intros Hall. rewrite (Hall a) by (apply elem_of_cons; auto).
  apply IH. intros b Hb. apply Hall, elem_of_cons. auto.
Qed.

Lemma clean_text_spaces (s : string) :
  (∀ a, a ∈ list_ascii_of_string s → is_space a = true) →
  clean_text s = "".
Proof. intros Hall. unfold clean_text. by rewrite lstrip_spaces. Qed.

(** A form that does not validate shows its errors and writes nothing. *)
Lemma form_clean_error (pk : option nat) (instance : MaintenanceRequest)
    (post : TechnicianPost) :
  post_stage post = "Repaired" →
  clean_text (post_resolution_summary post) = "" →
  ∃ errors,
    TechnicianRequestUpdateForm_is_valid pk instance post = inl errors
    ∧ (post_stage post
         ∈ (TechnicianRequestUpdateForm_stage_choices pk instance).*1 →
       ("resolution_summary",
        "Resolution summary is required when marking request as Repaired.")
       ∈ errors).
Proof.
  intros Hstage Hsum.
  destruct (TechnicianRequestUpdateForm_is_valid pk instance post)
    as [errors|r'] eqn:Hvalid.
  - exists errors. split; [done|]. intros Hin.
    unfold TechnicianRequestUpdateForm_is_valid in Hvalid.
    rewrite Hsum, Hstage in Hvalid. rewrite Hstage in Hin.
    unfold stage_field_errors in Hvalid. simpl in Hvalid.
    rewrite bool_decide_eq_true_2 in Hvalid by done. simpl in Hvalid.
    match type of Hvalid with
    | match ?E with _ => _ end = _ =>
        assert (("resolution_summary",
                 "Resolution summary is required when marking request as Repaired.")
                ∈ E) as He;
          [|destruct E; [by apply elem_of_nil in He|by injection Hvalid as <-]]
    end.
    rewrite !elem_of_app, !elem_of_cons. auto 10.
  - apply form_is_valid_inv in Hvalid as (_ & _ & _ & Hclean & _).
    rewrite Hstage, Hsum in Hclean. done.
Qed.

Lemma technician_post_requires_summary (round_hours : Z → decimal2)
    (c : Clock) (db : DB) (uid pk : nat) (post : TechnicianPost) :
  post_stage post = "Repaired" →
  clean_text (post_resolution_summary post) = "" →
  fst (TechnicianRequestDetailView_post round_hours c db uid pk post) = db
  ∧ snd (TechnicianRequestDetailView_post round_hours c db uid pk post)
    ≠ RedirectToSuccessUrl.
Proof.
  intros Hstage Hsum. unfold TechnicianRequestDetailView_post.
  destruct (requests db !! pk) as [obj|]; [|done].
  destruct (_ && _); [done|].
  destruct (TechnicianRequiredMixin_dispatch db (User uid)) as [out|] eqn:Hg.
  { split; [done|]. simpl. intros ->.
    unfold TechnicianRequiredMixin_dispatch in Hg.
    destruct (profile_role db uid); [|done].
    by destruct (negb _). }
  destruct (form_clean_error (Some pk) obj post Hstage Hsum)
    as (errors & -> & _). done.
Qed.

(** C2, where the code departs from it.  The claim asks every operation
    that moves a request to Repaired to fail, and to write nothing, when the
    resolution summary is empty.  [end_task] on the sample request in
    progress, which has no resolution summary, answers with success and
    stores stage Repaired. *)
Theorem end_task_repairs_without_summary :
  resolution_summary sample_started = None
  ∧ snd (end_task round_half_even sample_clock sample_db_started
           (User 7%nat) 1%nat)
    = JsonResponse 200 "Task completed successfully"
  ∧ stage <$> stored (end_task round_half_even sample_clock sample_db_started
                        (User 7%nat) 1%nat) 1%nat
    = Some "Repaired"
  ∧ resolution_summary
      <$> stored (end_task round_half_even sample_clock sample_db_started
                    (User 7%nat) 1%nat) 1%nat
    = Some None.
Proof. repeat split; vm_compute; reflexivity. Qed.

(** C4, where the code departs from it.  The claim asks that no completion
    overwrite a duration an operator has entered.  [end_task] on the sample
    request carrying 2.50 hours, one hour after its start, stores 1.00. *)
Theorem end_task_overwrites_entered_duration :
  duration_hours sample_timed = Some 250
  ∧ duration_hours
      <$> stored (end_task round_half_even sample_clock sample_db_timed
                    (User 7%nat) 1%nat) 1%nat
    = Some (Some 100).
Proof. repeat split; vm_compute; reflexivity. Qed.

(** C6, where the code departs from it.  The claim asks that a start time
    already set be preserved when a technician starts the task.
    [start_task] on the sample request in progress, started an hour ago,
    stores the present instant as the start time. *)
Theorem start_task_resets_start_time :
  actual_start_time sample_started = Some 1715338800000000
  ∧ now sample_clock = 1715342400000000
  ∧ actual_start_time
      <$> stored (start_task sample_clock sample_db_started (User 7%nat)
                    1%nat) 1%nat
    = Some (Some 1715342400000000).
Proof. repeat split; vm_compute; reflexivity. Qed.

(** ** The next maintenance date *)

(** C7, where the code departs from it.  The claim asks for no date when no
    positive interval is configured.  For the press bought on 2023-01-15
    with an interval of -30 days the method returns 2022-12-16 (it returns:
    the date is within Python's dates). *)
Theorem next_maintenance_date_negative_interval :
  maintenance_interval_days sample_equipment_negative = Some (-30)
  ∧ Equipment_get_next_maintenance_date sample_clock sample_db 1%nat
      sample_equipment_negative
    = Ok (Some (toordinal 2022 12 16)).
Proof. split; vm_compute; reflexivity. Qed.

Section NextDateFacts.

Context (c : Clock) (db : DB) (eq_pk : nat) (self : Equipment).

(** No interval, or an interval of zero: no date. *)
Lemma next_maintenance_date_none :
  maintenance_interval_days self = None
  ∨ maintenance_interval_days self = Some 0 →
  Equipment_get_next_maintenance_date c db eq_pk self = Ok None.
Proof.
  unfold Equipment_get_next_maintenance_date. by intros [-> | ->].
Qed.

(** An interval other than zero: the interval is added to the completion
    date of the first row of the ordered query, and without such a date to
    the purchase date, or to today; the method raises when the addition
    does. *)
Lemma next_maintenance_date_some (interval : Z) :
  maintenance_interval_days self = Some interval → interval ≠ 0 →
  Equipment_get_next_maintenance_date c db eq_pk self
  = and_then (date_add (counted_from c db eq_pk self) interval)
      (λ next, Ok (Some next)).
Proof.
  intros Hi Hne. unfold Equipment_get_next_maintenance_date, counted_from.
  rewrite Hi. simpl.
  assert ((interval =? 0) = false) as -> by (by apply Z.eqb_neq).
  simpl. by destruct (last_preventive_completed_date db eq_pk).
Qed.

(** Within Python's dates the addition returns the sum, and only there. *)
Lemma date_add_ok (d days next : Z) :
  date_add d days = Ok next
  ↔ next = d + days ∧ Z.abs days ≤ 999999999 ∧ 1 ≤ d + days ≤ date_max.
Proof.
  unfold date_add.
  destruct (Z.leb_spec (Z.abs days) 999999999),
    (Z.leb_spec 1 (d + days)), (Z.leb_spec (d + days) date_max); simpl;
    split; try congruence; try (intros [= <-]; lia); try lia;
    try (by intros [-> _]).
Qed.

Lemma date_add_cases (d days : Z) :
  date_add d days = Ok (d + days) ∨ date_add d days = Raise OverflowError.
Proof. unfold date_add. destruct (_ && _); auto. Qed.

Lemma next_maintenance_date_in_range (interval : Z) :
  maintenance_interval_days self = Some interval → interval ≠ 0 →
  Z.abs interval ≤ 999999999 →
  1 ≤ counted_from c db eq_pk self + interval ≤ date_max →
  Equipment_get_next_maintenance_date c db eq_pk self
  = Ok (Some (counted_from c db eq_pk self + interval)).
Proof.
  intros Hi Hne Habs Hrange. rewrite (next_maintenance_date_some _ Hi Hne).
  by rewrite (proj2 (date_add_ok _ _ _) (conj eq_refl (conj Habs Hrange))).
Qed.

End NextDateFacts.

(** The first row of the ordered query is a row of the query and no row
    comes strictly before it. *)
Lemma desc_le_total (a b : option Z) : desc_le a b = true ∨ desc_le b a = true.
Proof.
  destruct a as [x|], b as [y|]; simpl; auto.
  destruct (Z.le_ge_cases x y); [right | left]; by apply Z.leb_le.
Qed.

Lemma desc_le_trans (a b d : option Z) :
  desc_le a b = true → desc_le b d = true → desc_le a d = true.
Proof.
  destruct a as [x|], b as [y|], d as [z|]; simpl; try done.
  rewrite !Z.leb_le. lia.
Qed.

Lemma comes_before_total (r1 r2 : MaintenanceRequest) :
  comes_before r1 r2 = true ∨ comes_before r2 r1 = true.
Proof.
  unfold comes_before, desc_lt.
  destruct (desc_le_total (completed_date r1) (completed_date r2)) as [H|H],
    (desc_le_total (actual_end_time r1) (actual_end_time r2)) as [H'|H'];
    rewrite ?H, ?H'; simpl;
    destruct (desc_le (completed_date r2) (completed_date r1)),
      (desc_le (completed_date r1) (completed_date r2)); simpl; auto;
    rewrite ?H'; auto.
Qed.

Lemma comes_before_trans (r1 r2 r3 : MaintenanceRequest) :
  comes_before r1 r2 = true → comes_before r2 r3 = true →
  comes_before r1 r3 = true.
Proof.
  unfold comes_before, desc_lt.
  destruct (desc_le (completed_date r1) (completed_date r2)) eqn:H12,
    (desc_le (completed_date r2) (completed_date r1)) eqn:H21,
    (desc_le (completed_date r2) (completed_date r3)) eqn:H23,
    (desc_le (completed_date r3) (completed_date r2)) eqn:H32;
    simpl; try done; intros Ha Hb;
    try (destruct (desc_le_total (completed_date r1) (completed_date r2));
         congruence);
    try (destruct (desc_le_total (completed_date r2) (completed_date r3));
         congruence);
    rewrite (desc_le_trans _ _ _ H12 H23);
    destruct (desc_le (completed_date r3) (completed_date r1)) eqn:H31;
    simpl; try done;
    try (rewrite (desc_le_trans _ _ _ H31 H12) in H32; done);
    try (rewrite (desc_le_trans _ _ _ H23 H31) in H21; done).
  by rewrite (desc_le_trans _ _ _ Ha Hb).
Qed.

Lemma first_ordered_spec (rows : list (nat * MaintenanceRequest))
    (x : nat * MaintenanceRequest) :
  first_ordered rows = Some x →
  x ∈ rows ∧ ∀ y, y ∈ rows → comes_before (snd x) (snd y) = true.
Proof.
  revert x. induction rows as [|a rows IH]; intros x; simpl; [done|].
  destruct (first_ordered rows) as [b|] eqn:Hb.
  - destruct (IH b eq_refl) as [Hin Hmin].
    destruct (comes_before (snd a) (snd b)) eqn:Hab; intros [= <-].
    + split; [apply elem_of_cons; auto|].
      intros y [-> | Hy]%elem_of_cons.
      * destruct (comes_before_total (snd a) (snd a)); done.
      * eapply comes_before_trans; eauto.
    + split; [apply elem_of_cons; auto|].
      intros y [-> | Hy]%elem_of_cons; [|by apply Hmin].
      destruct (comes_before_total (snd a) (snd b)); congruence.
  - intros [= <-]. destruct rows as [|b rows]; [|simpl in Hb].
    + split; [apply elem_of_cons; auto|].
      intros y [-> | Hy]%elem_of_cons; [|by apply elem_of_nil in Hy].
      destruct (comes_before_total (snd a) (snd a)); done.
    + destruct (first_ordered rows); [destruct (comes_before _ _)|]; done.
Qed.

Lemma first_ordered_none (rows : list (nat * MaintenanceRequest)) :
  first_ordered rows = None ↔ rows = [].
Proof.
  destruct rows as [|a rows]; simpl; [done|].
  split; [|done].
  destruct (first_ordered rows); [destruct (comes_before _ _)|]; done.
Qed.

(** When every row of the query carries a completion date, the date of the
    first row is the latest of them. *)
Lemma last_preventive_latest (db : DB) (eq_pk : nat) (d : date) :
  (∀ x, x ∈ completed_preventive db eq_pk → is_Some (completed_date (snd x))) →
  last_preventive_completed_date db eq_pk = Some d →
  (∃ x, x ∈ completed_preventive db eq_pk ∧ completed_date (snd x) = Some d)
  ∧ ∀ y d', y ∈ completed_preventive db eq_pk →
            completed_date (snd y) = Some d' → d' ≤ d.
Proof.
  intros Hall. unfold last_preventive_completed_date, last_preventive.
  destruct (first_ordered _) as [[k r]|] eqn:Hfirst; [|done].
  intros Hd. apply first_ordered_spec in Hfirst as [Hin Hmin].
  split; [by exists (k, r)|].
  intros y d' Hy Hd'. specialize (Hmin y Hy). simpl in Hmin.
  unfold comes_before, desc_lt in Hmin. rewrite Hd, Hd' in Hmin.
  simpl in Hmin. revert Hmin.
  destruct (Z.leb_spec d d'), (Z.leb_spec d' d); simpl; intros; try done; lia.
Qed.

(** The scenario of the specification: interval 90, bought on 2023-01-15,
    no completed preventive request: due on 2023-04-15. *)
Example next_maintenance_date_sample :
  Equipment_get_next_maintenance_date sample_clock sample_db 1%nat
    sample_equipment
  = Ok (Some (toordinal 2023 4 15)).
Proof. vm_compute. reflexivity. Qed.

(** ** Rounding *)

(** Python's floats at work: 18 seconds are 0.005 hours, the double nearest
    to which lies above it and rounds to 0.01; an hour is 1.00; and 45
    seconds, 0.0125 hours, round to 0.01. *)
Example round_half_even_sample :
  round_half_even 18000000 = 1
  ∧ round_half_even 3600000000 = 100
  ∧ round_half_even 45000000 = 1.
Proof. repeat split; vm_compute; reflexivity. Qed.

(** ** Completing a request *)

Section CompletionFacts.

Variable round_hours : Z → decimal2.

(** What each view hands to [save] when it completes a started request that
    has neither end time nor duration. *)
Lemma completion_fields (v : StageView) (c : Clock) (target : string)
    (r : MaintenanceRequest) (s : datetime) :
  target ∈ ["Repaired"; "Scrap"] →
  actual_start_time r = Some s →
  actual_end_time r = None →
  duration_hours r = None →
  let r' := view_fields round_hours v c target r in
  stage r' = target
  ∧ equipment r' = equipment r
  ∧ actual_start_time r' = Some s
  ∧ actual_end_time r' = Some (now c)
  ∧ duration_hours r' = Some (round_hours (now c - s))
  ∧ (∀ d, completed_date r = Some d → completed_date r' = Some d)
  ∧ (completed_date r = None → dates_completion v target →
     completed_date r' = Some (today c)).
Proof.
  intros Htarget Hstart Hend Hdur.
  apply elem_of_two in Htarget.
  destruct r as [sub ty st pr eq tm tech cb sd cd dur ast aet ov notes summ].
  simpl in Hstart, Hend, Hdur. subst ast aet dur.
  destruct v as [uid| |uid]; destruct Htarget as [-> | ->];
    destruct cd as [d0|], tech as [t|];
    repeat split; try reflexivity; try (intros ? [= <-]; reflexivity);
    try done.
Qed.

(** A completed request whose duration agrees with its times keeps that
    duration under every way of saving it again. *)
Lemma resave_keeps_duration (how : Resave) (c2 : Clock)
    (r : MaintenanceRequest) (s e : datetime) :
  stage r ∈ ["Repaired"; "Scrap"] →
  actual_start_time r = Some s →
  actual_end_time r = Some e →
  duration_hours r = Some (round_hours (e - s)) →
  let r2 := resave_instance round_hours how c2 r in
  duration_hours r2 = duration_hours r
  ∧ actual_start_time r2 = Some s
  ∧ actual_end_time r2 = Some e
  ∧ equipment r2 = equipment r.
Proof.
  intros Hstage Hstart Hend Hdur. apply elem_of_two in Hstage.
  destruct r as [sub ty st pr eq tm tech cb sd cd dur ast aet ov notes summ].
  simpl in Hstage, Hstart, Hend, Hdur. subst ast aet dur.
  destruct how as [|[uid| |uid]]; destruct Hstage as [-> | ->];
    destruct cd as [d0|], tech as [t|];
    simpl; unfold update_request_stage_fields,
      MaintenanceRequestUpdateView_fields, computed_duration; simpl;
    try (destruct (round_hours (e - s) =? 0)); repeat split; reflexivity.
Qed.

(** Every view saves the instance of [view_fields]. *)
Lemma complete_through_saves (v : StageView) (c : Clock) (db : DB) (pk : nat)
    (target : string) (r : MaintenanceRequest) :
  target ∈ ["Repaired"; "Scrap"] →
  requests db !! pk = Some r →
  ∃ ok, complete_through round_hours v c db pk target r
        = save_then c db pk (view_fields round_hours v c target r) ok.
Proof.
  intros Htarget Hrow. apply elem_of_two in Htarget.
  destruct v as [uid| |uid]; simpl.
  - unfold update_request_stage. rewrite Hrow.
    destruct Htarget as [-> | ->]; by eexists.
  - by eexists.
  - by eexists.
Qed.

End CompletionFacts.

(** C3, as the code has it.  A request with a start time and neither end
    time nor duration, moved to Repaired or Scrap through the board, the
    manager's update view or the technician's detail view, is stored with
    the present instant as end time and with the rounding of the elapsed
    time as duration.  A completion date already set is kept; one that is
    unset becomes today (on the technician's view: when the target is
    Repaired).  Saving the stored request again, alone or through any of the
    views, leaves the duration and both times as they are. *)
Theorem completion_derives_duration (round_hours : Z → decimal2)
    (v : StageView) (c : Clock) (db : DB) (pk : nat)
    (r : MaintenanceRequest) (target : string) (s : datetime) :
  target ∈ ["Repaired"; "Scrap"] →
  requests db !! pk = Some r →
  is_Some (equipment_table db !! equipment r) →
  actual_start_time r = Some s →
  actual_end_time r = None →
  duration_hours r = None →
  ∃ db' out r',
    complete_through round_hours v c db pk target r = (db', out)
    ∧ requests db' !! pk = Some r'
    ∧ stage r' = target
    ∧ actual_start_time r' = Some s
    ∧ actual_end_time r' = Some (now c)
    ∧ duration_hours r' = Some (round_hours (now c - s))
    ∧ (∀ d, completed_date r = Some d → completed_date r' = Some d)
    ∧ (completed_date r = None → dates_completion v target →
       completed_date r' = Some (today c))
    ∧ (∀ how c2 db2 pk2 db3,
         MaintenanceRequest_save c2 db2 pk2
           (resave_instance round_hours how c2 r') = Some db3 →
         ∃ r'', requests db3 !! pk2 = Some r''
                ∧ duration_hours r'' = duration_hours r'
                ∧ actual_start_time r'' = actual_start_time r'
                ∧ actual_end_time r'' = actual_end_time r').
Proof.
  intros Htarget Hrow Hfk Hstart Hend Hdur.
  destruct (completion_fields round_hours v c target r s Htarget Hstart
              Hend Hdur)
    as (Hst & Heq & Hs' & He' & Hd' & Hkeep & Hset).
  destruct (complete_through_saves round_hours v c db pk target r Htarget
              Hrow) as [ok ->].
  destruct (save_then_stored c db pk (view_fields round_hours v c target r)
              ok) as (db' & -> & _ & Hstored).
  { intros _. by rewrite Heq. }
  eexists db', ok, _. split; [done|]. split; [exact Hstored|].
  simpl. repeat split; try done.
  intros how c2 db2 pk2 db3 Hsave.
  apply save_stores in Hsave. eexists. split; [exact Hsave|]. simpl.
  set (r1 := set_is_overdue _ (view_fields round_hours v c target r))
    in *.
  destruct (resave_keeps_duration round_hours how c2 r1 s (now c))
    as (H1 & H2 & H3 & _); subst r1; simpl; try done.
  - by rewrite Hst.
  - by rewrite H2, H3.
Qed.

(** The witness of C3: the sample request in progress, moved to Repaired on
    the board one hour after its start: 1.00 hours, completed today. *)
Lemma completion_derives_duration_witness :
  ∃ db' out r',
    complete_through round_half_even (KanbanBoard 2%nat) sample_clock
      sample_db_started 1%nat "Repaired" sample_started = (db', out)
    ∧ requests db' !! 1%nat = Some r'
    ∧ duration_hours r' = Some 100
    ∧ completed_date r' = Some (today sample_clock).
Proof.
  destruct (completion_derives_duration round_half_even (KanbanBoard 2%nat)
              sample_clock sample_db_started 1%nat sample_started "Repaired"
              1715338800000000)
    as (db' & out & r' & Hrun & Hrow & _ & _ & _ & Hdur & _ & Hdate & _).
  - apply elem_of_two. left. reflexivity.
  - reflexivity.
  - exists sample_equipment. reflexivity.
  - reflexivity.
  - reflexivity.
  - reflexivity.
  - exists db', out, r'. split; [exact Hrun|]. split; [exact Hrow|].
    split; [exact Hdur|]. apply Hdate; [reflexivity | exact I].
Defined.

(** C3 as stated fails: the sample request in progress carrying the
    completion date 2024-05-08 has a start time and neither end time nor
    duration; moved to Repaired on the board on 2024-05-10 it keeps that
    completion date. *)
Lemma completion_keeps_completed_date_counterexample :
  actual_start_time sample_dated = Some 1715338800000000
  ∧ actual_end_time sample_dated = None
  ∧ duration_hours sample_dated = None
  ∧ snd (update_request_stage round_half_even sample_clock sample_db_dated
           (User 2%nat) 1%nat (Some "Repaired"))
    = JsonResponse 200 "Request moved to Repaired"
  ∧ completed_date
      <$> stored (update_request_stage round_half_even sample_clock
                    sample_db_dated (User 2%nat) 1%nat (Some "Repaired"))
            1%nat
    = Some (Some (toordinal 2024 5 8))
  ∧ Some (toordinal 2024 5 8) ≠ Some (today sample_clock).
Proof. repeat split; vm_compute; (reflexivity || discriminate). Qed.

(** The technician's view dates the completion for Repaired only: moved to
    Scrap there, a request without completion date stays without. *)
Lemma technician_scrap_leaves_completed_date (round_hours : Z → decimal2)
    (c : Clock) (uid : nat) (r : MaintenanceRequest) :
  completed_date r = None →
  completed_date
    (TechnicianRequestDetailView_fields round_hours c uid
       (set_stage "Scrap" r)) = None.
Proof.
  intros Hcd.
  destruct r as [sub ty st pr eq tm tech cb sd cd dur ast aet ov notes summ].
  simpl in Hcd. subst cd.
  by destruct tech, ast, aet.
Qed.

(** ** The calendar *)

Lemma append_item_eq (k : Z) (it : CalendarItem)
    (m : gmap Z (list CalendarItem)) :
  append_item k it m !!! k = (m !!! k ++ [it])%list.
Proof. unfold append_item. apply lookup_total_insert_eq. Qed.

Lemma append_item_ne (k k' : Z) (it : CalendarItem)
    (m : gmap Z (list CalendarItem)) :
  k ≠ k' → append_item k it m !!! k' = m !!! k'.
Proof. intros Hne. unfold append_item. by apply lookup_total_insert_ne. Qed.

Lemma append_item_prefix (k d : Z) (it : CalendarItem)
    (m : gmap Z (list CalendarItem)) :
  (m !!! d) `prefix_of` (append_item k it m !!! d).
Proof.
  destruct (decide (k = d)) as [-> | Hne].
  - rewrite append_item_eq. by apply prefix_app_r.
  - by rewrite append_item_ne.
Qed.

(** The query of the loop body finds a row exactly when a Preventive
    request of the equipment, not in stage Scrap, is scheduled that day. *)
Lemma existing_request_iff (db : DB) (eq_pk : nat) (d : date) :
  existing_request db eq_pk d ≠ None
  ↔ ∃ pk r, requests db !! pk = Some r
            ∧ equipment r = eq_pk
            ∧ request_type r = "Preventive"
            ∧ scheduled_date r = Some d
            ∧ stage r ≠ "Scrap".
Proof.
  unfold existing_request. rewrite head_None. split.
  - intros Hne.
    destruct (filter _ (map_to_list (requests db))) as [|[pk r] l] eqn:Hf;
      [done|].
    assert ((pk, r) ∈ filter (λ x, equipment (snd x) = eq_pk
                     ∧ request_type (snd x) = "Preventive"
                     ∧ scheduled_date (snd x) = Some d
                     ∧ stage (snd x) ∉ ["Scrap"])
               (map_to_list (requests db))) as Hin.
    { rewrite Hf. apply elem_of_cons. auto. }
    apply list_elem_of_filter in Hin as [(He & Ht & Hd & Hs) Hin].
    apply elem_of_map_to_list in Hin. simpl in *.
    exists pk, r. repeat split; try done.
    intros Heq. apply Hs. rewrite Heq. by apply list_elem_of_singleton.
  - intros (pk & r & Hrow & He & Ht & Hd & Hs) Hnil.
    assert ((pk, r) ∈ filter (λ x, equipment (snd x) = eq_pk
                     ∧ request_type (snd x) = "Preventive"
                     ∧ scheduled_date (snd x) = Some d
                     ∧ stage (snd x) ∉ ["Scrap"])
               (map_to_list (requests db))) as Hin.
    { apply list_elem_of_filter. split.
      - simpl. repeat split; try done. by rewrite list_elem_of_singleton.
      - by apply elem_of_map_to_list. }
    rewrite Hnil in Hin. by apply elem_of_nil in Hin.
Qed.

Lemma and_then_ok {A B : Type} (r : Result A) (f : A → Result B) (b : B) :
  and_then r f = Ok b ↔ ∃ a, r = Ok a ∧ f a = Ok b.
Proof.
  destruct r as [a|e|]; simpl; split; try done.
  - intros Hf. by exists a.
  - by intros (a' & [= <-] & Hf).
  - by intros (a' & ? & _).
  - by intros (a' & ? & _).
Qed.

Lemma forallb_elem_of {A : Type} (f : A → bool) (l : list A) (x : A) :
  forallb f l = true → x ∈ l → f x = true.
Proof.
  induction l as [|y l IH]; simpl; intros Hall Hin.
  - by apply elem_of_nil in Hin.
  - apply andb_prop in Hall as [Hy Hl].
    apply elem_of_cons in Hin as [-> | Hin]; [done|by apply IH].
Qed.

Lemma forallb_false_elem_of {A : Type} (f : A → bool) (l : list A) :
  forallb f l = false → ∃ x, x ∈ l ∧ f x = false.
Proof.
  induction l as [|y l IH]; simpl; [done|].
  destruct (f y) eqn:Hy; simpl.
  - intros (x & Hin & Hx)%IH. exists x. split; [|done].
    apply elem_of_cons. auto.
  - intros _. exists y. split; [|done]. apply elem_of_cons. auto.
Qed.

Lemma datetime_date_ok (y m d : Z) (x : date) :
  datetime_date y m d = Ok x ↔ valid_ymd y m d = true ∧ x = toordinal y m d.
Proof.
  unfold datetime_date.
  destruct (valid_ymd y m d) eqn:Hv; simpl.
  - assert (fits_int y && fits_int m && fits_int d = true) as ->.
    { unfold valid_ymd in Hv. unfold fits_int.
      assert (days_in_month y m ≤ 31).
      { unfold days_in_month. destruct (m =? 2); [destruct (isleap y); lia|].
        destruct (_ || _); lia. }
      repeat (apply andb_prop in Hv as [Hv ?]).
      repeat (apply andb_true_intro; split); apply Z.leb_le; lia. }
    simpl. split; [by intros [= <-]|by intros [_ ->]].
  - destruct (negb _); split; try done; by intros [? _].
Qed.

Section LoopFacts.

Context (db : DB) (eq_pk : nat) (e : Equipment).
Context (end_date interval_days : Z).
Hypothesis Hpos : 0 < interval_days.

Lemma first_after_step (cur : Z) :
  cur + interval_days ≤ end_date →
  first_after (cur + interval_days) interval_days end_date
  = first_after cur interval_days end_date.
Proof.
  intros Hle. unfold first_after.
  replace (end_date - (cur + interval_days))
    with (end_date - cur + (-1) * interval_days) by lia.
  rewrite Z.div_add by lia. lia.
Qed.

Lemma first_after_last (cur : Z) :
  cur ≤ end_date → end_date < cur + interval_days →
  first_after cur interval_days end_date = cur + interval_days.
Proof.
  intros Hle Hlt. unfold first_after.
  rewrite Z.div_small by lia. lia.
Qed.

Lemma first_after_bounds (cur : Z) :
  cur ≤ end_date →
  end_date < first_after cur interval_days end_date
  ∧ cur + interval_days ≤ first_after cur interval_days end_date.
Proof.
  intros Hle. unfold first_after.
  pose proof (Z.div_pos (end_date - cur) interval_days ltac:(lia) Hpos).
  pose proof (Z.mul_succ_div_gt (end_date - cur) interval_days Hpos).
  split; nia.
Qed.

(** The loop ends within its fuel.  When the first date after the end date
    is a date, it returns: at a date it visits with no request in the way
    it has appended the projected entry, once, and every other list of the
    dictionary is as it was. *)
Lemma recurring_dates_spec (fuel : nat) :
  ∀ (current_date : Z) (m : gmap Z (list CalendarItem)),
    1 ≤ current_date →
    (Z.to_nat (end_date - current_date + 1) ≤ fuel)%nat →
    (current_date ≤ end_date →
     first_after current_date interval_days end_date ≤ date_max) →
    ∃ m', recurring_dates fuel db eq_pk e end_date interval_days
            current_date m = Ok m'
          ∧ (∀ d, occurrence current_date interval_days end_date d →
                  existing_request db eq_pk d = None →
                  m' !!! d = (m !!! d ++ [interval_item e d])%list)
          ∧ (∀ d, ¬ occurrence current_date interval_days end_date d
                  ∨ existing_request db eq_pk d ≠ None →
                  m' !!! d = m !!! d)
          ∧ (∀ d, (m !!! d) `prefix_of` (m' !!! d)).
Proof.
  assert (∀ current_date d, end_date < current_date →
            ¬ occurrence current_date interval_days end_date d) as Hpast.
  { intros cur d Hlt (j & Hj & -> & Hle). nia. }
  induction fuel as [|fuel IH]; intros cur m Hcur Hfuel Hrange.
  - assert (end_date < cur) as Hlt by lia.
    simpl. rewrite (proj2 (Z.leb_gt cur end_date)) by done.
    exists m. split; [done|]. split; [|split]; [|done|done].
    intros d Hocc. by apply Hpast in Hocc.
  - simpl. destruct (Z.leb_spec cur end_date) as [Hle | Hlt].
    + set (m1 := if negb (truthy (existing_request db eq_pk cur))
                 then append_item cur (interval_item e cur) m else m).
      destruct (first_after_bounds cur Hle) as [_ Hnext].
      specialize (Hrange Hle).
      assert (date_add cur interval_days = Ok (cur + interval_days)) as ->.
      { apply date_add_ok. unfold date_max in *. lia. }
      simpl.
      destruct (IH (cur + interval_days) m1)
        as (m' & Hrun & Hadd & Hkeep & Hpre); [lia|lia| |].
      { intros Hle'. by rewrite first_after_step. }
      assert (¬ occurrence (cur + interval_days) interval_days end_date cur)
        as Hnot.
      { intros (j & Hj & Heq & _). nia. }
      assert (∀ d, d ≠ cur → m1 !!! d = m !!! d) as Hother.
      { intros d Hne. subst m1. destruct (negb _); [|done].
        by apply append_item_ne. }
      exists m'. split; [done|]. split; [|split].
      * intros d (j & Hj & Hd & Hdle) Hnone.
        destruct (decide (j = 0)) as [-> | Hj0].
        -- assert (d = cur) as -> by lia.
           rewrite Hkeep by auto. subst m1. rewrite Hnone. simpl.
           apply append_item_eq.
        -- rewrite Hadd, Hother; [done|nia| |done].
           exists (j - 1). split; [lia|]. split; [lia|done].
      * intros d Hcase.
        destruct (decide (d = cur)) as [-> | Hne].
        -- rewrite Hkeep by auto. subst m1.
           destruct Hcase as [Hocc | Hex].
           ++ exfalso. apply Hocc. exists 0. split; [lia|]. split; [lia|done].
           ++ by destruct (existing_request db eq_pk cur).
        -- rewrite Hkeep, Hother; [done|done|].
           destruct Hcase as [Hocc | Hex]; [left|by right].
           intros (j & Hj & Hd & Hdle). apply Hocc.
           exists (j + 1). split; [lia|]. split; [lia|done].
      * intros d. etrans; [|apply Hpre]. subst m1.
        destruct (negb _); [apply append_item_prefix|done].
    + exists m. split; [done|]. split; [|split]; [|done|done].
      intros d Hocc. by apply Hpast in Hocc.
Qed.

(** When the first date after the end date is past 9999-12-31, the loop
    raises [OverflowError]. *)
Lemma recurring_dates_overflow (fuel : nat) :
  ∀ (current_date : Z) (m : gmap Z (list CalendarItem)),
    (Z.to_nat (end_date - current_date + 1) ≤ fuel)%nat →
    current_date ≤ end_date →
    date_max < first_after current_date interval_days end_date →
    recurring_dates fuel db eq_pk e end_date interval_days current_date m
    = Raise OverflowError.
Proof.
  induction fuel as [|fuel IH]; intros cur m Hfuel Hle Hover; [lia|].
  simpl. rewrite (proj2 (Z.leb_le cur end_date)) by done.
  destruct (date_add cur interval_days) as [next| |] eqn:Hadd.
  - apply date_add_ok in Hadd as (-> & _ & _ & Hmax). simpl.
    destruct (Z.le_gt_cases (cur + interval_days) end_date) as [Hle' | Hgt].
    + apply IH; [lia|done|by rewrite first_after_step].
    + rewrite first_after_last in Hover by lia. lia.
  - destruct (date_add_cases cur interval_days) as [H | H];
      rewrite H in Hadd; by simplify_eq.
  - destruct (date_add_cases cur interval_days) as [H | H];
      rewrite H in Hadd; by simplify_eq.
Qed.

End LoopFacts.

Lemma has_interval_inv (x : nat * Equipment) :
  has_interval x = true →
  ∃ i, maintenance_interval_days (snd x) = Some i ∧ 0 < i
       ∧ is_scrapped (snd x) = false.
Proof.
  unfold has_interval.
  destruct (maintenance_interval_days (snd x)) as [i|]; [|done].
  intros [Hi Hs]%andb_prop. exists i. split; [done|].
  split; [by apply Z.ltb_lt|]. by apply negb_true_iff.
Qed.

(** The rows of the query, whatever the collation. *)
Lemma elem_of_insert_by_name (name_le : string → string → bool)
    (x y : nat * Equipment) (rows : list (nat * Equipment)) :
  y ∈ insert_by_name name_le x rows ↔ y = x ∨ y ∈ rows.
Proof.
  induction rows as [|z rows IH]; simpl.
  - rewrite list_elem_of_singleton, elem_of_nil. tauto.
  - destruct (name_le _ _); rewrite !elem_of_cons; [tauto|].
    rewrite IH. tauto.
Qed.

Lemma elem_of_order_by_name (name_le : string → string → bool)
    (y : nat * Equipment) (rows : list (nat * Equipment)) :
  y ∈ order_by_name name_le rows ↔ y ∈ rows.
Proof.
  unfold order_by_name. induction rows as [|x rows IH]; simpl; [done|].
  rewrite elem_of_insert_by_name, elem_of_cons, IH. tauto.
Qed.

Lemma elem_of_equipment_with_intervals (name_le : string → string → bool)
    (db : DB) (x : nat * Equipment) :
  x ∈ equipment_with_intervals name_le db
  ↔ equipment_table db !! fst x = Some (snd x) ∧ has_interval x = true.
Proof.
  unfold equipment_with_intervals.
  rewrite elem_of_order_by_name, list_elem_of_filter.
  destruct x as [k e]. rewrite elem_of_map_to_list. simpl. tauto.
Qed.

Section CalendarFacts.

Context (c : Clock) (db : DB) (end_date : date).

(** For a row of the query the next maintenance date is a date, or the
    method raises [OverflowError]. *)
Lemma next_date_of_row (x : nat * Equipment) :
  has_interval x = true →
  (∃ first, Equipment_get_next_maintenance_date c db (fst x) (snd x)
            = Ok (Some first) ∧ 1 ≤ first ≤ date_max)
  ∨ Equipment_get_next_maintenance_date c db (fst x) (snd x)
    = Raise OverflowError.
Proof.
  intros (i & Hi & Hpos & _)%has_interval_inv.
  rewrite (next_maintenance_date_some c db (fst x) (snd x) i Hi) by lia.
  destruct (date_add (counted_from c db (fst x) (snd x)) i) as [next| |]
    eqn:Hadd.
  - apply date_add_ok in Hadd as (-> & _ & Hrange). left. by eexists.
  - right. destruct (date_add_cases (counted_from c db (fst x) (snd x)) i)
      as [H | H]; rewrite H in Hadd; by simplify_eq.
  - destruct (date_add_cases (counted_from c db (fst x) (snd x)) i)
      as [H | H]; rewrite H in Hadd; by simplify_eq.
Qed.

(** The body of the loop over the equipment, for a row of the query whose
    projection stays within the dates: it returns, it appends the projected
    entry on each date of [projected], and it changes no other list. *)
Lemma add_recurring_spec (x : nat * Equipment)
    (m : gmap Z (list CalendarItem)) :
  has_interval x = true →
  projects_in_range c db end_date x = true →
  ∃ m', add_recurring c db end_date m x = Ok m'
        ∧ (∀ d, projected c db end_date x d →
                m' !!! d = (m !!! d ++ [interval_item (snd x) d])%list)
        ∧ (∀ d, ¬ projected c db end_date x d → m' !!! d = m !!! d)
        ∧ (∀ d, (m !!! d) `prefix_of` (m' !!! d)).
Proof.
  intros Hhas Hrange.
  destruct (has_interval_inv x Hhas) as (i & Hi & Hpos & _).
  unfold add_recurring, projected, projects_in_range in *.
  destruct (next_date_of_row x Hhas) as [(first & Hnext & Hfirst) | Hnext];
    rewrite Hnext in *; [|done].
  rewrite Hi in *. simpl.
  destruct (Z.leb_spec first end_date) as [Hle | Hlt].
  - rewrite (proj2 (Z.ltb_ge end_date first)) in Hrange by done.
    simpl in Hrange. apply Z.leb_le in Hrange.
    destruct (recurring_dates_spec db (fst x) (snd x) end_date i Hpos
                (Z.to_nat (end_date - first + 1)) first m)
      as (m' & Hrun & Hadd & Hkeep & Hpre); [lia|done|done|].
    exists m'. split; [done|]. split; [|split]; [| |done].
    + intros d (f & i' & [= <-] & [= <-] & Hocc & Hnone). by apply Hadd.
    + intros d Hnot. apply Hkeep.
      destruct (existing_request db (fst x) d) eqn:Hex; [by right|].
      left. intros Hocc. apply Hnot. by exists first, i.
  - exists m. split; [done|]. split; [|split]; [|done|done].
    intros d (f & i' & [= <-] & [= <-] & (j & Hj & -> & Hd) & _). nia.
Qed.

(** Otherwise it raises [OverflowError]. *)
Lemma add_recurring_overflow (x : nat * Equipment)
    (m : gmap Z (list CalendarItem)) :
  has_interval x = true →
  projects_in_range c db end_date x = false →
  add_recurring c db end_date m x = Raise OverflowError.
Proof.
  intros Hhas Hrange.
  destruct (has_interval_inv x Hhas) as (i & Hi & Hpos & _).
  unfold add_recurring, projects_in_range in *.
  destruct (next_date_of_row x Hhas) as [(first & Hnext & Hfirst) | Hnext];
    rewrite Hnext in *; [|done].
  rewrite Hi in *. simpl.
  apply orb_false_iff in Hrange as [Hle%Z.ltb_ge Hover%Z.leb_gt].
  rewrite (proj2 (Z.leb_le first end_date)) by done.
  by apply recurring_dates_overflow.
Qed.

Lemma add_all_recurring_raise (rows : list (nat * Equipment))
    (exn : Exception) :
  foldl (λ acc x, and_then acc (λ m, add_recurring c db end_date m x))
    (Raise exn) rows = Raise exn.
Proof. induction rows as [|x rows IH]; simpl; [done|]. apply IH. Qed.

(** The loop over the equipment when every projection stays within the
    dates: it returns, every list only grows, and the projected entry of
    each row of the query is in the list of each of its dates. *)
Lemma add_all_recurring_spec (rows : list (nat * Equipment)) :
  (∀ x, x ∈ rows → has_interval x = true) →
  forallb (projects_in_range c db end_date) rows = true →
  ∀ m, ∃ m', add_all_recurring c db end_date rows m = Ok m'
             ∧ (∀ d, (m !!! d) `prefix_of` (m' !!! d))
             ∧ (∀ x d, x ∈ rows → projected c db end_date x d →
                       interval_item (snd x) d ∈ m' !!! d).
Proof.
  unfold add_all_recurring.
  induction rows as [|x rows IH]; intros Hrows Hrange m; simpl.
  - exists m. split; [done|]. split; [done|].
    intros x d Hin. by apply elem_of_nil in Hin.
  - simpl in Hrange. apply andb_prop in Hrange as [Hx Hrange].
    destruct (add_recurring_spec x m) as (m1 & -> & Hadd & _ & Hpre1);
      [apply Hrows, elem_of_cons; auto|done|].
    destruct (IH (λ y Hy, Hrows y (proj2 (elem_of_cons _ _ _) (or_intror Hy)))
                Hrange m1) as (m' & Hrun & Hpre & Hin').
    exists m'. split; [done|]. split.
    + intros d. etrans; [apply Hpre1|apply Hpre].
    + intros y d [-> | Hy]%elem_of_cons Hproj; [|by apply Hin'].
      eapply elem_of_prefix; [|apply Hpre].
      refine (eq_ind_r (λ l, interval_item (snd x) d ∈ l) _ (Hadd d Hproj)).
      apply elem_of_app. right. by apply list_elem_of_singleton.
Qed.

(** When the projection of one row leaves the dates, the loop over the
    equipment raises [OverflowError]. *)
Lemma add_all_recurring_overflow (rows : list (nat * Equipment)) :
  (∀ x, x ∈ rows → has_interval x = true) →
  forallb (projects_in_range c db end_date) rows = false →
  ∀ m, add_all_recurring c db end_date rows m = Raise OverflowError.
Proof.
  unfold add_all_recurring.
  induction rows as [|x rows IH]; intros Hrows Hrange m; simpl; [done|].
  simpl in Hrange.
  assert (has_interval x = true) as Hx by (apply Hrows, elem_of_cons; auto).
  destruct (projects_in_range c db end_date x) eqn:Hpx.
  - destruct (add_recurring_spec x m Hx Hpx) as (m1 & -> & _).
    apply IH; [|done].
    intros y Hy. apply Hrows, elem_of_cons. auto.
  - rewrite (add_recurring_overflow x m Hx Hpx).
    apply add_all_recurring_raise.
Qed.

End CalendarFacts.

Section ViewFacts.

Context (name_le : string → string → bool).
Context (c : Clock) (db : DB) (end_date : date).

(** The dictionary of the view. *)
Lemma requests_by_date_spec (start_date : date) :
  calendar_in_range name_le c db end_date = true →
  ∃ by_date, requests_by_date name_le c db start_date end_date = Ok by_date
             ∧ ∀ x d, x ∈ equipment_with_intervals name_le db →
                      projected c db end_date x d →
                      interval_item (snd x) d ∈ by_date !!! d.
Proof.
  intros Hrange. unfold requests_by_date.
  destruct (add_all_recurring_spec c db end_date
              (equipment_with_intervals name_le db)) with
    (m := foldl (add_scheduled db) ∅
            (preventive_requests db start_date end_date))
    as (m' & Hrun & _ & Hin); [|done|].
  { intros x Hx. by apply elem_of_equipment_with_intervals in Hx as [_ ?]. }
  exists m'. by split.
Qed.

Lemma requests_by_date_overflow (start_date : date) :
  calendar_in_range name_le c db end_date = false →
  requests_by_date name_le c db start_date end_date = Raise OverflowError.
Proof.
  intros Hrange. unfold requests_by_date.
  apply add_all_recurring_overflow; [|done].
  intros x Hx. by apply elem_of_equipment_with_intervals in Hx as [_ ?].
Qed.

End ViewFacts.

(** The day cells of the grid follow the empty cells of the first week. *)
Lemma toordinal_day (year month day : Z) :
  toordinal year month day = toordinal year month 1 + (day - 1).
Proof. unfold toordinal. lia. Qed.

Lemma weekday_nonneg (d : date) : 0 ≤ weekday d.
Proof. unfold weekday. apply Z.mod_pos_bound. lia. Qed.

Lemma days_in_month_pos (year month : Z) : 28 ≤ days_in_month year month.
Proof.
  unfold days_in_month.
  destruct (month =? 2); [destruct (isleap year); lia|].
  destruct (_ || _); lia.
Qed.

(** What the view returns is built from the dictionary of its month. *)
Lemma calendar_view_ok (name_le : string → string → bool) (c : Clock)
    (db : DB) (year month : Z) (ctx : CalendarContext) :
  PreventiveMaintenanceCalendarView_get_context_data name_le c db year month
  = Ok ctx
  ↔ valid_ymd year month 1 = true
    ∧ ∃ by_date,
        requests_by_date name_le c db (toordinal year month 1)
          (toordinal year month (days_in_month year month)) = Ok by_date
        ∧ ctx
          = {| ctx_year := year; ctx_month := month;
               calendar_days :=
                 app (replicate
                        (Z.to_nat (weekday (toordinal year month 1))) None)
                   (fmap (λ day,
                            Some {| cell_date := toordinal year month day;
                                    cell_day := day;
                                    cell_requests :=
                                      by_date !!! toordinal year month day |})
                      (seqZ 1 (days_in_month year month)));
               prev_year := if month =? 1 then year - 1 else year;
               prev_month := if month =? 1 then 12 else month - 1;
               next_year := if month =? 12 then year + 1 else year;
               next_month := if month =? 12 then 1 else month + 1;
               ctx_today := today c |}.
Proof.
  unfold PreventiveMaintenanceCalendarView_get_context_data.
  rewrite and_then_ok. split.
  - intros (start_date & [Hv ->]%datetime_date_ok & Hrest).
    apply and_then_ok in Hrest as (by_date & Hby & [= <-]).
    split; [done|]. by exists by_date.
  - intros (Hv & by_date & Hby & ->).
    exists (toordinal year month 1). split; [by apply datetime_date_ok|].
    apply and_then_ok. by exists by_date.
Qed.

Lemma calendar_cell (name_le : string → string → bool) (c : Clock) (db : DB)
    (year month : Z) (by_date : gmap Z (list CalendarItem))
    (ctx : CalendarContext) (day : Z) :
  requests_by_date name_le c db (toordinal year month 1)
    (toordinal year month (days_in_month year month)) = Ok by_date →
  PreventiveMaintenanceCalendarView_get_context_data name_le c db year month
  = Ok ctx →
  1 ≤ day ≤ days_in_month year month →
  calendar_days ctx
    !! (Z.to_nat (weekday (toordinal year month 1)) + Z.to_nat (day - 1))%nat
  = Some (Some {| cell_date := toordinal year month day;
                  cell_day := day;
                  cell_requests := by_date !!! toordinal year month day |}).
Proof.
  intros Hby (_ & by_date' & Hby' & ->)%calendar_view_ok Hday.
  rewrite Hby in Hby'. injection Hby' as <-. simpl.
  rewrite lookup_app_r; rewrite length_replicate; [|lia].
  replace (_ + _ - _)%nat with (Z.to_nat (day - 1)) by lia.
  rewrite list_lookup_fmap, lookup_seqZ_lt by lia. simpl.
  by replace (1 + Z.of_nat (Z.to_nat (day - 1))) with day by lia.
Qed.

(** Within the bounds of [datetime], and with every projection within the
    dates, the view returns. *)
Lemma calendar_view_returns (name_le : string → string → bool) (c : Clock)
    (db : DB) (year month : Z) :
  valid_ymd year month 1 = true →
  calendar_in_range name_le c db
    (toordinal year month (days_in_month year month)) = true →
  ∃ by_date ctx,
    requests_by_date name_le c db (toordinal year month 1)
      (toordinal year month (days_in_month year month)) = Ok by_date
    ∧ PreventiveMaintenanceCalendarView_get_context_data name_le c db
        year month = Ok ctx.
Proof.
  intros Hv Hrange.
  destruct (requests_by_date_spec name_le c db
              (toordinal year month (days_in_month year month))
              (toordinal year month 1) Hrange) as (by_date & Hby & _).
  exists by_date. eexists. split; [done|].
  apply calendar_view_ok. split; [done|]. by exists by_date.
Qed.

(** C8. In the calendar of a month, on every date the loop of an equipment
    visits (the next maintenance date and each whole number of intervals
    after it, up to the last day of the month), the loop leaves the list of
    that date untouched exactly when a Preventive request of the equipment
    not in stage Scrap is scheduled on that date, and otherwise appends the
    projected entry, once.  When the projection of every equipment of the
    query stays within Python's dates (otherwise the view raises), the view
    returns, its dictionary carries the projected entry on each such date
    that is not suppressed, and the cell of a day of the month shows the
    list of that date. *)
Theorem projected_occurrence_suppressed_iff
    (name_le : string → string → bool) (c : Clock) (db : DB)
    (year month : Z) (eq_pk : nat) (e : Equipment)
    (interval_days first d : Z) :
  valid_ymd year month 1 = true →
  equipment_table db !! eq_pk = Some e →
  is_scrapped e = false →
  maintenance_interval_days e = Some interval_days →
  0 < interval_days →
  Equipment_get_next_maintenance_date c db eq_pk e = Ok (Some first) →
  let start_date := toordinal year month 1 in
  let end_date := toordinal year month (days_in_month year month) in
  calendar_in_range name_le c db end_date = true →
  occurrence first interval_days end_date d →
  (existing_request db eq_pk d ≠ None
   ↔ ∃ pk r, requests db !! pk = Some r
             ∧ equipment r = eq_pk
             ∧ request_type r = "Preventive"
             ∧ scheduled_date r = Some d
             ∧ stage r ≠ "Scrap")
  ∧ (∀ m, ∃ m',
       add_recurring c db end_date m (eq_pk, e) = Ok m'
       ∧ (existing_request db eq_pk d ≠ None → m' !!! d = m !!! d)
       ∧ (existing_request db eq_pk d = None →
          m' !!! d = (m !!! d ++ [interval_item e d])%list))
  ∧ ∃ by_date ctx,
      requests_by_date name_le c db start_date end_date = Ok by_date
      ∧ PreventiveMaintenanceCalendarView_get_context_data name_le c db
          year month = Ok ctx
      ∧ (existing_request db eq_pk d = None →
         interval_item e d ∈ by_date !!! d)
      ∧ (start_date ≤ d →
         calendar_days ctx
           !! (Z.to_nat (weekday start_date) + Z.to_nat (d - start_date))%nat
         = Some (Some {| cell_date := d;
                         cell_day := d - start_date + 1;
                         cell_requests := by_date !!! d |})).
Proof.
  intros Hvalid Hrow Hscr Hi Hpos Hnext start_date end_date Hrange Hocc.
  assert (has_interval (eq_pk, e) = true) as Hhas.
  { unfold has_interval. simpl. rewrite Hi, Hscr.
    by rewrite (proj2 (Z.ltb_lt 0 interval_days)). }
  assert ((eq_pk, e) ∈ equipment_with_intervals name_le db) as Hmem
    by (by apply elem_of_equipment_with_intervals).
  assert (projects_in_range c db end_date (eq_pk, e) = true) as Hproj.
  { by apply (forallb_elem_of _ _ _ Hrange). }
  split; [apply existing_request_iff|]. split.
  - intros m.
    destruct (add_recurring_spec c db end_date (eq_pk, e) m Hhas Hproj)
      as (m' & Hrun & Hadd & Hkeep & _).
    exists m'. split; [done|]. split.
    + intros Hex. apply Hkeep. intros (f & i & _ & _ & _ & Hnone). done.
    + intros Hnone. apply Hadd. by exists first, interval_days.
  - destruct (requests_by_date_spec name_le c db end_date start_date Hrange)
      as (by_date & Hby & Hin).
    destruct (calendar_view_returns name_le c db year month Hvalid Hrange)
      as (by_date' & ctx & Hby' & Hctx).
    fold start_date end_date in Hby'. rewrite Hby in Hby'.
    injection Hby' as <-.
    exists by_date, ctx. split; [done|]. split; [done|]. split.
    + intros Hnone. apply (Hin (eq_pk, e)); [done|].
      by exists first, interval_days.
    + intros Hge. destruct Hocc as (j & _ & _ & Hle).
      assert (d = toordinal year month (d - start_date + 1)) as Hd.
      { rewrite toordinal_day. fold start_date. lia. }
      pose proof (calendar_cell name_le c db year month by_date ctx
                    (d - start_date + 1) Hby Hctx) as Hcell.
      rewrite <- Hd in Hcell.
      replace (d - start_date + 1 - 1) with (d - start_date) in Hcell by lia.
      apply Hcell.
      split; [lia|]. subst end_date. rewrite toordinal_day in Hle.
      fold start_date in Hle. lia.
Qed.

(** The witness of C8: the drill press, serviced every 30 days and last on
    2024-04-20, in the calendar of May 2024: the projected entry stands on
    2024-05-20. *)
Lemma projected_occurrence_suppressed_iff_witness :
  ∃ by_date ctx,
    requests_by_date String.leb sample_clock sample_db_serviced
      (toordinal 2024 5 1) (toordinal 2024 5 31) = Ok by_date
    ∧ PreventiveMaintenanceCalendarView_get_context_data String.leb
        sample_clock sample_db_serviced 2024 5 = Ok ctx
    ∧ interval_item sample_equipment_monthly (toordinal 2024 5 20)
      ∈ by_date !!! toordinal 2024 5 20
    ∧ calendar_days ctx !! 21%nat
      = Some (Some {| cell_date := toordinal 2024 5 20;
                      cell_day := 20;
                      cell_requests := by_date !!! toordinal 2024 5 20 |}).
Proof.
  destruct (projected_occurrence_suppressed_iff String.leb sample_clock
              sample_db_serviced 2024 5 2%nat sample_equipment_monthly 30
              (toordinal 2024 4 20 + 30) (toordinal 2024 5 20))
    as (_ & _ & by_date & ctx & Hby & Hctx & Hin & Hcell).
  - reflexivity.
  - reflexivity.
  - reflexivity.
  - reflexivity.
  - reflexivity.
  - vm_compute. reflexivity.
  - vm_compute. reflexivity.
  - exists 0. split; [discriminate|]. split; [reflexivity|discriminate].
  - exists by_date, ctx. split; [exact Hby|]. split; [exact Hctx|].
    split; [apply Hin; vm_compute; reflexivity|].
    apply Hcell. discriminate.
Defined.

(** With the next service already on the calendar (request 6, scheduled on
    2024-05-20), the list of that day holds the scheduled entry alone. *)
Example calendar_suppressed_sample :
  and_then
    (requests_by_date String.leb sample_clock sample_db_planned
       (toordinal 2024 5 1) (toordinal 2024 5 31))
    (λ m, Ok (m !!! toordinal 2024 5 20))
  = Ok [ {| item_type := "scheduled"; item_subject := "Monthly service";
            item_equipment_name := "Drill Press";
            item_assigned_technician := Some 7%nat;
            item_pk := Some 6%nat;
            item_date := toordinal 2024 5 20 |} ].
Proof. vm_compute. reflexivity. Qed.

(** After a last completed service on day [D], the first date of the loop
    is [D] plus the interval. *)
Lemma first_occurrence_after_service (c : Clock) (db : DB) (eq_pk : nat)
    (e : Equipment) (interval_days D end_date : Z) :
  maintenance_interval_days e = Some interval_days →
  0 < interval_days →
  last_preventive_completed_date db eq_pk = Some D →
  1 ≤ D →
  D + interval_days ≤ end_date → end_date ≤ date_max →
  Equipment_get_next_maintenance_date c db eq_pk e
  = Ok (Some (D + interval_days))
  ∧ occurrence (D + interval_days) interval_days end_date (D + interval_days).
Proof.
  intros Hi Hpos HD HD1 Hle Hmax.
  assert (counted_from c db eq_pk e = D) as Hfrom
    by (unfold counted_from; by rewrite HD).
  split.
  - rewrite (next_maintenance_date_in_range c db eq_pk e interval_days Hi);
      rewrite ?Hfrom; unfold date_max in *; try lia. done.
  - exists 0. split; [lia|]. split; [lia|done].
Qed.

(** ** What every operation keeps *)

Lemma save_keeps_tables (c : Clock) (db db' : DB) (pk : nat)
    (self : MaintenanceRequest) :
  MaintenanceRequest_save c db pk self = Some db' →
  team_members db' = team_members db ∧ profiles db' = profiles db.
Proof.
  unfold MaintenanceRequest_save. simpl.
  case_bool_decide; [|by intros [= <-]].
  destruct (equipment_table db !! equipment self) as [e|]; [|done].
  destruct (is_scrapped e); simpl; by intros [= <-].
Qed.

Lemma save_equipment_rows (c : Clock) (db db' : DB) (pk : nat)
    (self : MaintenanceRequest) (k : nat) (e : Equipment) :
  MaintenanceRequest_save c db pk self = Some db' →
  equipment_table db !! k = Some e →
  ∃ e', equipment_table db' !! k = Some e'
        ∧ same_but_scrap e e'
        ∧ (is_scrapped e = true → e' = e)
        ∧ (e' = e
           ∨ stage self = "Scrap" ∧ k = equipment self
             ∧ is_scrapped e' = true ∧ scrap_date e' = Some (today c)).
Proof.
  unfold MaintenanceRequest_save. simpl. intros Hsave Hk.
  assert (same_but_scrap e e) as Hsame by (by repeat split).
  case_bool_decide as Hs; [|simplify_eq; simpl; eauto 10].
  destruct (equipment_table db !! equipment self) as [e0|] eqn:He0; [|done].
  destruct (is_scrapped e0) eqn:Hscr; simpl in Hsave; simplify_eq; simpl;
    [eauto 10|].
  destruct (decide (equipment self = k)) as [<- | Hne].
  - rewrite lookup_insert_eq. simplify_eq. eexists. split; [done|].
    split; [by repeat split|]. split; [by rewrite Hscr|]. right. done.
  - rewrite lookup_insert_ne by done. eauto 10.
Qed.

Lemma save_then_cases (c : Clock) (db : DB) (pk : nat)
    (self : MaintenanceRequest) (ok : Outcome) :
  save_then c db pk self ok = (db, Uncaught "RelatedObjectDoesNotExist")
  ∨ ∃ db', MaintenanceRequest_save c db pk self = Some db'
           ∧ save_then c db pk self ok = (db', ok).
Proof.
  unfold save_then.
  destruct (MaintenanceRequest_save c db pk self) as [db'|]; eauto.
Qed.

(** An operation either refuses and returns the store it was given, or
    completes by one [save] of the request it addresses. *)
Lemma run_cases (round_hours : Z → decimal2) (op : Operation) (c : Clock)
    (db : DB) :
  (fst (run round_hours op c db) = db
   ∧ is_success (snd (run round_hours op c db)) = false)
  ∨ ∃ self db',
      MaintenanceRequest_save c db (target op) self = Some db'
      ∧ fst (run round_hours op c db) = db'
      ∧ is_success (snd (run round_hours op c db)) = true.
Proof.
  assert (∀ pk self ok, is_success ok = true →
            (fst (save_then c db pk self ok) = db
             ∧ is_success (snd (save_then c db pk self ok)) = false)
            ∨ ∃ self' db',
                MaintenanceRequest_save c db pk self' = Some db'
                ∧ fst (save_then c db pk self ok) = db'
                ∧ is_success (snd (save_then c db pk self ok)) = true)
    as Hsave.
  { intros pk self ok Hok.
    destruct (save_then_cases c db pk self ok) as [-> | (db' & Hs & ->)];
      [by left|right; eauto]. }
  destruct op as [pk self|user pk|user pk|user pk new_stage|pk r|uid pk post];
    simpl.
  - by apply Hsave.
  - unfold start_task. destruct user as [|uid]; [by left|].
    destruct (requests db !! pk); [|by left].
    destruct (_ && _); [by left|]. by apply Hsave.
  - unfold end_task. destruct user as [|uid]; [by left|].
    destruct (requests db !! pk) as [r|]; [|by left].
    destruct (negb _); [by left|].
    destruct (actual_start_time r); [|by left]. by apply Hsave.
  - unfold update_request_stage. destruct user as [|uid]; [by left|].
    destruct (requests db !! pk) as [r|]; [|by left].
    destruct new_stage as [new_stage|]; [|by left].
    destruct (negb _); [by left|]. by apply Hsave.
  - by apply Hsave.
  - unfold TechnicianRequestDetailView_post.
    destruct (requests db !! pk) as [r|]; [|by left].
    destruct (_ && _); [by left|].
    destruct (TechnicianRequiredMixin_dispatch db (User uid)) as [out|] eqn:Hg.
    { left. split; [done|]. simpl.
      unfold TechnicianRequiredMixin_dispatch in Hg.
      destruct (profile_role db uid); [destruct (negb _)|]; by simplify_eq. }
    destruct (TechnicianRequestUpdateForm_is_valid _ _ _) as [errors|inst];
      [by left|].
    by apply Hsave.
Qed.

(** X1. An operation that does not complete (any response other than the
    200 of a task view or the redirect of a form view: 401, 403, 404, 400,
    form errors, an exception of [save]) returns the store unchanged. *)
Theorem refusal_writes_nothing (round_hours : Z → decimal2) (op : Operation)
    (c : Clock) (db : DB) :
  is_success (snd (run round_hours op c db)) = false →
  fst (run round_hours op c db) = db.
Proof.
  intros Hfail.
  destruct (run_cases round_hours op c db) as [[H _] | (?&?&_&_&Hok)];
    [done|congruence].
Qed.

(** The witness of X1: the technician (user 7) ends a task that is assigned
    to nobody. *)
Lemma refusal_writes_nothing_witness :
  fst (run round_half_even (OpEndTask (User 7%nat) 1%nat) sample_clock
         sample_db) = sample_db.
Proof. apply refusal_writes_nothing. reflexivity. Defined.

(** X2. Every operation leaves team membership and the profiles as they
    were, keeps every request row other than the one it addresses, and keeps
    every equipment row in place with everything but its scrap fields. *)
Theorem operation_frame (round_hours : Z → decimal2) (op : Operation)
    (c : Clock) (db : DB) :
  let db' := fst (run round_hours op c db) in
  team_members db' = team_members db
  ∧ profiles db' = profiles db
  ∧ (∀ pk, pk ≠ target op → requests db' !! pk = requests db !! pk)
  ∧ (∀ k e, equipment_table db !! k = Some e →
       ∃ e', equipment_table db' !! k = Some e' ∧ same_but_scrap e e').
Proof.
  simpl.
  destruct (run_cases round_hours op c db)
    as [[-> _] | (self & db' & Hsave & -> & _)].
  - repeat split; try done. intros k e He. exists e. by repeat split.
  - destruct (save_keeps_tables c db db' _ self Hsave) as [Ht Hp].
    repeat split; try done.
    + intros pk Hne. by eapply save_other_rows.
    + intros k e He.
      destruct (save_equipment_rows c db db' _ self k e Hsave He)
        as (e' & He' & Hsame & _). eauto.
Qed.

(** X3. Once an equipment is scrapped no operation changes its row: scrap
    date and scrap reason are those of the first scrapping. *)
Theorem scrapped_equipment_immutable (round_hours : Z → decimal2)
    (history : list (Clock * Operation)) (db : DB) (k : nat) (e : Equipment) :
  equipment_table db !! k = Some e →
  is_scrapped e = true →
  equipment_table (run_all round_hours history db) !! k = Some e.
Proof.
  revert db. induction history as [|[c op] rest IH]; intros db He Hscr;
    simpl; [done|].
  apply IH; [|done].
  destruct (run_cases round_hours op c db)
    as [[-> _] | (self & db' & Hsave & -> & _)]; [done|].
  destruct (save_equipment_rows c db db' _ self k e Hsave He)
    as (e' & He' & _ & Hkeep & _).
  by rewrite He', (Hkeep Hscr).
Qed.

(** The witness of X3: the press scrapped on 2024-05-01; a request against
    it is moved to Scrap on the board on 2024-05-10. *)
Lemma scrapped_equipment_immutable_witness :
  equipment_table
    (run_all round_half_even
       [(sample_clock, OpUpdateStage (User 2%nat) 1%nat (Some "Scrap"))]
       sample_db_scrapped) !! 1%nat
  = Some sample_equipment_scrapped.
Proof.
  apply scrapped_equipment_immutable; reflexivity.
Defined.

(** ** The overdue flag in the store *)

Lemma overdue_sound_mono (t t' : date) (db : DB) :
  t ≤ t' → overdue_sound t db → overdue_sound t' db.
Proof.
  intros Hle Hs pk r Hrow Hov.
  destruct (Hs pk r Hrow Hov) as (Hst & d & Hd & Hlt).
  split; [done|]. exists d. split; [done|lia].
Qed.

Lemma overdue_sound_run (round_hours : Z → decimal2) (op : Operation)
    (c : Clock) (db : DB) :
  overdue_sound (today c) db →
  overdue_sound (today c) (fst (run round_hours op c db)).
Proof.
  intros Hs.
  destruct (run_cases round_hours op c db)
    as [[-> _] | (self & db' & Hsave & -> & _)]; [done|].
  intros pk r Hrow Hov.
  destruct (decide (pk = target op)) as [-> | Hne].
  - rewrite (save_stores c db _ self db' Hsave) in Hrow.
    injection Hrow as <-. simpl in *.
    apply overdue_status_true in Hov as (d & Hd & Hr & Hsc & Hlt).
    split; [rewrite elem_of_two; tauto|eauto].
  - rewrite (save_other_rows c db _ self db' pk Hsave Hne) in Hrow.
    by apply (Hs pk r).
Qed.

(** X4. Through every history of operations whose dates never go back, a
    stored overdue flag is sound: a request flagged overdue is in neither
    final stage and is scheduled before the current day. *)
Theorem overdue_flag_sound (round_hours : Z → decimal2)
    (history : list (Clock * Operation)) (t : date) (db : DB) :
  overdue_sound t db →
  chronological t history →
  overdue_sound (final_day t history) (run_all round_hours history db).
Proof.
  revert t db. induction history as [|[c op] rest IH]; intros t db Hs Hchr;
    simpl; [done|].
  destruct Hchr as [Hle Hrest].
  apply IH; [|done].
  apply overdue_sound_run. by apply (overdue_sound_mono t).
Qed.

(** The witness of X4: the sample request, scheduled on 2024-05-09, saved
    on 2024-05-10. *)
Lemma overdue_flag_sound_witness :
  overdue_sound (today sample_clock)
    (run_all round_half_even [(sample_clock, OpSave 1%nat sample_request)]
       sample_db).
Proof.
  apply (overdue_flag_sound round_half_even
           [(sample_clock, OpSave 1%nat sample_request)]
           (today sample_clock) sample_db).
  - intros pk r Hrow Hov.
    change (requests sample_db)
      with ({[ 1%nat := sample_request ]} : gmap nat MaintenanceRequest)
      in Hrow.
    apply lookup_singleton_Some in Hrow as [_ <-]. discriminate Hov.
  - split; [apply Z.le_refl | exact I].
Defined.

(** ** The manager's dashboard *)

Section Counting.

Context {A : Type} (f g h : A → bool).

Lemma count_le (l : list A) :
  (∀ x, x ∈ l → f x = true → g x = true) →
  (length (filter (λ x, f x = true) l)
   ≤ length (filter (λ x, g x = true) l))%nat.
Proof.
  induction l as [|a l IH]; intros Himp; [done|].
  rewrite !filter_cons.
  assert (∀ x, x ∈ l → f x = true → g x = true) as Hl.
  { intros x Hx. apply Himp, elem_of_cons. auto. }
  specialize (IH Hl).
  destruct (decide (f a = true)) as [Hf|Hf].
  - rewrite decide_True by (apply Himp; [apply elem_of_cons; auto|done]).
    simpl. lia.
  - destruct (decide (g a = true)); simpl; lia.
Qed.

Lemma count_disjoint_le (l : list A) :
  (∀ x, x ∈ l → f x = true → h x = true) →
  (∀ x, x ∈ l → g x = true → h x = true) →
  (∀ x, x ∈ l → f x = true → g x = true → False) →
  (length (filter (λ x, f x = true) l) + length (filter (λ x, g x = true) l)
   ≤ length (filter (λ x, h x = true) l))%nat.
Proof.
  induction l as [|a l IH]; intros Hf Hg Hfg; [done|].
  rewrite !filter_cons.
  assert (a ∈ a :: l) as Ha by (apply elem_of_cons; auto).
  assert (length (filter (λ x, f x = true) l)
          + length (filter (λ x, g x = true) l)
          ≤ length (filter (λ x, h x = true) l))%nat as IH'.
  { apply IH; intros x Hx; [apply Hf|apply Hg|apply Hfg];
      apply elem_of_cons; auto. }
  destruct (decide (f a = true)) as [Hfa|Hfa],
    (decide (g a = true)) as [Hga|Hga].
  - destruct (Hfg a Ha Hfa Hga).
  - rewrite decide_True by (by apply Hf). simpl. lia.
  - rewrite decide_True by (by apply Hg). simpl. lia.
  - destruct (decide (h a = true)); simpl; lia.
Qed.

End Counting.

(** X5. On the manager's dashboard (which the view returns on every day
    from which thirty days on is still a date of Python) the overdue
    requests and the upcoming preventive requests are each counted among
    the open ones; when the stored overdue flags are sound on the day of
    the dashboard no request is counted in both, and the exclusion of the
    final stages from the overdue count changes nothing. *)
Theorem dashboard_counts (c : Clock) (db : DB) :
  (1 ≤ today c → today c + 30 ≤ date_max →
   ∃ stats, ManagerDashboardView_get_context_data c db = Ok stats)
  ∧ ∀ stats,
      ManagerDashboardView_get_context_data c db = Ok stats →
      (overdue_requests stats ≤ open_requests stats)%nat
      ∧ (upcoming_preventive stats ≤ open_requests stats)%nat
      ∧ (overdue_sound (today c) db →
         (overdue_requests stats + upcoming_preventive stats
          ≤ open_requests stats)%nat
         ∧ overdue_requests stats = count_requests is_overdue db).
Proof.
  unfold ManagerDashboardView_get_context_data. split.
  { intros Hlo Hhi.
    assert (date_add (today c) 30 = Ok (today c + 30)) as ->
      by (apply date_add_ok; lia).
    simpl. by eexists. }
  intros stats
    (upcoming_date & (-> & _)%date_add_ok & [= <-])%and_then_ok.
  simpl. unfold count_requests. split; [|split].
  - apply (count_le (λ x, is_overdue (snd x) && is_open (snd x))
             (λ x, is_open (snd x))).
    by intros x _ [_ ?]%andb_prop.
  - apply (count_le (λ x, is_upcoming_preventive c (today c + 30) (snd x))
             (λ x, is_open (snd x))).
    unfold is_upcoming_preventive. by intros x _ [_ ?]%andb_prop.
  - intros Hsound. split.
    + apply (count_disjoint_le
               (λ x, is_overdue (snd x) && is_open (snd x))
               (λ x, is_upcoming_preventive c (today c + 30) (snd x))
               (λ x, is_open (snd x))).
      * by intros x _ [_ ?]%andb_prop.
      * unfold is_upcoming_preventive. by intros x _ [_ ?]%andb_prop.
      * intros [pk r] Hin [Hov _]%andb_prop Hup. simpl in *.
        apply elem_of_map_to_list in Hin.
        destruct (Hsound pk r Hin Hov) as (_ & d & Hd & Hlt).
        unfold is_upcoming_preventive in Hup. rewrite Hd in Hup.
        apply andb_prop in Hup as [[_ [_ Hge]%andb_prop]%andb_prop _].
        apply Z.leb_le in Hge. lia.
    + apply Nat.le_antisymm.
      * apply (count_le (λ x, is_overdue (snd x) && is_open (snd x))
                 (λ x, is_overdue (snd x))).
        by intros x _ [? _]%andb_prop.
      * apply (count_le (λ x, is_overdue (snd x))
                 (λ x, is_overdue (snd x) && is_open (snd x))).
        intros [pk r] Hin Hov. simpl in *.
        apply elem_of_map_to_list in Hin.
        destruct (Hsound pk r Hin Hov) as (Hst & _).
        rewrite Hov. unfold is_open. by rewrite bool_decide_eq_false_2.
Qed.

(** The witness of X5: the sample request, scheduled on 2024-05-09 and
    flagged overdue, beside the service planned for 2024-05-20, on
    2024-05-10: one request is overdue, one is upcoming, both are open. *)
Lemma dashboard_counts_witness :
  ∃ stats,
    ManagerDashboardView_get_context_data sample_clock sample_db_dashboard
    = Ok stats
    ∧ overdue_requests stats = 1%nat
    ∧ upcoming_preventive stats = 1%nat
    ∧ open_requests stats = 2%nat
    ∧ (overdue_requests stats + upcoming_preventive stats
       ≤ open_requests stats)%nat
    ∧ overdue_requests stats = count_requests is_overdue sample_db_dashboard.
Proof.
  destruct (dashboard_counts sample_clock sample_db_dashboard)
    as [Hreturns Hcounts].
  destruct Hreturns as [stats Hstats]; [discriminate|discriminate|].
  exists stats. split; [exact Hstats|].
  destruct (Hcounts stats Hstats) as (_ & _ & Hsound).
  destruct Hsound as [Hsum Hsame].
  { intros pk r Hrow Hov.
    change (requests sample_db_dashboard)
      with (<[ 6%nat := sample_planned ]>
              ({[ 1%nat := set_is_overdue true sample_request ]}
                 : gmap nat MaintenanceRequest))
      in Hrow.
    apply lookup_insert_Some in Hrow as [[_ <-] | [_ Hrow]];
      [discriminate Hov|].
    apply lookup_singleton_Some in Hrow as [_ <-].
    split.
    - rewrite elem_of_two. intros [H|H]; discriminate H.
    - exists (toordinal 2024 5 9). split; reflexivity. }
  vm_compute in Hstats. injection Hstats as <-.
  split; [reflexivity|]. split; [reflexivity|]. split; [reflexivity|].
  split; [exact Hsum | exact Hsame].
Defined.

(** ** The task views, call by call *)

Lemma stored_save_then (c : Clock) (db : DB) (pk : nat)
    (self : MaintenanceRequest) (ok : Outcome) :
  (stage self = "Scrap" → is_Some (equipment_table db !! equipment self)) →
  stored (save_then c db pk self ok) pk
  = Some (set_is_overdue (overdue_status c self) self)
  ∧ snd (save_then c db pk self ok) = ok.
Proof.
  intros Hfk. unfold stored, save_then.
  destruct (save_total c db pk self Hfk) as [db' Hs]. rewrite Hs.
  split; [|done]. by apply (save_stores c db).
Qed.

(** X6. [start_task] does not look at the stage.  For the assigned
    technician or a member of the request's team it puts the request In
    Progress with the present instant as start time, whatever the stage was
    (Repaired and Scrap included), assigns the caller only when nobody is
    assigned, and keeps completion date, end time, duration and resolution
    summary as stored. *)
Theorem start_task_any_stage (c : Clock) (db : DB) (uid pk : nat)
    (r : MaintenanceRequest) :
  requests db !! pk = Some r →
  assigned_technician r = Some uid
  ∨ in_technician_teams db uid (maintenance_team r) = true →
  snd (start_task c db (User uid) pk)
  = JsonResponse 200 "Task started successfully"
  ∧ ∃ r', stored (start_task c db (User uid) pk) pk = Some r'
          ∧ stage r' = "In Progress"
          ∧ actual_start_time r' = Some (now c)
          ∧ assigned_technician r'
            = Some (default uid (assigned_technician r))
          ∧ completed_date r' = completed_date r
          ∧ actual_end_time r' = actual_end_time r
          ∧ duration_hours r' = duration_hours r
          ∧ resolution_summary r' = resolution_summary r.
Proof.
  intros Hrow Hperm. unfold start_task. rewrite Hrow.
  assert (negb (bool_decide (assigned_technician r = Some uid))
          && negb (in_technician_teams db uid (maintenance_team r)) = false)
    as ->.
  { destruct Hperm as [Ht | ->]; [|apply andb_false_r].
    by rewrite bool_decide_eq_true_2. }
  cbv zeta.
  match goal with
  | |- context [save_then c db pk ?self ?ok] =>
      destruct (stored_save_then c db pk self ok) as [-> ->]
  end.
  { destruct r, assigned_technician0; by intros [=]. }
  split; [done|]. eexists. split; [done|].
  destruct r, assigned_technician0; by repeat split.
Qed.

(** The witness of X6: the technician (user 7), member of team 1, starts
    the sample request. *)
Lemma start_task_any_stage_witness :
  snd (start_task sample_clock sample_db (User 7%nat) 1%nat)
  = JsonResponse 200 "Task started successfully".
Proof.
  apply (start_task_any_stage sample_clock sample_db 7%nat 1%nat
           sample_request); [reflexivity|].
  right. vm_compute. reflexivity.
Defined.

(** X7. A technician who starts a task that is assigned to them, or to
    nobody while they are in its team, and then ends it, leaves the request
    Repaired, assigned to them, with the instants of the two calls as start
    and end time, the rounding of their difference as duration, the day of
    the second call as completion date, and not overdue. *)
Theorem start_then_end_task (round_hours : Z → decimal2) (c1 c2 : Clock)
    (db : DB) (uid pk : nat) (r : MaintenanceRequest) :
  requests db !! pk = Some r →
  assigned_technician r = Some uid
  ∨ (assigned_technician r = None
     ∧ in_technician_teams db uid (maintenance_team r) = true) →
  let db1 := fst (start_task c1 db (User uid) pk) in
  snd (end_task round_hours c2 db1 (User uid) pk)
  = JsonResponse 200 "Task completed successfully"
  ∧ ∃ r', stored (end_task round_hours c2 db1 (User uid) pk) pk = Some r'
          ∧ stage r' = "Repaired"
          ∧ assigned_technician r' = Some uid
          ∧ actual_start_time r' = Some (now c1)
          ∧ actual_end_time r' = Some (now c2)
          ∧ duration_hours r' = Some (round_hours (now c2 - now c1))
          ∧ completed_date r' = Some (today c2)
          ∧ is_overdue r' = false.
Proof.
  intros Hrow Hperm db1.
  assert (∃ r1, requests db1 !! pk = Some r1
                ∧ assigned_technician r1 = Some uid
                ∧ actual_start_time r1 = Some (now c1)) as (r1 & Hr1 & Ht1 & Hs1).
  { subst db1. unfold start_task. rewrite Hrow.
    assert (negb (bool_decide (assigned_technician r = Some uid))
            && negb (in_technician_teams db uid (maintenance_team r)) = false)
      as ->.
    { destruct Hperm as [Ht | [_ ->]]; [|apply andb_false_r].
      by rewrite bool_decide_eq_true_2. }
    cbv zeta.
    match goal with
    | |- context [save_then c1 db pk ?self ?ok] =>
        destruct (stored_save_then c1 db pk self ok) as [Hst _]
    end.
    { destruct r, assigned_technician0; by intros [=]. }
    unfold stored in Hst. rewrite Hst. eexists. split; [done|].
    destruct Hperm as [Ht | [Ht _]]; destruct r; simpl in *; subst;
      by split. }
  unfold end_task. rewrite Hr1, Ht1, Hs1, bool_decide_eq_true_2 by done.
  cbv zeta. cbn [negb].
  match goal with
  | |- context [save_then c2 db1 pk ?self ?ok] =>
      destruct (stored_save_then c2 db1 pk self ok) as [-> ->]
  end.
  { by intros [=]. }
  split; [done|]. eexists. split; [done|].
  destruct r1. simpl in *. subst. repeat split.
  unfold overdue_status. simpl. by destruct scheduled_date0.
Qed.

(** The witness of X7: the technician (user 7) starts the sample request
    at noon and ends it an hour later: 1.00 hours. *)
Lemma start_then_end_task_witness :
  ∃ r', stored (end_task round_half_even
                  {| now := 1715346000000000; today := toordinal 2024 5 10 |}
                  (fst (start_task sample_clock sample_db (User 7%nat) 1%nat))
                  (User 7%nat) 1%nat) 1%nat = Some r'
        ∧ stage r' = "Repaired"
        ∧ duration_hours r' = Some 100.
Proof.
  destruct (start_then_end_task round_half_even sample_clock
              {| now := 1715346000000000; today := toordinal 2024 5 10 |}
              sample_db 7%nat 1%nat sample_request)
    as (_ & r' & Hst & Hstage & _ & _ & _ & Hdur & _).
  - reflexivity.
  - right. split; [reflexivity|]. vm_compute. reflexivity.
  - exists r'. split; [exact Hst|]. split; [exact Hstage|exact Hdur].
Defined.

(** X8. Starting is open to the team, ending only to the assigned
    technician: a member of the request's team can start a task that is
    assigned to somebody else, which stays assigned to that technician, and
    is then refused with 403 when ending it, the store being left as the
    start left it. *)
Theorem team_member_starts_but_cannot_end (round_hours : Z → decimal2)
    (c1 c2 : Clock) (db : DB) (uid t pk : nat) (r : MaintenanceRequest) :
  requests db !! pk = Some r →
  assigned_technician r = Some t →
  t ≠ uid →
  in_technician_teams db uid (maintenance_team r) = true →
  let db1 := fst (start_task c1 db (User uid) pk) in
  snd (start_task c1 db (User uid) pk)
  = JsonResponse 200 "Task started successfully"
  ∧ (assigned_technician <$> requests db1 !! pk) = Some (Some t)
  ∧ end_task round_hours c2 db1 (User uid) pk
    = (db1, JsonResponse 403 "Only assigned technician can end this task").
Proof.
  intros Hrow Ht Hne Hteam db1.
  assert (snd (start_task c1 db (User uid) pk)
          = JsonResponse 200 "Task started successfully"
          ∧ ∃ r1, requests db1 !! pk = Some r1
                  ∧ assigned_technician r1 = Some t) as (Hok & r1 & Hr1 & Ht1).
  { subst db1. unfold start_task. rewrite Hrow, Hteam, andb_false_r.
    cbv zeta.
    match goal with
    | |- context [save_then c1 db pk ?self ?ok] =>
        destruct (stored_save_then c1 db pk self ok) as [Hst ->]
    end.
    { destruct r, assigned_technician0; by intros [=]. }
    split; [done|]. unfold stored in Hst. rewrite Hst. eexists.
    split; [done|]. destruct r. simpl in *. by subst. }
  split; [done|]. split; [by rewrite Hr1; simpl; rewrite Ht1|].
  unfold end_task. rewrite Hr1, Ht1.
  rewrite bool_decide_eq_false_2; [done|]. by intros [= ?].
Qed.

(** The witness of X8: the sample request assigned to user 8; user 7, of
    its team, starts it and is refused when ending it. *)
Lemma team_member_starts_but_cannot_end_witness :
  snd (end_task round_half_even sample_clock
         (fst (start_task sample_clock sample_db_assigned_other (User 7%nat)
                 1%nat))
         (User 7%nat) 1%nat)
  = JsonResponse 403 "Only assigned technician can end this task".
Proof.
  destruct (team_member_starts_but_cannot_end round_half_even sample_clock
              sample_clock sample_db_assigned_other 7%nat 8%nat 1%nat
              (set_assigned_technician (Some 8%nat) sample_request))
    as (_ & _ & ->).
  - reflexivity.
  - reflexivity.
  - discriminate.
  - vm_compute. reflexivity.
  - reflexivity.
Defined.

(** X9. The board asks for an authenticated user and one of the four stage
    names and nothing else: whoever the user is and whatever the current
    stage (Repaired and Scrap included), the request is stored in the stage
    named; moved to New it keeps every timestamp, the duration and the
    completion date it had.  A missing or unknown stage name is answered
    with 400 and nothing is written. *)
Theorem board_moves_any_request (round_hours : Z → decimal2) (c : Clock)
    (db : DB) (uid pk : nat) (r : MaintenanceRequest) (s : string) :
  requests db !! pk = Some r →
  (s ∈ STAGE_CHOICES.*1 →
   (s = "Scrap" → is_Some (equipment_table db !! equipment r)) →
   snd (update_request_stage round_hours c db (User uid) pk (Some s))
   = JsonResponse 200 (String.append "Request moved to " s)
   ∧ ∃ r', stored (update_request_stage round_hours c db (User uid) pk
                     (Some s)) pk = Some r'
           ∧ stage r' = s
           ∧ (s = "New" →
              r' = set_is_overdue (overdue_status c (set_stage "New" r))
                     (set_stage "New" r)))
  ∧ (s ∉ STAGE_CHOICES.*1 →
     update_request_stage round_hours c db (User uid) pk (Some s)
     = (db, JsonResponse 400 "Invalid stage"))
  ∧ update_request_stage round_hours c db (User uid) pk None
    = (db, JsonResponse 400 "Invalid stage").
Proof.
  intros Hrow. unfold update_request_stage. rewrite Hrow.
  split; [|split]; [| |done].
  - intros Hin Hfk. rewrite bool_decide_eq_true_2 by done. cbn [negb].
    assert (stage (update_request_stage_fields round_hours c s r) = s
            ∧ equipment (update_request_stage_fields round_hours c s r)
              = equipment r) as [Hst Heq].
    { unfold update_request_stage_fields.
      repeat (case_bool_decide || case_match); simpl; done. }
    destruct (stored_save_then c db pk
                (update_request_stage_fields round_hours c s r)
                (JsonResponse 200 (String.append "Request moved to " s)))
      as [-> ->].
    { rewrite Hst, Heq. done. }
    split; [done|]. eexists. split; [done|]. split; [done|].
    intros ->. reflexivity.
  - intros Hnot. by rewrite bool_decide_eq_false_2.
Qed.

(** The witness of X9: the plain user (user 3) moves the completed sample
    request back to New; end time and duration stay. *)
Lemma board_moves_any_request_witness :
  ∃ r', stored (update_request_stage round_half_even sample_clock
                  sample_db_repaired (User 3%nat) 1%nat (Some "New")) 1%nat
        = Some r'
        ∧ stage r' = "New"
        ∧ actual_end_time r' = Some 1715342400000000.
Proof.
  destruct (board_moves_any_request round_half_even sample_clock
              sample_db_repaired 3%nat 1%nat sample_repaired_zero "New")
    as (Hmove & _); [reflexivity|].
  destruct Hmove as (_ & r' & Hst & Hstage & Hnew).
  - vm_compute. repeat constructor.
  - discriminate.
  - exists r'. split; [exact Hst|]. split; [exact Hstage|].
    rewrite (Hnew eq_refl). reflexivity.
Defined.

(** X10. The board, the manager's update view and the technician's detail
    view set the start time of a request moved to In Progress only when it
    has none: a stored start time is kept, and end time, duration and
    completion date are not touched. *)
Theorem stage_views_keep_start_time (round_hours : Z → decimal2)
    (v : StageView) (c : Clock) (r : MaintenanceRequest) :
  let r' := view_fields round_hours v c "In Progress" r in
  stage r' = "In Progress"
  ∧ actual_start_time r' = Some (default (now c) (actual_start_time r))
  ∧ actual_end_time r' = actual_end_time r
  ∧ duration_hours r' = duration_hours r
  ∧ completed_date r' = completed_date r.
Proof.
  destruct r as [sub ty st pr eq tm tech cb sd cd dur ast aet ov notes summ].
  destruct v as [uid| |uid]; destruct ast as [t0|], tech as [t|];
    by repeat split.
Qed.

(** X11. The board and the manager's update view compute the duration of a
    completed request only when none is stored, and they take a stored
    duration of zero for none: a duration other than zero is kept, a
    duration of zero is replaced by the rounding of end minus start. *)
Theorem duration_guard_takes_zero_for_unset (round_hours : Z → decimal2)
    (v : StageView) (c : Clock) (target : string) (r : MaintenanceRequest)
    (s e d : Z) :
  (∀ uid, v ≠ TechnicianDetail uid) →
  target ∈ ["Repaired"; "Scrap"] →
  actual_start_time r = Some s →
  actual_end_time r = Some e →
  duration_hours r = Some d →
  duration_hours (view_fields round_hours v c target r)
  = Some (if d =? 0 then round_hours (e - s) else d).
Proof.
  intros Hv Htarget Hstart Hend Hdur. apply elem_of_two in Htarget.
  destruct r as [sub ty st pr eq tm tech cb sd cd dur ast aet ov notes summ].
  simpl in Hstart, Hend, Hdur. subst ast aet dur.
  destruct v as [uid| |uid]; [| |by destruct (Hv uid)];
    destruct Htarget as [-> | ->]; destruct cd as [d0|];
    simpl; unfold update_request_stage_fields,
      MaintenanceRequestUpdateView_fields, computed_duration; simpl;
    by destruct (d =? 0).
Qed.

(** The witness of X11: the completed sample request with a stored
    duration of zero, moved to Repaired again on the board: 1.00 hours. *)
Lemma duration_guard_takes_zero_for_unset_witness :
  duration_hours
    (view_fields round_half_even (KanbanBoard 2%nat) sample_clock "Repaired"
       sample_repaired_zero)
  = Some 100.
Proof.
  apply (duration_guard_takes_zero_for_unset round_half_even
           (KanbanBoard 2%nat) sample_clock "Repaired" sample_repaired_zero
           1715338800000000 1715342400000000 0).
  - discriminate.
  - apply elem_of_two. left. reflexivity.
  - reflexivity.
  - reflexivity.
  - reflexivity.
Defined.

(** ** The technician's form post *)

Section TechnicianPostFacts.

Variable round_hours : Z → decimal2.
Context (c : Clock) (db : DB) (uid pk : nat) (r : MaintenanceRequest).
Hypothesis Hrow : requests db !! pk = Some r.

(** The post past the object lookup and the role gate. *)
Lemma technician_post_admitted (post : TechnicianPost) :
  assigned_technician r = Some uid
  ∨ in_technician_teams db uid (maintenance_team r) = true →
  profile_role db uid = Some "Technician" →
  TechnicianRequestDetailView_post round_hours c db uid pk post
  = match TechnicianRequestUpdateForm_is_valid (Some pk) r post with
    | inl errors => (db, FormErrors errors)
    | inr instance =>
        TechnicianRequestDetailView_form_valid round_hours c db uid pk instance
    end.
Proof.
  intros Hperm Hrole. unfold TechnicianRequestDetailView_post.
  rewrite Hrow.
  assert (negb (bool_decide (assigned_technician r = Some uid))
          && negb (in_technician_teams db uid (maintenance_team r)) = false)
    as ->.
  { destruct Hperm as [Ht | ->]; [|apply andb_false_r].
    by rewrite bool_decide_eq_true_2. }
  unfold TechnicianRequiredMixin_dispatch. by rewrite Hrole.
Qed.

End TechnicianPostFacts.

(** A post the validators accept gives the instance with the cleaned
    values. *)
Lemma form_is_valid_intro (pk : option nat) (instance : MaintenanceRequest)
    (post : TechnicianPost) :
  post_stage post ≠ "" →
  post_stage post ∈ (TechnicianRequestUpdateForm_stage_choices pk instance).*1 →
  (∀ d, post_duration_hours post = Some d → 0 ≤ d < 10000000000) →
  text_field_errors (clean_text (post_technician_notes post)) = [] →
  text_field_errors (clean_text (post_resolution_summary post)) = [] →
  TechnicianRequestUpdateForm_clean (Some (post_stage post))
    (Some (clean_text (post_resolution_summary post))) = None →
  TechnicianRequestUpdateForm_is_valid pk instance post
  = inr (set_resolution_summary
           (Some (clean_text (post_resolution_summary post)))
           (set_technician_notes
              (Some (clean_text (post_technician_notes post)))
              (set_duration_hours (post_duration_hours post)
                 (set_stage (post_stage post) instance)))).
Proof.
  intros Hne Hin Hdur Hnotes Hsum Hclean.
  unfold TechnicianRequestUpdateForm_is_valid.
  assert (stage_field_errors
            (TechnicianRequestUpdateForm_stage_choices pk instance)
            (post_stage post) = []) as ->.
  { unfold stage_field_errors.
    destruct (String.eqb_spec (post_stage post) ""); [done|].
    by rewrite bool_decide_eq_true_2. }
  assert (duration_field_errors (post_duration_hours post) = []
          ∧ duration_model_errors (post_duration_hours post) = [])
    as [-> ->].
  { unfold duration_field_errors, duration_model_errors.
    destruct (post_duration_hours post) as [d|]; [|done].
    specialize (Hdur d eq_refl).
    rewrite (proj2 (Z.leb_gt 10000000000 (Z.abs d))) by lia.
    by rewrite (proj2 (Z.ltb_ge d 0)) by lia. }
  rewrite Hnotes, Hsum. simpl. by rewrite Hclean.
Qed.

(** X12. On the technician's form the resolution summary is required for
    Repaired only.  A technician admitted to a request In Progress who
    submits the stage Scrap with a blank summary (and a duration and notes
    the validators accept) is redirected as after any valid form: the
    request is stored in stage Scrap with the empty string as summary and
    its equipment, if not yet scrapped, is scrapped today with the scrap
    reason it had.  The same form with the stage Repaired is shown again
    with the error on the summary and nothing is written. *)
Theorem technician_scraps_without_summary (round_hours : Z → decimal2)
    (c : Clock) (db : DB) (uid pk : nat) (r : MaintenanceRequest)
    (e : Equipment) (notes summary : string) (duration : option decimal2) :
  requests db !! pk = Some r →
  pk ≠ 0%nat →
  stage r = "In Progress" →
  assigned_technician r = Some uid
  ∨ in_technician_teams db uid (maintenance_team r) = true →
  profile_role db uid = Some "Technician" →
  equipment_table db !! equipment r = Some e →
  is_scrapped e = false →
  clean_text summary = "" →
  text_field_errors (clean_text notes) = [] →
  (∀ d, duration = Some d → 0 ≤ d < 10000000000) →
  let post target :=
    {| post_stage := target; post_duration_hours := duration;
       post_technician_notes := notes;
       post_resolution_summary := summary |} in
  let result :=
    TechnicianRequestDetailView_post round_hours c db uid pk (post "Scrap") in
  snd result = RedirectToSuccessUrl
  ∧ (∃ r', requests (fst result) !! pk = Some r'
           ∧ stage r' = "Scrap" ∧ resolution_summary r' = Some "")
  ∧ (∃ e', equipment_table (fst result) !! equipment r = Some e'
           ∧ is_scrapped e' = true
           ∧ scrap_date e' = Some (today c)
           ∧ scrap_reason e' = scrap_reason e)
  ∧ TechnicianRequestDetailView_post round_hours c db uid pk (post "Repaired")
    = (db, FormErrors
             [("resolution_summary",
               "Resolution summary is required when marking request as Repaired.")]).
Proof.
  intros Hrow Hpk Hstage Hperm Hrole He Hscr Hsum Hnotes Hdur post result.
  assert (truthy_pk (Some pk) = true) as Hpk'.
  { simpl. by destruct pk. }
  subst result.
  rewrite !(technician_post_admitted round_hours c db uid pk r Hrow) by done.
  split; [|split; [|split]].
  4: { unfold TechnicianRequestUpdateForm_is_valid,
         TechnicianRequestUpdateForm_stage_choices, stage_field_errors.
       rewrite Hpk', Hstage. simpl.
       assert (duration_field_errors duration = []
               ∧ duration_model_errors duration = []) as [-> ->].
       { unfold duration_field_errors, duration_model_errors.
         destruct duration as [d|]; [|done]. specialize (Hdur d eq_refl).
         rewrite (proj2 (Z.leb_gt 10000000000 (Z.abs d))) by lia.
         by rewrite (proj2 (Z.ltb_ge d 0)) by lia. }
       rewrite Hnotes, Hsum. reflexivity. }
  all: rewrite (form_is_valid_intro (Some pk) r (post "Scrap"));
    [|done
     |unfold TechnicianRequestUpdateForm_stage_choices;
      rewrite Hpk', Hstage; simpl; rewrite !elem_of_cons; auto
     |done|done|simpl; by rewrite Hsum|done].
  all: unfold TechnicianRequestDetailView_form_valid.
  all: match goal with
       | |- context [save_then _ _ _ ?self ?ok] =>
           assert (stage self = "Scrap" ∧ equipment self = equipment r
                   ∧ resolution_summary self = Some "") as (Hs' & He' & Hr');
           [simpl; rewrite Hsum;
            destruct r, assigned_technician0, actual_end_time0,
              actual_start_time0; by repeat split|];
           destruct (save_total c db pk self) as [db' Hsave];
           [by rewrite He', He|];
           unfold save_then; rewrite Hsave
       end.
  - done.
  - eexists. split; [by apply (save_stores c db)|]. by split.
  - eexists. split.
    + rewrite <- He'. eapply save_scraps_equipment; try done. by rewrite He'.
    + rewrite Hr'. by repeat split.
Qed.

(** The witness of X12: the technician (user 7) scraps the sample request in
    progress with a summary of a blank and a no-break space. *)
Lemma technician_scraps_without_summary_witness :
  let result :=
    TechnicianRequestDetailView_post round_half_even sample_clock
      sample_db_started 7%nat 1%nat
      {| post_stage := "Scrap"; post_duration_hours := Some 150;
         post_technician_notes := "Frame bent";
         post_resolution_summary :=
           String " " (String "194" (String "160" "")) |} in
  snd result = RedirectToSuccessUrl
  ∧ (∃ r', requests (fst result) !! 1%nat = Some r'
           ∧ stage r' = "Scrap" ∧ resolution_summary r' = Some "")
  ∧ ∃ e', equipment_table (fst result) !! 1%nat = Some e'
          ∧ is_scrapped e' = true
          ∧ scrap_date e' = Some (today sample_clock)
          ∧ scrap_reason e' = None.
Proof.
  destruct (technician_scraps_without_summary round_half_even sample_clock
              sample_db_started 7%nat 1%nat sample_started sample_equipment
              "Frame bent" (String " " (String "194" (String "160" "")))
              (Some 150))
    as (Hredirect & Hstored & Hscrapped & _).
  - reflexivity.
  - discriminate.
  - reflexivity.
  - left. reflexivity.
  - vm_compute. reflexivity.
  - reflexivity.
  - reflexivity.
  - vm_compute. reflexivity.
  - vm_compute. reflexivity.
  - intros d [= <-]. lia.
  - split; [exact Hredirect|]. split; [exact Hstored | exact Hscrapped].
Defined.

(** X13. The technician's form enforces the stage order on the server: for
    a technician admitted to the request, a post that names Repaired or
    Scrap for a request in stage New, or any other stage for a request in
    stage Repaired or Scrap, is answered with the form and an error of the
    stage field first (for a stage that was sent, that it is not one of the
    available choices), and nothing is written. *)
Theorem technician_post_refuses_stage_jump (round_hours : Z → decimal2)
    (c : Clock) (db : DB) (uid pk : nat) (r : MaintenanceRequest)
    (post : TechnicianPost) :
  requests db !! pk = Some r →
  pk ≠ 0%nat →
  assigned_technician r = Some uid
  ∨ in_technician_teams db uid (maintenance_team r) = true →
  profile_role db uid = Some "Technician" →
  (stage r = "New" ∧ post_stage post ∈ ["Repaired"; "Scrap"])
  ∨ (stage r ∈ ["Repaired"; "Scrap"] ∧ post_stage post ≠ stage r) →
  ∃ msg errors,
    TechnicianRequestDetailView_post round_hours c db uid pk post
    = (db, FormErrors (("stage", msg) :: errors))
    ∧ (post_stage post ≠ "" →
       msg = String.append "Select a valid choice. "
               (String.append (post_stage post)
                  " is not one of the available choices.")).
Proof.
  intros Hrow Hpk Hperm Hrole Hjump.
  rewrite (technician_post_admitted round_hours c db uid pk r Hrow) by done.
  assert (post_stage post
            ∉ (TechnicianRequestUpdateForm_stage_choices (Some pk) r).*1)
    as Hout.
  { unfold TechnicianRequestUpdateForm_stage_choices.
    assert (truthy_pk (Some pk) = true) as -> by (simpl; by destruct pk).
    destruct Hjump as [[Hs Hp] | [Hs Hp]].
    - rewrite Hs. simpl. apply elem_of_two in Hp.
      rewrite elem_of_two. destruct Hp as [-> | ->]; by intros [?|?].
    - apply elem_of_two in Hs. destruct Hs as [Hs | Hs]; rewrite Hs in *;
        simpl; rewrite list_elem_of_singleton; done. }
  assert (∃ msg,
            stage_field_errors
              (TechnicianRequestUpdateForm_stage_choices (Some pk) r)
              (post_stage post) = [msg]
            ∧ (post_stage post ≠ "" →
               msg = String.append "Select a valid choice. "
                       (String.append (post_stage post)
                          " is not one of the available choices.")))
    as (msg & Hmsg & Htext).
  { unfold stage_field_errors.
    destruct (String.eqb_spec (post_stage post) "") as [Hempty | Hsent];
      [|rewrite (bool_decide_eq_false_2 _ Hout)]; eexists; by split. }
  unfold TechnicianRequestUpdateForm_is_valid. rewrite Hmsg. simpl.
  exists msg. eexists. by split.
Qed.

(** The witness of X13: the technician (user 7) submits Scrap for the
    sample request, which is in stage New and in the technician's team. *)
Lemma technician_post_refuses_stage_jump_witness :
  ∃ errors,
    TechnicianRequestDetailView_post round_half_even sample_clock sample_db
      7%nat 1%nat
      {| post_stage := "Scrap"; post_duration_hours := None;
         post_technician_notes := ""; post_resolution_summary := "done" |}
    = (sample_db,
       FormErrors
         (("stage",
           "Select a valid choice. Scrap is not one of the available choices.")
          :: errors)).
Proof.
  destruct (technician_post_refuses_stage_jump round_half_even sample_clock
              sample_db 7%nat 1%nat sample_request
              {| post_stage := "Scrap"; post_duration_hours := None;
                 post_technician_notes := "";
                 post_resolution_summary := "done" |})
    as (msg & errors & Hpost & Hmsg).
  - reflexivity.
  - discriminate.
  - right. vm_compute. reflexivity.
  - vm_compute. reflexivity.
  - left. split; [reflexivity|].
    apply elem_of_cons. right. apply elem_of_cons. by left.
  - exists errors. rewrite Hpost, Hmsg; [reflexivity|discriminate].
Defined.

(** X14. The technician's detail view looks the request up among those
    assigned to the user or to one of the user's teams before it asks for
    the role: a user to whom the request is neither assigned nor in one of
    whose teams it is gets 404 whatever the role, and a user admitted to the
    request who is not a Technician is refused by the gate; neither
    writes. *)
Theorem technician_post_access (round_hours : Z → decimal2) (c : Clock)
    (db : DB) (uid pk : nat) (r : MaintenanceRequest) (post : TechnicianPost) :
  requests db !! pk = Some r →
  (assigned_technician r ≠ Some uid →
   in_technician_teams db uid (maintenance_team r) = false →
   TechnicianRequestDetailView_post round_hours c db uid pk post
   = (db, Http404))
  ∧ (assigned_technician r = Some uid
     ∨ in_technician_teams db uid (maintenance_team r) = true →
     ∀ role, profile_role db uid = Some role → role ≠ "Technician" →
     TechnicianRequestDetailView_post round_hours c db uid pk post
     = (db, PermissionDenied "Only technicians can access this page.")).
Proof.
  intros Hrow. unfold TechnicianRequestDetailView_post. rewrite Hrow. split.
  - intros Hna ->. by rewrite bool_decide_eq_false_2.
  - intros Hperm role Hrole Hne.
    assert (negb (bool_decide (assigned_technician r = Some uid))
            && negb (in_technician_teams db uid (maintenance_team r)) = false)
      as ->.
    { destruct Hperm as [Ht | ->]; [|apply andb_false_r].
      by rewrite bool_decide_eq_true_2. }
    unfold TechnicianRequiredMixin_dispatch. rewrite Hrole.
    by rewrite bool_decide_eq_false_2.
Qed.

(** The witness of X14: the manager (user 2), in no team, posts to the
    sample request. *)
Lemma technician_post_access_witness :
  TechnicianRequestDetailView_post round_half_even sample_clock sample_db
    2%nat 1%nat
    {| post_stage := "In Progress"; post_duration_hours := None;
       post_technician_notes := ""; post_resolution_summary := "" |}
  = (sample_db, Http404).
Proof.
  apply (technician_post_access round_half_even sample_clock sample_db
           2%nat 1%nat sample_request).
  - reflexivity.
  - discriminate.
  - vm_compute. reflexivity.
Defined.

(** ** The calendar grid *)

(** X15. For every year from 1 to 9999 and month from 1 to 12 the calendar
    view either raises [OverflowError], when the projection of an equipment
    of the query leaves Python's dates (its next maintenance date, or the
    first date of its loop after the month, is past 9999-12-31), or returns
    a grid of as many empty cells as the weekday of the first of the month
    (Monday 0) followed by one cell per day of the month, numbered from 1
    and dated in order; February has 29 cells in a leap year and 28
    otherwise.  Outside these bounds of year and month the view raises:
    [ValueError], or [OverflowError] for a number that is no C integer. *)
Theorem calendar_grid_shape (name_le : string → string → bool) (c : Clock)
    (db : DB) (year month : Z) :
  let get_context_data :=
    PreventiveMaintenanceCalendarView_get_context_data name_le c db
      year month in
  let end_date := toordinal year month (days_in_month year month) in
  (valid_ymd year month 1 = false →
   get_context_data
   = if fits_int year && fits_int month then Raise ValueError
     else Raise OverflowError)
  ∧ (valid_ymd year month 1 = true →
     calendar_in_range name_le c db end_date = false →
     get_context_data = Raise OverflowError)
  ∧ (valid_ymd year month 1 = true →
     calendar_in_range name_le c db end_date = true →
     let first_weekday := Z.to_nat (weekday (toordinal year month 1)) in
     let last_day := days_in_month year month in
     ∃ ctx,
       get_context_data = Ok ctx
       ∧ length (calendar_days ctx) = (first_weekday + Z.to_nat last_day)%nat
       ∧ (first_weekday < 7)%nat
       ∧ (month = 2 → last_day = if isleap year then 29 else 28)
       ∧ (∀ i, (i < first_weekday)%nat → calendar_days ctx !! i = Some None)
       ∧ (∀ day, 1 ≤ day ≤ last_day →
            ∃ cell, calendar_days ctx !! (first_weekday + Z.to_nat (day - 1))%nat
                    = Some (Some cell)
                    ∧ cell_day cell = day
                    ∧ cell_date cell = toordinal year month 1 + (day - 1))).
Proof.
  simpl. split; [|split].
  - intros Hv. unfold PreventiveMaintenanceCalendarView_get_context_data,
      datetime_date.
    rewrite Hv. replace (fits_int 1) with true by done.
    rewrite andb_true_r. by destruct (fits_int year && fits_int month).
  - intros Hv Hrange.
    unfold PreventiveMaintenanceCalendarView_get_context_data.
    rewrite (proj2 (datetime_date_ok year month 1 _) (conj Hv eq_refl)).
    simpl. by rewrite requests_by_date_overflow.
  - intros Hv Hrange.
    destruct (calendar_view_returns name_le c db year month Hv Hrange)
      as (by_date & ctx & Hby & Hctx).
    exists ctx. split; [done|].
    pose proof (days_in_month_pos year month) as Hdim.
    pose proof (Z.mod_pos_bound (toordinal year month 1 + 6) 7) as Hwd.
    pose proof Hctx as (_ & by_date' & Hby' & Heq)%calendar_view_ok.
    rewrite Hby in Hby'. injection Hby' as <-.
    split; [|split; [|split; [|split]]].
    + rewrite Heq. simpl.
      rewrite length_app, length_replicate, length_fmap, length_seqZ.
      done.
    + unfold weekday. lia.
    + intros ->. done.
    + intros i Hi. rewrite Heq. simpl.
      rewrite lookup_app_l by (by rewrite length_replicate).
      by apply lookup_replicate_2.
    + intros day Hday. eexists. split.
      * by apply (calendar_cell name_le c db year month by_date ctx day).
      * split; [done|]. simpl. apply toordinal_day.
Qed.

(** The witness of X15: February 2024 starts on a Thursday and has 29
    days; with a press whose interval is 3000000 days in the store, the
    calendar of the same month raises. *)
Lemma calendar_grid_shape_witness :
  (∃ ctx,
     PreventiveMaintenanceCalendarView_get_context_data String.leb
       sample_clock sample_db 2024 2 = Ok ctx
     ∧ length (calendar_days ctx) = 32%nat)
  ∧ PreventiveMaintenanceCalendarView_get_context_data String.leb
      sample_clock sample_db_far 2024 2 = Raise OverflowError.
Proof.
  split.
  - destruct (calendar_grid_shape String.leb sample_clock sample_db 2024 2)
      as (_ & _ & Hgrid).
    destruct (Hgrid eq_refl) as (ctx & Hctx & Hlen & _);
      [vm_compute; reflexivity|].
    exists ctx. split; [exact Hctx | exact Hlen].
  - destruct (calendar_grid_shape String.leb sample_clock sample_db_far
                2024 2) as (_ & Hraise & _).
    apply Hraise; vm_compute; reflexivity.
Defined.

(** X16. The links of the calendar to the previous and the next month:
    from January the previous month is December of the year before, from
    December the next month is January of the year after, otherwise the
    year stays.  The calendar of the previous month, when the view returns
    it, links forward to the month one came from, as the calendar of the
    next month links back to it; the view returns them when the projections
    stay within Python's dates up to the end of that month, except before
    January of year 1 and after December of year 9999, where it raises
    [ValueError]. *)
Theorem calendar_navigation_round_trip (name_le : string → string → bool)
    (c : Clock) (db : DB) (year month : Z) (ctx : CalendarContext) :
  let get_context_data :=
    PreventiveMaintenanceCalendarView_get_context_data name_le c db in
  let end_of y m := toordinal y m (days_in_month y m) in
  get_context_data year month = Ok ctx →
  (month = 1 → prev_year ctx = year - 1 ∧ prev_month ctx = 12)
  ∧ (month ≠ 1 → prev_year ctx = year ∧ prev_month ctx = month - 1)
  ∧ (month = 12 → next_year ctx = year + 1 ∧ next_month ctx = 1)
  ∧ (month ≠ 12 → next_year ctx = year ∧ next_month ctx = month + 1)
  ∧ (∀ before,
       get_context_data (prev_year ctx) (prev_month ctx) = Ok before →
       next_year before = year ∧ next_month before = month)
  ∧ (∀ after,
       get_context_data (next_year ctx) (next_month ctx) = Ok after →
       prev_year after = year ∧ prev_month after = month)
  ∧ (2 ≤ year ∨ 2 ≤ month →
     calendar_in_range name_le c db
       (end_of (prev_year ctx) (prev_month ctx)) = true →
     ∃ before,
       get_context_data (prev_year ctx) (prev_month ctx) = Ok before)
  ∧ (year ≤ 9998 ∨ month ≤ 11 →
     calendar_in_range name_le c db
       (end_of (next_year ctx) (next_month ctx)) = true →
     ∃ after, get_context_data (next_year ctx) (next_month ctx) = Ok after)
  ∧ (year = 1 → month = 1 →
     get_context_data (prev_year ctx) (prev_month ctx) = Raise ValueError)
  ∧ (year = 9999 → month = 12 →
     get_context_data (next_year ctx) (next_month ctx) = Raise ValueError).
Proof.
  simpl. intros Hctx.
  pose proof Hctx as (Hv & by_date & _ & Heq)%calendar_view_ok.
  assert (1 ≤ year ≤ 9999 ∧ 1 ≤ month ≤ 12) as [Hy Hm].
  { unfold valid_ymd in Hv.
    repeat (apply andb_prop in Hv as [Hv ?]). lia. }
  assert (∀ y m, 1 ≤ y ≤ 9999 → 1 ≤ m ≤ 12 → valid_ymd y m 1 = true)
    as Hvalid.
  { intros y m Hy' Hm'. unfold valid_ymd.
    pose proof (days_in_month_pos y m).
    repeat (apply andb_true_intro; split); lia. }
  assert (∀ y m ctx',
            PreventiveMaintenanceCalendarView_get_context_data name_le c db
              y m = Ok ctx' →
            prev_year ctx' = (if m =? 1 then y - 1 else y)
            ∧ prev_month ctx' = (if m =? 1 then 12 else m - 1)
            ∧ next_year ctx' = (if m =? 12 then y + 1 else y)
            ∧ next_month ctx' = (if m =? 12 then 1 else m + 1)) as Hnav.
  { intros y m ctx' (_ & ? & _ & ->)%calendar_view_ok. done. }
  destruct (Hnav year month ctx Hctx) as (Hpy & Hpm & Hny & Hnm).
  rewrite Hpy, Hpm, Hny, Hnm.
  split; [intros; destruct (Z.eqb_spec month 1); lia|].
  split; [intros; destruct (Z.eqb_spec month 1); lia|].
  split; [intros; destruct (Z.eqb_spec month 12); lia|].
  split; [intros; destruct (Z.eqb_spec month 12); lia|].
  split; [|split; [|split; [|split; [|split]]]].
  - intros before Hbefore.
    pose proof Hbefore as (Hvb & _)%calendar_view_ok.
    destruct (Hnav _ _ _ Hbefore) as (_ & _ & -> & ->).
    unfold valid_ymd in Hvb. repeat (apply andb_prop in Hvb as [Hvb ?]).
    destruct (Z.eqb_spec month 1);
      repeat match goal with
        | |- context [Z.eqb ?a ?b] => destruct (Z.eqb_spec a b)
        end; lia.
  - intros after Hafter.
    pose proof Hafter as (Hva & _)%calendar_view_ok.
    destruct (Hnav _ _ _ Hafter) as (-> & -> & _ & _).
    unfold valid_ymd in Hva. repeat (apply andb_prop in Hva as [Hva ?]).
    destruct (Z.eqb_spec month 12);
      repeat match goal with
        | |- context [Z.eqb ?a ?b] => destruct (Z.eqb_spec a b)
        end; lia.
  - intros Hcase Hrange.
    destruct (calendar_view_returns name_le c db
                (if month =? 1 then year - 1 else year)
                (if month =? 1 then 12 else month - 1))
      as (_ & before & _ & Hbefore); [|done|by exists before].
    apply Hvalid; destruct (Z.eqb_spec month 1); lia.
  - intros Hcase Hrange.
    destruct (calendar_view_returns name_le c db
                (if month =? 12 then year + 1 else year)
                (if month =? 12 then 1 else month + 1))
      as (_ & after & _ & Hafter); [|done|by exists after].
    apply Hvalid; destruct (Z.eqb_spec month 12); lia.
  - intros -> ->. reflexivity.
  - intros -> ->. reflexivity.
Qed.

(** The witness of X16: from January 2024 back to December 2023 and
    forward again. *)
Lemma calendar_navigation_round_trip_witness :
  ∃ ctx before,
    PreventiveMaintenanceCalendarView_get_context_data String.leb
      sample_clock sample_db 2024 1 = Ok ctx
    ∧ prev_year ctx = 2023 ∧ prev_month ctx = 12
    ∧ PreventiveMaintenanceCalendarView_get_context_data String.leb
        sample_clock sample_db (prev_year ctx) (prev_month ctx) = Ok before
    ∧ next_year before = 2024 ∧ next_month before = 1.
Proof.
  destruct (calendar_view_returns String.leb sample_clock sample_db 2024 1
              eq_refl) as (_ & ctx & _ & Hctx); [vm_compute; reflexivity|].
  destruct (calendar_navigation_round_trip String.leb sample_clock sample_db
              2024 1 ctx Hctx)
    as (Hjan & _ & _ & _ & Hlink & _ & Hback & _).
  destruct (Hjan eq_refl) as [Hpy Hpm].
  destruct Hback as [before Hbefore]; [left; discriminate| |].
  { rewrite Hpy, Hpm. vm_compute. reflexivity. }
  destruct (Hlink before Hbefore) as [Hny Hnm].
  exists ctx, before. repeat split; assumption.
Defined.

(** ** The calendar dictionary *)

Lemma recurring_dates_zero (db : DB) (eq_pk : nat) (e : Equipment)
    (end_date : Z) (fuel : nat) :
  ∀ (current_date : Z) (m : gmap Z (list CalendarItem)),
    1 ≤ current_date ≤ end_date → end_date ≤ date_max →
    recurring_dates fuel db eq_pk e end_date 0 current_date m = OutOfFuel.
Proof.
  induction fuel as [|fuel IH]; intros cur m Hcur Hmax; simpl;
    rewrite (proj2 (Z.leb_le cur end_date)) by lia; [done|].
  assert (date_add cur 0 = Ok cur) as ->.
  { replace (Ok cur) with (Ok (A := date) (cur + 0)) by (f_equal; lia).
    apply date_add_ok. unfold date_max in *. lia. }
  simpl. by apply IH.
Qed.

Lemma recurring_dates_negative (db : DB) (eq_pk : nat) (e : Equipment)
    (end_date interval_days : Z) (fuel : nat) :
  interval_days < 0 →
  ∀ (current_date : Z) (m : gmap Z (list CalendarItem)),
    current_date ≤ end_date →
    (Z.to_nat current_date < fuel)%nat →
    recurring_dates fuel db eq_pk e end_date interval_days current_date m
    = Raise OverflowError.
Proof.
  intros Hneg. induction fuel as [|fuel IH]; intros cur m Hle Hfuel; [lia|].
  simpl. rewrite (proj2 (Z.leb_le cur end_date)) by done.
  destruct (date_add_cases cur interval_days) as [Hadd | ->]; [|done].
  rewrite Hadd. simpl.
  apply date_add_ok in Hadd as (_ & _ & Hlo & _).
  apply IH; lia.
Qed.

(** X17. The loop over the dates of an equipment, started on a date not
    after the end date, ends by its interval.  With a positive interval it
    ends within the fuel the view gives it: it returns when the first date
    after the end date is a date of Python, and raises [OverflowError] when
    that date is past 9999-12-31.  With an interval of zero the date never
    moves and no number of rounds ends the loop.  With a negative interval
    it walks back and raises [OverflowError] before 0001-01-01.  The query
    of the view keeps the last two out: every row it visits has a positive
    interval. *)
Theorem recurring_loop_needs_positive_interval
    (name_le : string → string → bool) (db : DB) (eq_pk : nat)
    (e : Equipment) (end_date interval_days current_date : Z)
    (m : gmap Z (list CalendarItem)) :
  1 ≤ current_date ≤ end_date → end_date ≤ date_max →
  let view_fuel := Z.to_nat (end_date - current_date + 1) in
  let loop fuel :=
    recurring_dates fuel db eq_pk e end_date interval_days current_date m in
  (0 < interval_days →
   (first_after current_date interval_days end_date ≤ date_max →
    ∃ m', loop view_fuel = Ok m')
   ∧ (date_max < first_after current_date interval_days end_date →
      loop view_fuel = Raise OverflowError))
  ∧ (interval_days = 0 → ∀ fuel, loop fuel = OutOfFuel)
  ∧ (interval_days < 0 →
     ∀ fuel, (Z.to_nat current_date < fuel)%nat →
             loop fuel = Raise OverflowError)
  ∧ (∀ x, x ∈ equipment_with_intervals name_le db →
          ∃ i, maintenance_interval_days (snd x) = Some i ∧ 0 < i).
Proof.
  intros Hcur Hmax. simpl. split; [|split; [|split]].
  - intros Hpos. split.
    + intros Hrange.
      destruct (recurring_dates_spec db eq_pk e end_date interval_days Hpos
                  (Z.to_nat (end_date - current_date + 1)) current_date m)
        as (m' & Hrun & _); [lia|done|done|]. eauto.
    + intros Hover. apply recurring_dates_overflow; [done|done|lia|done].
  - intros -> fuel. by apply recurring_dates_zero.
  - intros Hneg fuel Hfuel. apply recurring_dates_negative; [done|lia|done].
  - intros x [_ Hx]%elem_of_equipment_with_intervals.
    apply has_interval_inv in Hx as (i & Hi & Hpos & _). eauto.
Qed.

(** The witness of X17: the loop of the drill press in May 2024, from
    2024-05-20 by 30 days, returns; by 3000000 days it raises. *)
Lemma recurring_loop_needs_positive_interval_witness :
  (∃ m',
     recurring_dates 12 sample_db_serviced 2%nat sample_equipment_monthly
       (toordinal 2024 5 31) 30 (toordinal 2024 5 20) ∅ = Ok m')
  ∧ recurring_dates 12 sample_db_serviced 2%nat sample_equipment_monthly
      (toordinal 2024 5 31) 3000000 (toordinal 2024 5 20) ∅
    = Raise OverflowError.
Proof.
  split.
  - destruct (recurring_loop_needs_positive_interval String.leb
                sample_db_serviced 2%nat sample_equipment_monthly
                (toordinal 2024 5 31) 30 (toordinal 2024 5 20) ∅)
      as ((Hreturns & _) & _); [vm_compute; split; discriminate
                               |discriminate|reflexivity|].
    apply Hreturns. discriminate.
  - destruct (recurring_loop_needs_positive_interval String.leb
                sample_db_serviced 2%nat sample_equipment_monthly
                (toordinal 2024 5 31) 3000000 (toordinal 2024 5 20) ∅)
      as ((_ & Hraises) & _); [vm_compute; split; discriminate
                              |discriminate|reflexivity|].
    apply Hraises. reflexivity.
Defined.

Section DictionaryFacts.

Context (c : Clock) (db : DB) (start_date end_date : date).

Lemma elem_of_preventive_requests (x : nat * MaintenanceRequest) :
  x ∈ preventive_requests db start_date end_date
  ↔ requests db !! fst x = Some (snd x)
    ∧ request_type (snd x) = "Preventive"
    ∧ (∃ d, scheduled_date (snd x) = Some d ∧ start_date ≤ d ≤ end_date)
    ∧ (stage (snd x) ∉ ["Repaired"; "Scrap"])
    ∧ is_Some (equipment_table db !! equipment (snd x)).
Proof.
  unfold preventive_requests. rewrite list_elem_of_filter.
  destruct x as [pk r]. rewrite elem_of_map_to_list. simpl.
  unfold is_month_preventive. simpl.
  rewrite !andb_true_iff, bool_decide_eq_true, negb_true_iff,
    bool_decide_eq_false.
  split.
  - intros [[[[Ht Hd] Hs] He] Hrow]. repeat split; try done.
    + destruct (scheduled_date r) as [d|]; [|done]. exists d.
      apply andb_prop in Hd as [?%Z.leb_le ?%Z.leb_le]. by split.
    + by destruct (equipment_table db !! equipment r).
  - intros (Hrow & Ht & (d & Hd & Hlo & Hhi) & Hs & [e He]).
    repeat split; try done.
    + rewrite Hd. apply andb_true_intro. split; by apply Z.leb_le.
    + by rewrite He.
Qed.

(** The entries of the scheduled requests. *)
Lemma add_scheduled_fold (rows : list (nat * MaintenanceRequest))
    (m : gmap Z (list CalendarItem)) :
  let m' := foldl (add_scheduled db) m rows in
  (∀ d, (m !!! d) `prefix_of` (m' !!! d))
  ∧ (∀ x d, x ∈ rows → scheduled_date (snd x) = Some d →
            scheduled_item db x d ∈ m' !!! d)
  ∧ (∀ d it, it ∈ m' !!! d →
       it ∈ m !!! d
       ∨ ∃ x, x ∈ rows ∧ scheduled_date (snd x) = Some d
              ∧ it = scheduled_item db x d).
Proof.
  revert m. induction rows as [|x rows IH]; intros m; simpl.
  - split; [done|]. split; [|by left].
    intros x d Hin. by apply elem_of_nil in Hin.
  - destruct (IH (add_scheduled db m x)) as (Hpre & Hin & Hsound).
    assert (∀ d, (m !!! d) `prefix_of` (add_scheduled db m x !!! d)) as Hpre1.
    { intros d. unfold add_scheduled.
      destruct (scheduled_date (snd x)); [apply append_item_prefix|done]. }
    split; [|split].
    + intros d. etrans; [apply Hpre1|apply Hpre].
    + intros y d [-> | Hy]%elem_of_cons Hd; [|by apply Hin].
      eapply elem_of_prefix; [|apply Hpre].
      unfold add_scheduled. rewrite Hd.
      refine (eq_ind_r (λ l, scheduled_item db x d ∈ l) _
                (append_item_eq d _ m)).
      apply elem_of_app. right. by apply list_elem_of_singleton.
    + intros d it Hit.
      destruct (Hsound d it Hit) as [Hit1 | (y & Hy & Hd & ->)].
      * unfold add_scheduled in Hit1.
        destruct (scheduled_date (snd x)) as [dx|] eqn:Hdx; [|by left].
        destruct (decide (dx = d)) as [-> | Hne].
        -- refine (_ (eq_ind _ (λ l, it ∈ l) Hit1 _ (append_item_eq d _ m))).
           intros [Hm | ->%list_elem_of_singleton]%elem_of_app; [by left|].
           right. exists x. split; [apply elem_of_cons; auto|done].
        -- left.
           refine (eq_ind _ (λ l, it ∈ l) Hit1 _ (append_item_ne dx d _ m Hne)).
      * right. exists y. split; [apply elem_of_cons; auto|done].
Qed.

(** Every entry the loop of an equipment leaves in a list was there
    before or is the projected entry of a date of the loop with no request
    in the way. *)
Lemma recurring_dates_sound (eq_pk : nat) (e : Equipment)
    (interval_days : Z) (fuel : nat) :
  ∀ (current_date : Z) (m m' : gmap Z (list CalendarItem)),
    0 < interval_days →
    recurring_dates fuel db eq_pk e end_date interval_days current_date m
    = Ok m' →
    ∀ d it, it ∈ m' !!! d →
      it ∈ m !!! d
      ∨ (occurrence current_date interval_days end_date d
         ∧ existing_request db eq_pk d = None
         ∧ it = interval_item e d).
Proof.
  induction fuel as [|fuel IH]; intros cur m m' Hpos; simpl;
    destruct (Z.leb_spec cur end_date) as [Hle | Hlt]; try done;
    try (intros [= <-]; by left).
  intros (next & (-> & _)%date_add_ok & Hrun)%and_then_ok d it Hit.
  destruct (IH _ _ _ Hpos Hrun d it Hit) as [Hit1 | (Hocc & Hex & ->)].
  - destruct (existing_request db eq_pk cur) eqn:Hcur; simpl in Hit1;
      [by left|].
    destruct (decide (cur = d)) as [-> | Hne].
    + refine (_ (eq_ind _ (λ l, it ∈ l) Hit1 _ (append_item_eq d _ m))).
      intros [Hm | ->%list_elem_of_singleton]%elem_of_app; [by left|].
      right. split; [|done]. exists 0. split; [lia|]. split; [lia|done].
    + left.
      refine (eq_ind _ (λ l, it ∈ l) Hit1 _ (append_item_ne cur d _ m Hne)).
  - right. split; [|done]. destruct Hocc as (j & Hj & -> & Hd).
    exists (j + 1). split; [lia|]. split; [lia|done].
Qed.

Lemma add_all_recurring_sound (rows : list (nat * Equipment)) :
  (∀ x, x ∈ rows → has_interval x = true) →
  ∀ m m', add_all_recurring c db end_date rows m = Ok m' →
    ∀ d it, it ∈ m' !!! d →
      it ∈ m !!! d
      ∨ ∃ x, x ∈ rows ∧ projected c db end_date x d
             ∧ it = interval_item (snd x) d.
Proof.
  unfold add_all_recurring.
  induction rows as [|x rows IH]; intros Hrows m m'; simpl.
  - intros [= <-] d it Hit. by left.
  - destruct (add_recurring c db end_date m x) as [m1|exn|] eqn:Hstep.
    + intros Hrun d it Hit.
      destruct (IH (λ y Hy, Hrows y (proj2 (elem_of_cons _ _ _) (or_intror Hy)))
                  m1 m' Hrun d it Hit) as [Hit1 | (y & Hy & Hproj & ->)].
      * assert (has_interval x = true) as Hx
          by (apply Hrows, elem_of_cons; auto).
        apply has_interval_inv in Hx as (i & Hi & Hpos & _).
        unfold add_recurring in Hstep.
        apply and_then_ok in Hstep as (next & Hnext & Hstep).
        destruct next as [first|]; [|injection Hstep as <-; by left].
        destruct (first <=? end_date); [|injection Hstep as <-; by left].
        rewrite Hi in Hstep.
        destruct (recurring_dates_sound _ _ _ _ _ _ _ Hpos Hstep d it Hit1)
          as [Hm | (Hocc & Hex & ->)]; [by left|].
        right. exists x. split; [apply elem_of_cons; auto|].
        split; [|done]. by exists first, i.
      * right. exists y. split; [apply elem_of_cons; auto|done].
    + intros Hrun. exfalso. clear -Hrun.
      induction rows as [|y rows IH']; simpl in Hrun; [done|auto].
    + intros Hrun. exfalso. clear -Hrun.
      induction rows as [|y rows IH']; simpl in Hrun; [done|auto].
Qed.

End DictionaryFacts.

(** A dictionary is returned only when every projection stays within the
    dates. *)
Lemma requests_by_date_in_range (name_le : string → string → bool)
    (c : Clock) (db : DB) (start_date end_date : date)
    (by_date : gmap Z (list CalendarItem)) :
  requests_by_date name_le c db start_date end_date = Ok by_date →
  calendar_in_range name_le c db end_date = true.
Proof.
  intros Hby.
  destruct (calendar_in_range name_le c db end_date) eqn:Hrange; [done|].
  by rewrite (requests_by_date_overflow name_le c db end_date start_date
                Hrange) in Hby.
Qed.

(** The dictionary of the view, entry by entry. *)
Lemma requests_by_date_entries (name_le : string → string → bool)
    (c : Clock) (db : DB) (start_date end_date : date)
    (by_date : gmap Z (list CalendarItem)) :
  requests_by_date name_le c db start_date end_date = Ok by_date →
  (∀ x d, x ∈ preventive_requests db start_date end_date →
          scheduled_date (snd x) = Some d →
          scheduled_item db x d ∈ by_date !!! d)
  ∧ (∀ d it, it ∈ by_date !!! d →
       (∃ x, x ∈ preventive_requests db start_date end_date
             ∧ scheduled_date (snd x) = Some d
             ∧ it = scheduled_item db x d)
       ∨ (∃ x, x ∈ equipment_with_intervals name_le db
               ∧ projected c db end_date x d
               ∧ it = interval_item (snd x) d)).
Proof.
  intros Hrun.
  pose proof (requests_by_date_in_range _ _ _ _ _ _ Hrun) as Hrange.
  unfold requests_by_date in Hrun.
  destruct (add_scheduled_fold db
              (preventive_requests db start_date end_date) ∅)
    as (_ & Hin & Hsound).
  assert (∀ x, x ∈ equipment_with_intervals name_le db →
               has_interval x = true) as Hrows.
  { intros x Hx. by apply elem_of_equipment_with_intervals in Hx as [_ ?]. }
  destruct (add_all_recurring_spec c db end_date
              (equipment_with_intervals name_le db) Hrows Hrange
              (foldl (add_scheduled db) ∅
                 (preventive_requests db start_date end_date)))
    as (m' & Hrun' & Hpre & _).
  rewrite Hrun in Hrun'. injection Hrun' as <-.
  split.
  - intros x d Hx Hd. eapply elem_of_prefix; [|apply Hpre]. by apply Hin.
  - intros d it Hit.
    destruct (add_all_recurring_sound c db end_date _ Hrows _ _ Hrun d it Hit)
      as [Hit1 | Hproj]; [|by right].
    destruct (Hsound d it Hit1) as [Hempty | Hsched]; [|by left].
    exfalso. revert Hempty.
    refine (eq_ind_r (λ l, it ∈ l → False) _
              (lookup_total_empty (M := gmap Z) (A := list CalendarItem) d)).
    apply not_elem_of_nil.
Qed.

(** X18. In a month for which the projections stay within Python's dates
    (so that the view returns), every Preventive request scheduled on a day
    of the month, in neither final stage, whose equipment row exists, is
    listed in the calendar under its date with its own key, and shown in
    the cell of that day. *)
Theorem calendar_lists_scheduled_requests (name_le : string → string → bool)
    (c : Clock) (db : DB)
    (year month : Z) (pk : nat) (r : MaintenanceRequest) (d : date) :
  valid_ymd year month 1 = true →
  requests db !! pk = Some r →
  request_type r = "Preventive" →
  scheduled_date r = Some d →
  stage r ∉ ["Repaired"; "Scrap"] →
  is_Some (equipment_table db !! equipment r) →
  let start_date := toordinal year month 1 in
  let end_date := toordinal year month (days_in_month year month) in
  start_date ≤ d ≤ end_date →
  calendar_in_range name_le c db end_date = true →
  ∃ by_date ctx cell,
    requests_by_date name_le c db start_date end_date = Ok by_date
    ∧ PreventiveMaintenanceCalendarView_get_context_data name_le c db
        year month = Ok ctx
    ∧ scheduled_item db (pk, r) d ∈ by_date !!! d
    ∧ item_pk (scheduled_item db (pk, r) d) = Some pk
    ∧ calendar_days ctx
        !! (Z.to_nat (weekday start_date) + Z.to_nat (d - start_date))%nat
      = Some (Some cell)
    ∧ cell_date cell = d
    ∧ scheduled_item db (pk, r) d ∈ cell_requests cell.
Proof.
  intros Hv Hrow Ht Hd Hs He start_date end_date Hrange Hin_range.
  destruct (calendar_view_returns name_le c db year month Hv Hin_range)
    as (by_date & ctx & Hby & Hctx).
  destruct (requests_by_date_entries name_le c db start_date end_date
              by_date Hby) as [Hin _].
  assert (scheduled_item db (pk, r) d ∈ by_date !!! d) as Hitem.
  { apply Hin; [|done]. apply elem_of_preventive_requests. simpl.
    repeat split; try done. by exists d. }
  pose proof (calendar_cell name_le c db year month by_date ctx
                (d - start_date + 1) Hby Hctx) as Hcell.
  assert (toordinal year month (d - start_date + 1) = d) as Hday.
  { rewrite toordinal_day. fold start_date. lia. }
  rewrite Hday in Hcell.
  replace (d - start_date + 1 - 1) with (d - start_date) in Hcell by lia.
  eexists by_date, ctx, _. split; [done|]. split; [done|].
  split; [done|]. split; [done|]. split; [apply Hcell|by split].
  split; [lia|]. subst end_date. rewrite toordinal_day in Hrange.
  fold start_date in Hrange. lia.
Qed.

(** The witness of X18: request 6, scheduled on 2024-05-20, in the calendar
    of May 2024. *)
Lemma calendar_lists_scheduled_requests_witness :
  ∃ by_date,
    requests_by_date String.leb sample_clock sample_db_planned
      (toordinal 2024 5 1) (toordinal 2024 5 31) = Ok by_date
    ∧ scheduled_item sample_db_planned (6%nat, sample_planned)
        (toordinal 2024 5 20) ∈ by_date !!! toordinal 2024 5 20.
Proof.
  destruct (calendar_lists_scheduled_requests String.leb sample_clock
              sample_db_planned
              2024 5 6%nat sample_planned (toordinal 2024 5 20))
    as (by_date & _ & _ & Hby & _ & Hin & _).
  - reflexivity.
  - reflexivity.
  - reflexivity.
  - reflexivity.
  - rewrite elem_of_two. intros [H|H]; discriminate H.
  - exists sample_equipment_monthly. reflexivity.
  - split; discriminate.
  - vm_compute. reflexivity.
  - exists by_date. split; [exact Hby | exact Hin].
Defined.

(** X19. The calendar holds nothing else.  Every entry filed under a date
    of a dictionary the view has built carries that date and is either the
    entry of a Preventive request scheduled on it within the month, in
    neither final stage, with its key; or the projected entry, without key,
    of an equipment that is not scrapped and has a positive interval, on a
    date of its loop (the next maintenance date of the equipment plus a
    whole number of intervals, not after the end of the month) with no
    Preventive request of the equipment outside stage Scrap scheduled on
    it. *)
Theorem calendar_dictionary_sound (name_le : string → string → bool)
    (c : Clock) (db : DB)
    (start_date end_date : date) (by_date : gmap Z (list CalendarItem))
    (d : date) (it : CalendarItem) :
  requests_by_date name_le c db start_date end_date = Ok by_date →
  it ∈ by_date !!! d →
  item_date it = d
  ∧ ((∃ pk r, it = scheduled_item db (pk, r) d
              ∧ item_pk it = Some pk
              ∧ requests db !! pk = Some r
              ∧ request_type r = "Preventive"
              ∧ scheduled_date r = Some d
              ∧ start_date ≤ d ≤ end_date
              ∧ stage r ∉ ["Repaired"; "Scrap"])
     ∨ (∃ k e i first,
          it = interval_item e d
          ∧ item_pk it = None
          ∧ equipment_table db !! k = Some e
          ∧ is_scrapped e = false
          ∧ maintenance_interval_days e = Some i ∧ 0 < i
          ∧ Equipment_get_next_maintenance_date c db k e = Ok (Some first)
          ∧ occurrence first i end_date d
          ∧ existing_request db k d = None)).
Proof.
  intros Hby Hit.
  destruct (requests_by_date_entries name_le c db start_date end_date
              by_date Hby) as [_ Hsound].
  destruct (Hsound d it Hit)
    as [([pk r] & Hx & Hd & ->) | ([k e] & Hx & Hproj & ->)].
  - split; [done|]. left.
    apply elem_of_preventive_requests in Hx
      as (Hrow & Ht & (d' & Hd' & Hrange) & Hs & _).
    simpl in *. rewrite Hd in Hd'. injection Hd' as <-.
    exists pk, r. repeat split; try done; apply Hrange.
  - split; [done|]. right.
    apply elem_of_equipment_with_intervals in Hx as [Hrow Hhas].
    apply has_interval_inv in Hhas as (i & Hi & Hpos & Hscr).
    destruct Hproj as (first & i' & Hnext & Hi' & Hocc & Hex).
    simpl in *. rewrite Hi in Hi'. injection Hi' as <-.
    exists k, e, i, first. by repeat split.
Qed.

(** The witness of X19: the entry of 2024-05-20 in the calendar of May 2024
    of the serviced drill press is its projected entry. *)
Lemma calendar_dictionary_sound_witness :
  ∃ by_date,
    requests_by_date String.leb sample_clock sample_db_serviced
      (toordinal 2024 5 1) (toordinal 2024 5 31) = Ok by_date
    ∧ interval_item sample_equipment_monthly (toordinal 2024 5 20)
      ∈ by_date !!! toordinal 2024 5 20
    ∧ item_date (interval_item sample_equipment_monthly (toordinal 2024 5 20))
      = toordinal 2024 5 20.
Proof.
  destruct (requests_by_date_spec String.leb sample_clock sample_db_serviced
              (toordinal 2024 5 31) (toordinal 2024 5 1))
    as (by_date & Hby & Hin); [vm_compute; reflexivity|].
  assert (interval_item sample_equipment_monthly (toordinal 2024 5 20)
          ∈ by_date !!! toordinal 2024 5 20) as Hit.
  { apply (Hin (2%nat, sample_equipment_monthly)).
    - apply elem_of_equipment_with_intervals. split; reflexivity.
    - exists (toordinal 2024 5 20), 30. split; [vm_compute; reflexivity|].
      split; [reflexivity|]. split; [|vm_compute; reflexivity].
      exists 0. split; [discriminate|]. split; [reflexivity|discriminate]. }
  destruct (calendar_dictionary_sound String.leb sample_clock
              sample_db_serviced
              (toordinal 2024 5 1) (toordinal 2024 5 31) by_date
              (toordinal 2024 5 20) _ Hby Hit) as [Hdate _].
  exists by_date. split; [exact Hby|]. split; [exact Hit|exact Hdate].
Defined.

(** X20. A Preventive request in stage Repaired hides its date: it is not
    listed itself, since the list of scheduled requests leaves both final
    stages out, yet it suppresses the projected entry of its equipment,
    since the check of the loop leaves out stage Scrap only.  When the
    Preventive requests of the equipment scheduled on the date are all in a
    final stage, every entry under the date belongs to other equipment. *)
Theorem repaired_request_hides_the_date (name_le : string → string → bool)
    (c : Clock) (db : DB)
    (start_date end_date : date) (by_date : gmap Z (list CalendarItem))
    (pk k : nat) (r : MaintenanceRequest) (d : date) :
  requests_by_date name_le c db start_date end_date = Ok by_date →
  requests db !! pk = Some r →
  equipment r = k →
  request_type r = "Preventive" →
  stage r = "Repaired" →
  scheduled_date r = Some d →
  (∀ pk' r', requests db !! pk' = Some r' → equipment r' = k →
             request_type r' = "Preventive" → scheduled_date r' = Some d →
             stage r' ∈ ["Repaired"; "Scrap"]) →
  ((pk, r) ∉ preventive_requests db start_date end_date)
  ∧ existing_request db k d ≠ None
  ∧ ∀ it, it ∈ by_date !!! d →
      (∃ pk' r', it = scheduled_item db (pk', r') d
                 ∧ requests db !! pk' = Some r' ∧ equipment r' ≠ k)
      ∨ (∃ k' e', it = interval_item e' d
                  ∧ equipment_table db !! k' = Some e' ∧ k' ≠ k).
Proof.
  intros Hby Hrow Heq Ht Hs Hd Hall.
  assert (existing_request db k d ≠ None) as Hex.
  { apply existing_request_iff. exists pk, r. repeat split; try done.
    by rewrite Hs. }
  split; [|split]; [|done|].
  - intros (_ & _ & _ & Hopen & _)%elem_of_preventive_requests.
    simpl in Hopen. apply Hopen. rewrite Hs. apply elem_of_two. by left.
  - intros it Hit.
    destruct (requests_by_date_entries name_le c db start_date end_date
                by_date Hby) as [_ Hsound].
    destruct (Hsound d it Hit)
      as [([pk' r'] & Hx & Hd' & ->) | ([k' e'] & Hx & Hproj & ->)].
    + left. exists pk', r'.
      apply elem_of_preventive_requests in Hx
        as (Hrow' & Ht' & _ & Hopen & _). simpl in *.
      repeat split; try done. intros Hk. apply Hopen. by apply (Hall pk').
    + right. exists k', e'.
      apply elem_of_equipment_with_intervals in Hx as [Hrow' _].
      destruct Hproj as (_ & _ & _ & _ & _ & Hnone). simpl in *.
      repeat split; try done. by intros ->.
Qed.

(** The witness of X20: the drill press, last serviced on 2024-04-20, is
    due on 2024-05-20, a date of its loop in the calendar of May 2024; the
    service planned for that day was done ahead of time (request 7,
    Repaired).  The request is not listed, it is found by the check of the
    loop, and the day shows nothing. *)
Lemma repaired_request_hides_the_date_witness :
  ∃ by_date,
    requests_by_date String.leb sample_clock sample_db_ahead
      (toordinal 2024 5 1) (toordinal 2024 5 31) = Ok by_date
    ∧ Equipment_get_next_maintenance_date sample_clock sample_db_ahead 2%nat
        sample_equipment_monthly = Ok (Some (toordinal 2024 5 20))
    ∧ ((7%nat, sample_ahead)
       ∉ preventive_requests sample_db_ahead (toordinal 2024 5 1)
           (toordinal 2024 5 31))
    ∧ existing_request sample_db_ahead 2%nat (toordinal 2024 5 20) ≠ None
    ∧ by_date !!! toordinal 2024 5 20 = [].
Proof.
  destruct (requests_by_date_spec String.leb sample_clock sample_db_ahead
              (toordinal 2024 5 31) (toordinal 2024 5 1))
    as (by_date & Hby & _); [vm_compute; reflexivity|].
  destruct (repaired_request_hides_the_date String.leb sample_clock
              sample_db_ahead
              (toordinal 2024 5 1) (toordinal 2024 5 31) by_date 7%nat 2%nat
              sample_ahead (toordinal 2024 5 20) Hby)
    as (Hnot & Hex & _).
  - reflexivity.
  - reflexivity.
  - reflexivity.
  - reflexivity.
  - reflexivity.
  - intros pk' r' Hrow Heq _ Hd.
    change (requests sample_db_ahead)
      with (<[ 7%nat := sample_ahead ]>
              (<[ 5%nat := sample_service ]>
                 ({[ 1%nat := sample_request ]}
                    : gmap nat MaintenanceRequest)))
      in Hrow.
    apply lookup_insert_Some in Hrow as [[_ <-] | [_ Hrow]].
    + apply elem_of_two. left. reflexivity.
    + apply lookup_insert_Some in Hrow as [[_ <-] | [_ Hrow]].
      * apply elem_of_two. left. reflexivity.
      * apply lookup_singleton_Some in Hrow as [_ <-]. discriminate Heq.
  - exists by_date. split; [exact Hby|].
    split; [vm_compute; reflexivity|].
    split; [exact Hnot|]. split; [exact Hex|].
    vm_compute in Hby. injection Hby as <-. vm_compute. reflexivity.
Defined.

(** ** Roles *)

Lemma role_check_passes (P : Prop) `{Decision P} (refusal : Outcome) :
  (if negb (bool_decide P) then Some refusal else None) = None ↔ P.
Proof. case_bool_decide; simpl; split; done. Qed.

Lemma gate_passes_iff (g : Gate) (db : DB) (uid : nat) :
  gate_dispatch g db (User uid) = None
  ↔ ∃ role, profile_role db uid = Some role ∧ role ∈ permitted_roles g.
Proof.
  destruct g; simpl;
    unfold ManagerRequiredMixin_dispatch, AdminRequiredMixin_dispatch,
      TechnicianRequiredMixin_dispatch, UserRequiredMixin_dispatch,
      AdminOrManagerRequiredMixin_dispatch, role_required;
    destruct (profile_role db uid) as [role|];
    try (split; [done|by intros (? & ? & _)]);
    rewrite role_check_passes; split.
  all: try (intros ->; eexists; split; [done|by apply list_elem_of_singleton]).
  all: try (intros Hin; exists role; by split).
  all: intros (role' & [= <-] & Hin); try done.
  all: by apply list_elem_of_singleton in Hin.
Qed.

(** X21. Every gate fails closed and decides by the stored role alone: the
    anonymous user is sent to the login page, and an authenticated user
    passes exactly when a profile exists whose role is, letter for letter,
    one of the permitted ones. *)
Theorem gate_fails_closed (g : Gate) (db : DB) :
  gate_dispatch g db AnonymousUser = Some RedirectToLogin
  ∧ ∀ uid, gate_dispatch g db (User uid) = None
           ↔ ∃ role, profile_role db uid = Some role
                     ∧ role ∈ permitted_roles g.
Proof.
  split; [by destruct g|]. intros uid. apply gate_passes_iff.
Qed.

(** X22. The decorators and the mixins admit the same users: each shortcut
    of [decorators.py] lets a request through exactly when the mixin of the
    same name does, and [has_role] is true exactly when [role_required]
    with the same roles lets the user through. *)
Theorem decorators_agree_with_mixins (db : DB) (user : Identity) :
  (admin_required db user = None
   ↔ AdminRequiredMixin_dispatch db user = None)
  ∧ (manager_required db user = None
     ↔ ManagerRequiredMixin_dispatch db user = None)
  ∧ (technician_required db user = None
     ↔ TechnicianRequiredMixin_dispatch db user = None)
  ∧ (user_required db user = None
     ↔ UserRequiredMixin_dispatch db user = None)
  ∧ (admin_or_manager_required db user = None
     ↔ AdminOrManagerRequiredMixin_dispatch db user = None)
  ∧ ∀ roles, has_role db user roles = true
             ↔ role_required roles db user = None.
Proof.
  destruct user as [|uid].
  - repeat split; done.
  - pose proof (gate_passes_iff AdminRequired db uid) as H1.
    pose proof (gate_passes_iff ManagerRequired db uid) as H2.
    pose proof (gate_passes_iff TechnicianRequired db uid) as H3.
    pose proof (gate_passes_iff UserRequired db uid) as H4.
    pose proof (gate_passes_iff AdminOrManagerRequired db uid) as H5.
    pose proof (λ l, gate_passes_iff (RoleRequired l) db uid) as H6.
    simpl in *.
    unfold admin_required, manager_required, technician_required,
      user_required, admin_or_manager_required.
    rewrite H1, H2, H3, H4, H5.
    repeat (split; [done|]). intros roles. rewrite H6. split.
    + unfold has_role. simpl. destruct (profile_role db uid) as [role|];
        [|done].
      intros Hin%bool_decide_eq_true. by exists role.
    + intros (role & Hrole & Hin). unfold has_role. simpl. rewrite Hrole.
      by apply bool_decide_eq_true.
Qed.

(** X23. After a login the user is sent where the role may enter: with one
    of the four roles, to the dashboard of that role, whose gate lets the
    user pass; with any other role, to the manager's dashboard, whose gate
    refuses; without profile, back to the login page.  The table of
    [utils.get_role_redirect_url] names the path of the same page. *)
Theorem login_redirect_matches_gate (db : DB) (uid : nat) :
  let target := CustomLoginView_get_success_url db uid in
  (profile_role db uid = None → target = url_login)
  ∧ ∀ role, profile_role db uid = Some role →
      get_role_redirect_url role = url_path target
      ∧ (role ∈ ["Admin"; "Manager"; "Technician"; "User"] →
         ∃ g, url_gate target = Some g
              ∧ permitted_roles g = [role]
              ∧ gate_dispatch g db (User uid) = None)
      ∧ (role ∉ ["Admin"; "Manager"; "Technician"; "User"] →
         target = url_manager_dashboard
         ∧ ∃ msg, gate_dispatch ManagerRequired db (User uid)
                  = Some (PermissionDenied msg)).
Proof.
  simpl. unfold CustomLoginView_get_success_url. split; [by intros ->|].
  intros role Hrole. rewrite Hrole.
  assert (∀ g, role ∈ permitted_roles g →
               gate_dispatch g db (User uid) = None) as Hpass.
  { intros g Hin. apply gate_passes_iff. by exists role. }
  destruct (decide (role = "Admin")) as [-> | Ha];
    [split; [done|]; split; [intros _; exists AdminRequired|]|].
  { split; [done|]. split; [done|]. apply Hpass. by apply list_elem_of_singleton. }
  { intros Hn. destruct Hn. repeat constructor. }
  destruct (decide (role = "Manager")) as [-> | Hm];
    [split; [done|]; split; [intros _; exists ManagerRequired|]|].
  { split; [done|]. split; [done|]. apply Hpass. by apply list_elem_of_singleton. }
  { intros Hn. destruct Hn. repeat constructor. }
  destruct (decide (role = "Technician")) as [-> | Ht];
    [split; [done|]; split; [intros _; exists TechnicianRequired|]|].
  { split; [done|]. split; [done|]. apply Hpass. by apply list_elem_of_singleton. }
  { intros Hn. destruct Hn. repeat constructor. }
  destruct (decide (role = "User")) as [-> | Hu];
    [split; [done|]; split; [intros _; exists UserRequired|]|].
  { split; [done|]. split; [done|]. apply Hpass. by apply list_elem_of_singleton. }
  { intros Hn. destruct Hn. repeat constructor. }
  assert (login_role_redirects !! role = None
          ∧ utils_role_redirects !! role = None) as [Hl Hu'].
  { unfold login_role_redirects, utils_role_redirects. simpl.
    rewrite !lookup_insert_ne, !lookup_empty by done. done. }
  unfold get_role_redirect_url. rewrite Hl, Hu'. simpl.
  split; [done|]. split.
  - intros Hin. repeat apply elem_of_cons in Hin as [?|Hin]; try done.
    by apply elem_of_nil in Hin.
  - intros _. split; [done|]. simpl.
    rewrite bool_decide_eq_false_2 by done. by eexists.
Qed.

(** ** Completion dates and the next maintenance date *)

Section DatedRows.

Variable round_hours : Z → decimal2.

Lemma update_request_stage_fields_dated (c : Clock) (new_stage : string)
    (r : MaintenanceRequest) :
  dated_if_repaired (update_request_stage_fields round_hours c new_stage r)
  = true.
Proof.
  unfold dated_if_repaired, update_request_stage_fields.
  destruct r as [sub ty st pr eq tm tech cb sd cd dur ast aet ov notes summ].
  simpl.
  destruct (decide (new_stage = "Repaired")) as [-> | Hne].
  - destruct cd, aet, ast, dur as [[]|]; reflexivity.
  - assert (∀ x, stage x = new_stage →
              negb (bool_decide (stage x = "Repaired")) || truthy (completed_date x)
              = true) as Hx.
    { intros x ->. by rewrite bool_decide_eq_false_2. }
    apply Hx.
    destruct (bool_decide (new_stage = "In Progress") && negb (truthy ast));
      [done|].
    destruct (bool_decide (new_stage ∈ ["Repaired"; "Scrap"])); [|done].
    destruct cd, aet, ast, dur as [[]|]; reflexivity.
Qed.

Lemma manager_fields_dated (c : Clock) (r : MaintenanceRequest) :
  dated_if_repaired (MaintenanceRequestUpdateView_fields round_hours c r)
  = true.
Proof.
  unfold dated_if_repaired, MaintenanceRequestUpdateView_fields.
  destruct r as [sub ty st pr eq tm tech cb sd cd dur ast aet ov notes summ].
  simpl.
  destruct (decide (st = "Repaired")) as [-> | Hne].
  - destruct cd, aet, ast, dur as [[]|]; reflexivity.
  - assert (∀ x, stage x = st →
              negb (bool_decide (stage x = "Repaired")) || truthy (completed_date x)
              = true) as Hx.
    { intros x ->. by rewrite bool_decide_eq_false_2. }
    apply Hx.
    destruct (bool_decide (st ∈ ["Repaired"; "Scrap"])).
    + destruct cd, aet, ast, dur as [[]|]; reflexivity.
    + destruct (bool_decide (st = "In Progress") && negb (truthy ast)); done.
Qed.

Lemma technician_fields_dated (c : Clock) (uid : nat)
    (r : MaintenanceRequest) :
  dated_if_repaired (TechnicianRequestDetailView_fields round_hours c uid r)
  = true.
Proof.
  unfold dated_if_repaired, TechnicianRequestDetailView_fields.
  destruct r as [sub ty st pr eq tm tech cb sd cd dur ast aet ov notes summ].
  simpl.
  destruct (decide (st = "Repaired")) as [-> | Hne].
  - destruct cd, aet, ast, tech; reflexivity.
  - assert (∀ x, stage x = st →
              negb (bool_decide (stage x = "Repaired")) || truthy (completed_date x)
              = true) as Hx.
    { intros x ->. by rewrite bool_decide_eq_false_2. }
    apply Hx.
    rewrite (bool_decide_eq_false_2 (st = "Repaired")) by done. simpl.
    destruct (bool_decide (st = "In Progress")), ast; simpl;
      destruct (bool_decide (st ∈ ["Repaired"; "Scrap"])), aet; simpl;
      destruct tech; reflexivity.
Qed.

(** An operation either returns the store it was given or completes by one
    [save] of a row that is dated if it is Repaired. *)
Lemma run_saves_dated (op : Operation) (c : Clock) (db : DB) :
  keeps_dates op = true →
  fst (run round_hours op c db) = db
  ∨ ∃ self db',
      MaintenanceRequest_save c db (target op) self = Some db'
      ∧ fst (run round_hours op c db) = db'
      ∧ dated_if_repaired self = true.
Proof.
  intros Hop.
  assert (∀ pk self ok, dated_if_repaired self = true →
            fst (save_then c db pk self ok) = db
            ∨ ∃ self' db',
                MaintenanceRequest_save c db pk self' = Some db'
                ∧ fst (save_then c db pk self ok) = db'
                ∧ dated_if_repaired self' = true) as Hsave.
  { intros pk self ok Hd.
    destruct (save_then_cases c db pk self ok) as [-> | (db' & Hs & ->)];
      [by left|right; eauto]. }
  destruct op as [pk self|user pk|user pk|user pk new_stage|pk r|uid pk post];
    simpl in *.
  - by apply Hsave.
  - unfold start_task. destruct user as [|uid]; [by left|].
    destruct (requests db !! pk) as [r|]; [|by left].
    destruct (_ && _); [by left|]. apply Hsave.
    destruct r, assigned_technician0; reflexivity.
  - unfold end_task. destruct user as [|uid]; [by left|].
    destruct (requests db !! pk) as [r|]; [|by left].
    destruct (negb _); [by left|].
    destruct (actual_start_time r); [|by left]. apply Hsave.
    destruct r; reflexivity.
  - unfold update_request_stage. destruct user as [|uid]; [by left|].
    destruct (requests db !! pk) as [r|]; [|by left].
    destruct new_stage as [new_stage|]; [|by left].
    destruct (negb _); [by left|]. apply Hsave.
    apply update_request_stage_fields_dated.
  - apply Hsave. apply manager_fields_dated.
  - unfold TechnicianRequestDetailView_post.
    destruct (requests db !! pk) as [r|]; [|by left].
    destruct (_ && _); [by left|].
    destruct (TechnicianRequiredMixin_dispatch db (User uid)); [by left|].
    destruct (TechnicianRequestUpdateForm_is_valid _ _ _) as [errors|inst];
      [by left|].
    apply Hsave. apply technician_fields_dated.
Qed.

Lemma repaired_dated_run (op : Operation) (c : Clock) (db : DB) :
  keeps_dates op = true → repaired_dated db →
  repaired_dated (fst (run round_hours op c db)).
Proof.
  intros Hop Hdb.
  destruct (run_saves_dated op c db Hop)
    as [-> | (self & db' & Hsave & -> & Hd)]; [done|].
  intros pk r Hrow.
  destruct (decide (pk = target op)) as [-> | Hne].
  - rewrite (save_stores c db _ self db' Hsave) in Hrow.
    injection Hrow as <-. by destruct self.
  - rewrite (save_other_rows c db _ self db' pk Hsave Hne) in Hrow.
    by apply (Hdb pk r).
Qed.

(** X24. Through every history of the application's operations (the task
    and stage views, the manager's and the technician's forms, and saves of
    instances that are not Repaired or are dated), every request in stage
    Repaired carries a completion date. *)
Theorem repaired_requests_stay_dated (history : list (Clock * Operation))
    (db : DB) :
  repaired_dated db →
  Forall (λ step, keeps_dates (snd step) = true) history →
  repaired_dated (run_all round_hours history db).
Proof.
  revert db. induction history as [|[c op] rest IH]; intros db Hdb Hall;
    simpl; [done|].
  apply Forall_cons in Hall as [Hop Hrest].
  apply IH; [|done]. by apply repaired_dated_run.
Qed.

End DatedRows.

(** The witness of X24: the board moves the sample request to Repaired; the
    stored row carries the day of the move. *)
Lemma repaired_requests_stay_dated_witness :
  repaired_dated
    (run_all round_half_even
       [(sample_clock, OpUpdateStage (User 2%nat) 1%nat (Some "Repaired"))]
       sample_db)
  ∧ (completed_date <$>
       requests (run_all round_half_even
                   [(sample_clock,
                     OpUpdateStage (User 2%nat) 1%nat (Some "Repaired"))]
                   sample_db) !! 1%nat)
    = Some (Some (toordinal 2024 5 10)).
Proof.
  split; [|vm_compute; reflexivity].
  apply (repaired_requests_stay_dated round_half_even
           [(sample_clock, OpUpdateStage (User 2%nat) 1%nat (Some "Repaired"))]
           sample_db).
  - intros pk r Hrow.
    change (requests sample_db)
      with ({[ 1%nat := sample_request ]} : gmap nat MaintenanceRequest)
      in Hrow.
    apply lookup_singleton_Some in Hrow as [_ <-]. reflexivity.
  - repeat constructor.
Defined.

Lemma elem_of_completed_preventive (db : DB) (eq_pk : nat)
    (x : nat * MaintenanceRequest) :
  x ∈ completed_preventive db eq_pk
  ↔ requests db !! x.1 = Some x.2
    ∧ equipment x.2 = eq_pk
    ∧ request_type x.2 = "Preventive"
    ∧ stage x.2 = "Repaired".
Proof.
  unfold completed_preventive. rewrite list_elem_of_filter.
  destruct x as [k r]. rewrite elem_of_map_to_list. simpl. tauto.
Qed.

(** X25. With an interval other than zero and every Repaired request
    dated, the next maintenance date counts from the latest completion date
    among the equipment's Repaired preventive requests (no completed
    request of the equipment is later), and without such a request from the
    purchase date, or from today when there is none.  The method returns
    that date plus the interval when the sum is a date of Python, from
    0001-01-01 to 9999-12-31, and raises [OverflowError] when it is not. *)
Theorem next_maintenance_date_from_latest_service (c : Clock) (db : DB)
    (eq_pk : nat) (self : Equipment) (interval : Z) :
  maintenance_interval_days self = Some interval → interval ≠ 0 →
  repaired_dated db →
  let from := counted_from c db eq_pk self in
  (∀ pk r, requests db !! pk = Some r → equipment r = eq_pk →
           request_type r = "Preventive" → stage r = "Repaired" →
     (∃ pk' r', requests db !! pk' = Some r' ∧ equipment r' = eq_pk
                ∧ request_type r' = "Preventive" ∧ stage r' = "Repaired"
                ∧ completed_date r' = Some from)
     ∧ ∀ d, completed_date r = Some d → d ≤ from)
  ∧ ((∀ pk r, requests db !! pk = Some r → equipment r = eq_pk →
              request_type r = "Preventive" → stage r ≠ "Repaired") →
     from = default (today c) (purchase_date self))
  ∧ (Z.abs interval ≤ 999999999 → 1 ≤ from + interval ≤ date_max →
     Equipment_get_next_maintenance_date c db eq_pk self
     = Ok (Some (from + interval)))
  ∧ (¬ (Z.abs interval ≤ 999999999 ∧ 1 ≤ from + interval ≤ date_max) →
     Equipment_get_next_maintenance_date c db eq_pk self
     = Raise OverflowError).
Proof.
  intros Hi Hne Hdated. simpl.
  assert (∀ x, x ∈ completed_preventive db eq_pk →
               is_Some (completed_date x.2)) as Hall.
  { intros [k r] (Hrow & _ & _ & Hst)%elem_of_completed_preventive.
    simpl in *. specialize (Hdated k r Hrow).
    unfold dated_if_repaired in Hdated.
    rewrite bool_decide_eq_true_2 in Hdated by done. simpl in Hdated.
    by destruct (completed_date r). }
  split; [|split; [|split]].
  - intros pk r Hrow He Hty Hst.
    assert ((pk, r) ∈ completed_preventive db eq_pk) as Hin
      by (by apply elem_of_completed_preventive).
    unfold counted_from.
    destruct (last_preventive_completed_date db eq_pk) as [latest|] eqn:Hlast.
    + destruct (last_preventive_latest db eq_pk latest Hall Hlast)
        as [([k' r'] & Hin' & Hd') Hmax].
      apply elem_of_completed_preventive in Hin' as (?&?&?&?).
      split; [by exists k', r'|].
      intros d Hd. by apply (Hmax (pk, r) d).
    + exfalso. unfold last_preventive_completed_date, last_preventive in Hlast.
      destruct (first_ordered _) as [[k' r']|] eqn:Hfirst.
      * apply first_ordered_spec in Hfirst as [Hin' _].
        destruct (Hall _ Hin') as [d Hd]. simpl in *. congruence.
      * apply first_ordered_none in Hfirst. rewrite Hfirst in Hin.
        by apply elem_of_nil in Hin.
  - intros Hnone.
    assert (completed_preventive db eq_pk = []) as Hempty.
    { apply elem_of_nil_inv.
      intros [k r] (Hrow & He & Hty & Hst)%elem_of_completed_preventive.
      by apply (Hnone k r Hrow He Hty). }
    unfold counted_from, last_preventive_completed_date, last_preventive.
    rewrite Hempty. simpl. by destruct (purchase_date self).
  - intros Habs Hrange. by apply next_maintenance_date_in_range.
  - intros Hout.
    rewrite (next_maintenance_date_some c db eq_pk self interval Hi Hne).
    destruct (date_add_cases (counted_from c db eq_pk self) interval)
      as [Hadd | ->]; [|done].
    apply date_add_ok in Hadd as (_ & Habs & Hrange). by destruct Hout.
Qed.

(** The witness of X25: the monthly press, serviced on 2024-04-20, is due
    thirty days after a completion date that is not before that day; with
    an interval of 3000000 days the method raises. *)
Lemma next_maintenance_date_from_latest_service_witness :
  toordinal 2024 4 20
  ≤ counted_from sample_clock sample_db_serviced 2%nat
      sample_equipment_monthly
  ∧ Equipment_get_next_maintenance_date sample_clock sample_db_serviced 2%nat
      sample_equipment_monthly
    = Ok (Some (counted_from sample_clock sample_db_serviced 2%nat
                  sample_equipment_monthly + 30))
  ∧ Equipment_get_next_maintenance_date sample_clock sample_db_far 3%nat
      sample_equipment_far
    = Raise OverflowError.
Proof.
  assert (repaired_dated sample_db_serviced) as Hdated.
  { intros pk r Hrow.
    change (requests sample_db_serviced)
      with (<[ 5%nat := sample_service ]>
              ({[ 1%nat := sample_request ]} : gmap nat MaintenanceRequest))
      in Hrow.
    apply lookup_insert_Some in Hrow as [[_ <-] | [_ Hrow]]; [reflexivity|].
    apply lookup_singleton_Some in Hrow as [_ <-]. reflexivity. }
  assert (repaired_dated sample_db_far) as Hdated'.
  { intros pk r Hrow.
    change (requests sample_db_far)
      with ({[ 1%nat := sample_request ]} : gmap nat MaintenanceRequest)
      in Hrow.
    apply lookup_singleton_Some in Hrow as [_ <-]. reflexivity. }
  destruct (next_maintenance_date_from_latest_service sample_clock
              sample_db_serviced 2%nat sample_equipment_monthly 30
              eq_refl ltac:(lia) Hdated) as (Hlatest & _ & Hsome & _).
  destruct (Hlatest 5%nat sample_service eq_refl eq_refl eq_refl eq_refl)
    as (_ & Hmax).
  destruct (next_maintenance_date_from_latest_service sample_clock
              sample_db_far 3%nat sample_equipment_far 3000000
              eq_refl ltac:(lia) Hdated') as (_ & _ & _ & Hraise).
  split; [apply Hmax; reflexivity|]. split.
  - apply Hsome; vm_compute; [discriminate|split; discriminate].
  - apply Hraise. vm_compute. intros [_ [_ Hle]]. by apply Hle.
Defined.

(** X26. A Repaired preventive request without completion date hides the
    service history: the descending order of the query puts the undated row
    first (PostgreSQL sorts NULL first when descending), the first row has
    no date, and the next maintenance date is counted from the purchase
    date, or from today, whatever completion dates the other requests
    carry: the method returns that date plus the interval when the sum is
    a date of Python, and raises [OverflowError] when it is not. *)
Theorem undated_service_hides_history (c : Clock) (db : DB) (eq_pk : nat)
    (self : Equipment) (interval : Z) (pk : nat) (r : MaintenanceRequest) :
  maintenance_interval_days self = Some interval → interval ≠ 0 →
  requests db !! pk = Some r → equipment r = eq_pk →
  request_type r = "Preventive" → stage r = "Repaired" →
  completed_date r = None →
  let from := default (today c) (purchase_date self) in
  counted_from c db eq_pk self = from
  ∧ (Z.abs interval ≤ 999999999 → 1 ≤ from + interval ≤ date_max →
     Equipment_get_next_maintenance_date c db eq_pk self
     = Ok (Some (from + interval)))
  ∧ (¬ (Z.abs interval ≤ 999999999 ∧ 1 ≤ from + interval ≤ date_max) →
     Equipment_get_next_maintenance_date c db eq_pk self
     = Raise OverflowError).
Proof.
  intros Hi Hne Hrow He Hty Hst Hcd. simpl.
  assert (counted_from c db eq_pk self
          = default (today c) (purchase_date self)) as Hfrom.
  { assert ((pk, r) ∈ completed_preventive db eq_pk) as Hin
      by (by apply elem_of_completed_preventive).
    unfold counted_from, last_preventive_completed_date, last_preventive.
    destruct (first_ordered _) as [[k' r']|] eqn:Hfirst.
    - apply first_ordered_spec in Hfirst as [_ Hmin].
      specialize (Hmin (pk, r) Hin). simpl in Hmin.
      unfold comes_before, desc_lt in Hmin. rewrite Hcd in Hmin.
      destruct (completed_date r') as [d|]; [done|].
      by destruct (purchase_date self).
    - by destruct (purchase_date self). }
  split; [done|]. rewrite <- Hfrom. split.
  - intros Habs Hrange. by apply next_maintenance_date_in_range.
  - intros Hout.
    rewrite (next_maintenance_date_some c db eq_pk self interval Hi Hne).
    destruct (date_add_cases (counted_from c db eq_pk self) interval)
      as [Hadd | ->]; [|done].
    apply date_add_ok in Hadd as (_ & Habs & Hrange). by destruct Hout.
Qed.

(** The witness of X26: beside the service dated 2024-04-20 an undated
    Repaired request is stored; the press, bought on 2023-01-15, is then due
    on 2023-02-14 instead of 2024-05-20. *)
Lemma undated_service_hides_history_witness :
  Equipment_get_next_maintenance_date sample_clock sample_db_undated 2%nat
    sample_equipment_monthly
  = Ok (Some (toordinal 2023 1 15 + 30))
  ∧ completed_date <$> requests sample_db_undated !! 5%nat
    = Some (Some (toordinal 2024 4 20)).
Proof.
  split; [|vm_compute; reflexivity].
  destruct (undated_service_hides_history sample_clock sample_db_undated
              2%nat sample_equipment_monthly 30 8%nat sample_undated
              eq_refl ltac:(lia) eq_refl eq_refl eq_refl eq_refl eq_refl)
    as (_ & Hsome & _).
  apply Hsome; vm_compute; [discriminate|split; discriminate].
Defined.

(** ** Registration requests *)

Lemma registration_gate_admin (db : DB) (user : Identity) :
  registration_gate db user = None ↔ get_user_role db user = Some "Admin".
Proof.
  destruct user as [|uid]; simpl; [done|].
  destruct (profile_role db uid) as [role|]; [|done].
  case_bool_decide; simpl; split; congruence.
Qed.

Lemma registration_gate_refusal (db : DB) (user : Identity)
    (refusal : Outcome) :
  registration_gate db user = Some refusal →
  refusal = JsonResponse 403 "Permission denied".
Proof.
  destruct user as [|uid]; simpl; [congruence|].
  destruct (profile_role db uid) as [role|]; [|congruence].
  destruct (negb _); congruence.
Qed.

Lemma get_pending_Some (s : Site) (pk : nat) (registration : UserRegistration) :
  get_pending s pk = Some registration
  ↔ registrations s !! pk = Some registration
    ∧ status registration = "Pending".
Proof.
  unfold get_pending. destruct (registrations s !! pk) as [r|].
  - case_bool_decide as Hst; split.
    + by intros [= <-].
    + by intros [[= <-] _].
    + done.
    + intros [[= <-] Hp]. done.
  - split; [done|by intros [? _]].
Qed.

(** X27. The registration views fail closed: when the requester is not an
    authenticated user whose profile has the role Admin, or the registration
    does not exist or is no longer pending, approval and rejection answer
    403 or 404 and leave users, profiles and registrations exactly as they
    were.  A rejection, whoever asks, never touches users or profiles. *)
Theorem registration_decisions_fail_closed (c : Clock)
    (d : RegistrationRequest) (s : Site) :
  (get_user_role (site_db s) (decision_user d) ≠ Some "Admin"
   ∨ get_pending s (decision_pk d) = None →
   fst (decide_registration c d s) = s
   ∧ snd (decide_registration c d s)
     ∈ [JsonResponse 403 "Permission denied"; Http404])
  ∧ ∀ user pk post_reason,
      d = Reject user pk post_reason →
      site_db (fst (decide_registration c d s)) = site_db s
      ∧ users (fst (decide_registration c d s)) = users s.
Proof.
  split.
  - intros Hno.
    assert (registration_gate (site_db s) (decision_user d) = None
            → get_pending s (decision_pk d) = None) as Hpend.
    { intros Hg%registration_gate_admin. by destruct Hno. }
    destruct d as [user pk|user pk post_reason]; simpl in *;
      unfold approve_registration, reject_registration;
      (destruct (registration_gate (site_db s) user) as [refusal|] eqn:Hg;
       [apply registration_gate_refusal in Hg as ->; simpl; split; [done|];
        apply elem_of_cons; by left
       |rewrite (Hpend eq_refl); simpl; split; [done|];
        apply elem_of_cons; right; by apply list_elem_of_singleton]).
  - intros user pk post_reason ->. simpl. unfold reject_registration.
    destruct (registration_gate (site_db s) user); [done|].
    by destruct (get_pending s pk).
Qed.

(** The witness of X27: the manager (user 2) asks to approve the pending
    registration 1. *)
Lemma registration_decisions_fail_closed_witness :
  fst (decide_registration sample_clock (Approve (User 2%nat) 1%nat)
         sample_site) = sample_site.
Proof.
  destruct (registration_decisions_fail_closed sample_clock
              (Approve (User 2%nat) 1%nat) sample_site) as [Hclosed _].
  apply Hclosed. left. vm_compute. congruence.
Defined.

(** X28. An approval by an administrator of a pending registration gives
    the requested role to the user of the registration's user name: a new
    user when the name is free (and the e-mail address is), and otherwise
    the existing user of that name, whose role is replaced whatever it was.
    The registration is stored as Approved by the administrator; requests,
    equipment and teams are untouched. *)
Theorem approval_grants_requested_role (c : Clock) (s : Site)
    (user : Identity) (pk : nat) (registration : UserRegistration) :
  get_user_role (site_db s) user = Some "Admin" →
  get_pending s pk = Some registration →
  (users s !! reg_username registration = None →
   email_taken s (reg_email registration) = false) →
  let s' := fst (approve_registration c s user pk) in
  (∃ account,
     users s' !! reg_username registration = Some account
     ∧ profile_role (site_db s') (user_id account)
       = Some (requested_role registration)
     ∧ (∀ existing, users s !! reg_username registration = Some existing →
                    account = existing)
     ∧ (users s !! reg_username registration = None →
        user_id account = S (last_user_id s)))
  ∧ registrations s' !! pk = Some (decided "Approved" c user registration)
  ∧ requests (site_db s') = requests (site_db s)
  ∧ equipment_table (site_db s') = equipment_table (site_db s)
  ∧ team_members (site_db s') = team_members (site_db s).
Proof.
  intros Hadmin%registration_gate_admin Hpend Hmail. simpl.
  unfold approve_registration. rewrite Hadmin, Hpend.
  destruct (users s !! reg_username registration) as [existing|] eqn:Huser.
  - simpl. split; [|by rewrite lookup_insert_eq].
    exists existing. split; [done|]. split.
    { unfold profile_role. simpl. by rewrite lookup_insert_eq. }
    split; [congruence|done].
  - rewrite (Hmail eq_refl). simpl. split; [|by rewrite lookup_insert_eq].
    eexists. split; [by rewrite lookup_insert_eq|]. split.
    { unfold profile_role. simpl. by rewrite lookup_insert_eq. }
    split; [done|done].
Qed.

(** The witness of X28: the pending registration carries the user name of
    the administrator and asks for the role User; once the administrator
    approves it, the administrator's own role is User. *)
Lemma approval_grants_requested_role_witness :
  profile_role (site_db sample_site) 1%nat = Some "Admin"
  ∧ profile_role
      (site_db (fst (approve_registration sample_clock sample_site
                       (User 1%nat) 1%nat))) 1%nat
    = Some "User".
Proof.
  split; [reflexivity|].
  destruct (approval_grants_requested_role sample_clock sample_site
              (User 1%nat) 1%nat sample_registration eq_refl eq_refl)
    as [(account & Hacc & Hrole & Hsame & _) _].
  { intros Hfree. vm_compute in Hfree. congruence. }
  rewrite (Hsame {| user_id := 1%nat; email := "root@example.com" |} eq_refl)
    in Hrole.
  exact Hrole.
Defined.

Lemma decision_keeps_decided (c : Clock) (d : RegistrationRequest) (s : Site)
    (pk : nat) (registration : UserRegistration) :
  registrations s !! pk = Some registration →
  status registration ≠ "Pending" →
  registrations (fst (decide_registration c d s)) !! pk = Some registration.
Proof.
  intros Hrow Hst.
  assert (∀ pk', is_Some (get_pending s pk') → pk' ≠ pk) as Hne.
  { intros pk' [r [Hr Hp]%get_pending_Some] ->. congruence. }
  destruct d as [user pk'|user pk' post_reason]; simpl;
    unfold approve_registration, reject_registration;
    (destruct (registration_gate (site_db s) user); [done|]);
    (destruct (get_pending s pk') as [r|] eqn:Hp; [|done]);
    assert (pk' ≠ pk) by (by apply Hne; rewrite Hp).
  - destruct (users s !! reg_username r).
    + simpl. by rewrite lookup_insert_ne.
    + destruct (email_taken s (reg_email r)); [done|].
      simpl. by rewrite lookup_insert_ne.
  - simpl. by rewrite lookup_insert_ne.
Qed.

(** X29. A decision is final: once a registration is Approved or Rejected
    (in any status other than Pending), no history of approvals and
    rejections, by whomever and of whichever registrations, changes it. *)
Theorem registration_decision_is_final
    (history : list (Clock * RegistrationRequest)) (s : Site) (pk : nat)
    (registration : UserRegistration) :
  registrations s !! pk = Some registration →
  status registration ≠ "Pending" →
  registrations (decide_all history s) !! pk = Some registration.
Proof.
  revert s. induction history as [|[c d] rest IH]; intros s Hrow Hst;
    simpl; [done|].
  apply IH; [|done]. by apply decision_keeps_decided.
Qed.

(** The witness of X29: the administrator approves the rejected
    registration 2 and then rejects it again; it stays as it was. *)
Lemma registration_decision_is_final_witness :
  registrations
    (decide_all [(sample_clock, Approve (User 1%nat) 2%nat);
                 (sample_clock, Reject (User 1%nat) 2%nat (Some "Again"))]
       sample_site) !! 2%nat
  = Some sample_registration_rejected.
Proof.
  apply (registration_decision_is_final
           [(sample_clock, Approve (User 1%nat) 2%nat);
            (sample_clock, Reject (User 1%nat) 2%nat (Some "Again"))]
           sample_site 2%nat sample_registration_rejected).
  - reflexivity.
  - simpl. congruence.
Defined.
